(** * RAI assistant: chat persistence model, intent routing and usage limits

    A shallow embedding of the server side of the repository:
    - [server/models/message.js], [server/models/conversation.js] and the
      user model (Mongoose schemas with their instance methods),
    - the chat controller ([handleMessage], [generateAIResponse],
      [analyzeIntent], [deleteConversation]),
    - the AI service ([generateTextResponse], [generateWithGemini], ...).

    JavaScript strings are modelled by [string]: sequences of 8-bit
    characters, read as the code units U+0000 to U+00FF.  The case and
    white-space operations are those of JavaScript on these code units.
    The database is an explicit store threaded through a
    state-and-exception monad; the answers of the external providers and
    the readings of the clock are inputs of a turn. *)

From Stdlib Require Import String Ascii List Bool Arith ZArith QArith Lia.
From Stdlib Require Import Sorting.Permutation.
Import ListNotations.

Open Scope string_scope.

(* ------------------------------------------------------------------ *)
(** ** JavaScript string primitives used by the sources *)

Module JsString.

(** [String.prototype.toLowerCase] on one code unit: the letters A to Z
    and, above the ASCII range, U+00C0 to U+00DE without the
    multiplication sign U+00D7. *)
Definition lower_char (c : ascii) : ascii :=
  let n := nat_of_ascii c in
  if ((65 <=? n)%nat && (n <=? 90)%nat)
     || ((192 <=? n)%nat && (n <=? 222)%nat && negb (n =? 215)%nat)
  then ascii_of_nat (n + 32) else c.

Fixpoint toLowerCase (s : string) : string :=
  match s with
  | EmptyString => EmptyString
  | String c s' => String (lower_char c) (toLowerCase s')
  end.

(** [s.length]. *)
Definition length (s : string) : Z := Z.of_nat (String.length s).

(** [s.includes(sub)]: [sub] occurs in [s] at some position. *)
Fixpoint includes (s sub : string) : bool :=
  if prefix sub s then true
  else match s with
       | EmptyString => false
       | String _ s' => includes s' sub
       end.

(** [s.substring(from, to)]: both indices are clamped to the length and
    swapped when out of order. *)
Definition substring (s : string) (from to : nat) : string :=
  let len := String.length s in
  let a := Nat.min from len in
  let b := Nat.min to len in
  String.substring (Nat.min a b) (Nat.max a b - Nat.min a b) s.

(** The code units removed by [String.prototype.trim]: the white space
    and line terminators of ECMAScript that lie below U+0100, which are
    U+0009 to U+000D, the space U+0020 and the no-break space U+00A0. *)
Definition is_space (c : ascii) : bool :=
  let n := nat_of_ascii c in
  ((9 <=? n)%nat && (n <=? 13)%nat) || (n =? 32)%nat || (n =? 160)%nat.

Fixpoint trimStart (s : string) : string :=
  match s with
  | EmptyString => EmptyString
  | String c s' => if is_space c then trimStart s' else s
  end.

(** Drops the trailing white space: a character is kept when it is not a
    space or when something is kept after it. *)
Fixpoint trimEnd (s : string) : string :=
  match s with
  | EmptyString => EmptyString
  | String c s' =>
      match trimEnd s' with
      | EmptyString => if is_space c then EmptyString else String c EmptyString
      | r => String c r
      end
  end.

Definition trim (s : string) : string := trimEnd (trimStart s).

(** The first character of [s] is white space. *)
Definition starts_with_space (s : string) : bool :=
  match s with
  | EmptyString => false
  | String c _ => is_space c
  end.

End JsString.

(* ------------------------------------------------------------------ *)
(** ** The intent classifier ([ChatController.analyzeIntent]) *)

Module Intent.
Import JsString.

Record intent := mkIntent { type : string; confidence : Q }.

Definition categories : list string :=
  [ "image_generation"; "code_generation"; "web_search";
    "voice_command"; "document_analysis"; "text_response" ].

(** The six tests of the source, in the order in which it makes them. *)
Definition generate_image (l : string) : bool :=
  includes l "generate" && (includes l "image" || includes l "picture").
Definition create_image (l : string) : bool :=
  includes l "create" && (includes l "image" || includes l "picture").
Definition code_generic (l : string) : bool :=
  includes l "code" || includes l "program" || includes l "function".
Definition code_write (l : string) : bool :=
  includes l "write" && (includes l "code" || includes l "script").
Definition web_search (l : string) : bool :=
  includes l "search" || includes l "find" || includes l "latest".
Definition voice_command (l : string) : bool :=
  includes l "voice" || includes l "speak" || includes l "audio".
Definition document_analysis (l : string) : bool :=
  includes l "analyze" || includes l "document" || includes l "file".

Definition analyzeIntent (message : string) : intent :=
  let lowerMessage := toLowerCase message in
  if generate_image lowerMessage then mkIntent "image_generation" (9 # 10)
  else if create_image lowerMessage then mkIntent "image_generation" (9 # 10)
  else if code_generic lowerMessage then mkIntent "code_generation" (8 # 10)
  else if code_write lowerMessage then mkIntent "code_generation" (9 # 10)
  else if web_search lowerMessage then mkIntent "web_search" (7 # 10)
  else if voice_command lowerMessage then mkIntent "voice_command" (8 # 10)
  else if document_analysis lowerMessage then mkIntent "document_analysis" (7 # 10)
  else mkIntent "text_response" (9 # 10).

(** No test of the table fires on the lower-cased message. *)
Definition no_rule_matches (message : string) : bool :=
  let l := toLowerCase message in
  negb (generate_image l || create_image l || code_generic l || code_write l
        || web_search l || voice_command l || document_analysis l).

(** The rule table as the specification orders it: the "write" rule is
    listed before the generic code rule.  Used only to compare with
    [analyzeIntent]. *)
Definition classify_spec_order (message : string) : intent :=
  let l := toLowerCase message in
  if generate_image l || create_image l then mkIntent "image_generation" (9 # 10)
  else if code_write l then mkIntent "code_generation" (9 # 10)
  else if code_generic l then mkIntent "code_generation" (8 # 10)
  else if web_search l then mkIntent "web_search" (7 # 10)
  else if voice_command l then mkIntent "voice_command" (8 # 10)
  else if document_analysis l then mkIntent "document_analysis" (7 # 10)
  else mkIntent "text_response" (9 # 10).

End Intent.

(* ------------------------------------------------------------------ *)
(** ** JavaScript values and plain objects *)

Definition ObjectId := N.
Definition Date := Z.
Bind Scope N_scope with ObjectId.
Bind Scope Z_scope with Date.

Inductive JsValue :=
| JUndefined
| JBool (b : bool)
| JNum (q : Q)
| JStr (s : string)
| JDate (d : Date).

(** A plain object with string keys, in insertion order. *)
Definition JsObject := list (string * JsValue).

Module Obj.

Fixpoint get (o : JsObject) (k : string) : JsValue :=
  match o with
  | [] => JUndefined
  | (k', v) :: o' => if String.eqb k' k then v else get o' k
  end.

Fixpoint has (o : JsObject) (k : string) : bool :=
  match o with
  | [] => false
  | (k', _) :: o' => String.eqb k' k || has o' k
  end.

(** [o[k] = v]: an existing key keeps its place, a new one goes last. *)
Fixpoint set (o : JsObject) (k : string) (v : JsValue) : JsObject :=
  match o with
  | [] => [(k, v)]
  | (k', v') :: o' =>
      if String.eqb k' k then (k', v) :: o' else (k', v') :: set o' k v
  end.

(** [{ ...a, ...b }]. *)
Definition spread (a b : JsObject) : JsObject :=
  fold_left (fun acc kv => set acc (fst kv) (snd kv)) b a.

End Obj.

(** [x || d] on strings: the empty string is falsy. *)
Definition str_or (x d : string) : string :=
  match x with EmptyString => d | _ => x end.

(* ------------------------------------------------------------------ *)
(** ** Errors and the store monad *)

Inductive Error :=
| Err (message : string)            (* [throw new Error(message)] *)
| ValidationError (path : string)   (* a schema validator rejected [path] *)
| ProviderError (provider : string) (* a call to an external provider failed *)
| DocumentNotFoundError.            (* [save()] of a document no longer stored *)

Inductive outcome (A : Type) :=
| Ok (a : A)
| Throw (e : Error).
Arguments Ok {A} a.
Arguments Throw {A} e.

(* ------------------------------------------------------------------ *)
(** ** [server/models/message.js] *)

Module Message.

Record Reaction := mkReaction {
  r_userId : ObjectId;
  r_type : string;
  r_timestamp : Date
}.

(** The paths of the schema that the modelled operations read or write;
    [reactions] is [metadata.reactions] and [metadata] holds the scalar
    entries of the metadata bag. *)
Record t := mk {
  _id : ObjectId;
  conversationId : ObjectId;
  sender : string;
  content : string;
  messageType : string;
  metadata : JsObject;
  reactions : list Reaction;
  status : string;
  isDeleted : bool;
  deletedAt : option Date;
  deletedBy : option ObjectId
}.

(** [m.timestamp].  The schema declares no path of this name (its option
    [timestamps: true] maintains [createdAt] and [updatedAt]), and a
    schema is strict by default: the value given to the constructor is
    dropped, and the document has none, in memory and in the store. *)
Definition timestamp (m : t) : option Date := None.

Definition sender_enum : list string := ["user"; "ai"].
Definition messageType_enum : list string :=
  ["text"; "image"; "code"; "voice"; "file"; "system"].
Definition status_enum : list string := ["sent"; "delivered"; "read"; "failed"].
Definition reaction_enum : list string :=
  ["like"; "love"; "laugh"; "wow"; "sad"; "angry"].

Definition in_enum (e : list string) (v : string) : bool :=
  existsb (String.eqb v) e.

(** [new Message({conversationId, sender, content, messageType, metadata,
    timestamp})] with the schema defaults; [timestamp] is not a path of
    the schema and is not kept. *)
Definition new (oid : ObjectId) (cid : ObjectId) (sender content messageType : string)
    (metadata : JsObject) (timestamp : Date) : t :=
  mk oid cid sender content messageType metadata [] "sent" false None None.

(** The validators of the schema, in the order of its paths. *)
Definition validate (m : t) : outcome unit :=
  if negb (in_enum sender_enum (sender m)) then Throw (ValidationError "sender")
  else if (JsString.length (content m) =? 0)%Z then Throw (ValidationError "content")
  else if (10000 <? JsString.length (content m))%Z then Throw (ValidationError "content")
  else if negb (in_enum messageType_enum (messageType m)) then Throw (ValidationError "messageType")
  else if negb (forallb (fun r => in_enum reaction_enum (r_type r)) (reactions m))
       then Throw (ValidationError "metadata.reactions")
  else if negb (in_enum status_enum (status m)) then Throw (ValidationError "status")
  else Ok tt.

Definition set_reactions (m : t) (rs : list Reaction) : t :=
  mk (_id m) (conversationId m) (sender m) (content m) (messageType m) (metadata m)
     rs (status m) (isDeleted m) (deletedAt m) (deletedBy m).

Definition set_deleted (m : t) (d : bool) (at_ : option Date) (by_ : option ObjectId) : t :=
  mk (_id m) (conversationId m) (sender m) (content m) (messageType m) (metadata m)
     (reactions m) (status m) d at_ by_.

(** [addReaction(userId, reactionType)] on the document in memory: both
    sides of the comparison go through [toString()]. *)
Definition addReaction (m : t) (userId : ObjectId) (reactionType : string) (now : Date) : t :=
  let kept := filter (fun r => negb (N.eqb (r_userId r) userId)) (reactions m) in
  set_reactions m (kept ++ [mkReaction userId reactionType now]).

Definition removeReaction (m : t) (userId : ObjectId) : t :=
  set_reactions m (filter (fun r => negb (N.eqb (r_userId r) userId)) (reactions m)).

(** [softDelete(userId)] and [restore()] on the document in memory. *)
Definition softDelete (m : t) (userId : ObjectId) (now : Date) : t :=
  set_deleted m true (Some now) (Some userId).

Definition restore (m : t) : t := set_deleted m false None None.

End Message.

(* ------------------------------------------------------------------ *)
(** ** [server/models/conversation.js] *)

Module Conversation.

Record Share := mkShare {
  s_userId : ObjectId;
  s_permission : string;
  s_addedAt : Date
}.

Record t := mk {
  _id : ObjectId;
  userId : ObjectId;
  title : string;
  lastMessage : option string;
  messageCount : Z;
  tags : list string;
  sharedWith : list Share;
  createdAt : Date;
  updatedAt : option Date
}.

(** [new Conversation({userId, title, createdAt})]: the [trim] setter of
    [title] runs on assignment, the other paths take their defaults. *)
Definition new (oid userId : ObjectId) (title : string) (createdAt : Date) : t :=
  mk oid userId (JsString.trim title) None 0 [] [] createdAt None.

Definition validate (c : t) : outcome unit :=
  if (JsString.length (title c) =? 0)%Z then Throw (ValidationError "title")
  else if (200 <? JsString.length (title c))%Z then Throw (ValidationError "title")
  else match lastMessage c with
       | Some l => if (500 <? JsString.length l)%Z
                   then Throw (ValidationError "lastMessage") else Ok tt
       | None => Ok tt
       end.

(** [conversation.lastMessage = v] (with the [trim] setter of the path)
    followed by [conversation.updatedAt = d]. *)
Definition set_last (c : t) (v : string) (d : Date) : t :=
  mk (_id c) (userId c) (title c) (Some (JsString.trim v)) (messageCount c)
     (tags c) (sharedWith c) (createdAt c) (Some d).

Definition set_sharedWith (c : t) (l : list Share) : t :=
  mk (_id c) (userId c) (title c) (lastMessage c) (messageCount c)
     (tags c) l (createdAt c) (updatedAt c).

Definition inc_messageCount (c : t) : t :=
  mk (_id c) (userId c) (title c) (lastMessage c) (messageCount c + 1)
     (tags c) (sharedWith c) (createdAt c) (updatedAt c).

(** A user id as a caller may pass it: the hexadecimal string of an
    ObjectId (as [toString()] prints it), or an ObjectId object. *)
Inductive IdArg :=
| IdString (h : ObjectId)
| IdObject (h : ObjectId).

Definition id_of (a : IdArg) : ObjectId :=
  match a with IdString h | IdObject h => h end.

(** [share.userId.toString() === userId]: a string is never strictly
    equal to an object. *)
Definition same_user (share : Share) (userId : IdArg) : bool :=
  match userId with
  | IdString h => N.eqb (s_userId share) h
  | IdObject _ => false
  end.

(** The in-place update of the first share found by [find]. *)
Fixpoint set_permission (l : list Share) (userId : IdArg) (permission : string) : list Share :=
  match l with
  | [] => []
  | sh :: l' =>
      if same_user sh userId
      then mkShare (s_userId sh) permission (s_addedAt sh) :: l'
      else sh :: set_permission l' userId permission
  end.

Definition shareWith (c : t) (userId : IdArg) (permission : string) (now : Date) : t :=
  match find (fun sh => same_user sh userId) (sharedWith c) with
  | Some _ => set_sharedWith c (set_permission (sharedWith c) userId permission)
  | None => set_sharedWith c (sharedWith c ++ [mkShare (id_of userId) permission now])
  end.

Definition removeShare (c : t) (userId : IdArg) : t :=
  set_sharedWith c (filter (fun sh => negb (same_user sh userId)) (sharedWith c)).

End Conversation.

(* ------------------------------------------------------------------ *)
(** ** The user model: usage counters and subscription limits *)

Module User.

Inductive Plan := free | basic | premium | enterprise.

Record Usage := mkUsage {
  messagesSent : Z;
  imagesGenerated : Z;
  codeGenerated : Z;
  lastActive : Date
}.

Record t := mk {
  _id : ObjectId;
  plan : Plan;            (* [subscription.plan] *)
  usage : Usage
}.

(** What a property access of [checkLimits] can evaluate to: a missing
    property, a number, a date, or an object or function found on
    [Object.prototype]. *)
Inductive Val :=
| VUndefined
| VNumber (z : Z)
| VDate (d : Date)
| VObject.

Definition truthy (v : Val) : bool :=
  match v with
  | VUndefined => false
  | VNumber z => negb (z =? 0)%Z
  | VDate _ | VObject => true
  end.

(** [a || b]. *)
Definition or_else (a b : Val) : Val := if truthy a then a else b.

(** [ToNumber]; [None] is NaN. *)
Definition to_number (v : Val) : option Z :=
  match v with
  | VNumber z => Some z
  | VDate d => Some d
  | VUndefined | VObject => None
  end.

(** [a < b]: false as soon as one side is NaN. *)
Definition lt (a b : Val) : bool :=
  match to_number a, to_number b with
  | Some x, Some y => (x <? y)%Z
  | _, _ => false
  end.

(** [a === -1]. *)
Definition is_minus_one (a : Val) : bool :=
  match a with VNumber z => (z =? -1)%Z | _ => false end.

(** The members every object literal inherits from [Object.prototype]. *)
Definition object_prototype : list string :=
  [ "constructor"; "toString"; "toLocaleString"; "valueOf"; "hasOwnProperty";
    "isPrototypeOf"; "propertyIsEnumerable"; "__proto__";
    "__defineGetter__"; "__defineSetter__"; "__lookupGetter__"; "__lookupSetter__" ].

(** [o[k]] for an object literal [o] whose own properties are numbers. *)
Fixpoint lookup (own : list (string * Z)) (k : string) : Val :=
  match own with
  | [] => if existsb (String.eqb k) object_prototype then VObject else VUndefined
  | (k', z) :: own' => if String.eqb k' k then VNumber z else lookup own' k
  end.

(** The [limits] table of [checkLimits]. *)
Definition limits (p : Plan) : list (string * Z) :=
  match p with
  | free => [("messages", 100); ("images", 10); ("code", 50)]
  | basic => [("messages", 1000); ("images", 100); ("code", 500)]
  | premium => [("messages", 10000); ("images", 1000); ("code", 5000)]
  | enterprise => [("messages", -1); ("images", -1); ("code", -1)]
  end%Z.

(** [this.usage[k]]: the four paths the schema declares under [usage]. *)
Definition usage_get (u : Usage) (k : string) : Val :=
  if String.eqb k "messagesSent" then VNumber (messagesSent u)
  else if String.eqb k "imagesGenerated" then VNumber (imagesGenerated u)
  else if String.eqb k "codeGenerated" then VNumber (codeGenerated u)
  else if String.eqb k "lastActive" then VDate (lastActive u)
  else VUndefined.

Definition checkLimits (this : t) (type : string) : bool :=
  let limit := lookup (limits (plan this)) type in
  if is_minus_one limit then true
  else
    let current :=
      or_else (or_else (usage_get (usage this) (type ++ "sSent"))
                       (usage_get (usage this) (type ++ "sGenerated")))
              (usage_get (usage this) (type ++ "sGenerated")) in
    lt current limit.

(** [updateUsage(type, count)] on the document in memory. *)
Definition updateUsage (this : t) (type : string) (count : Z) (now : Date) : t :=
  let u := usage this in
  let u' :=
    if String.eqb type "message"
    then mkUsage (messagesSent u + count) (imagesGenerated u) (codeGenerated u) now
    else if String.eqb type "image"
    then mkUsage (messagesSent u) (imagesGenerated u + count) (codeGenerated u) now
    else if String.eqb type "code"
    then mkUsage (messagesSent u) (imagesGenerated u) (codeGenerated u + count) now
    else mkUsage (messagesSent u) (imagesGenerated u) (codeGenerated u) now in
  mk (_id this) (plan this) u'.

End User.

(* ------------------------------------------------------------------ *)
(** ** The database and the monad of the controller *)

Record Store := mkStore {
  users : list User.t;
  conversations : list Conversation.t;
  messages : list Message.t;
  next_oid : ObjectId          (* the next ObjectId the driver hands out *)
}.

Definition M (A : Type) : Type := Store -> outcome A * Store.

Definition ret {A} (a : A) : M A := fun s => (Ok a, s).
Definition throw {A} (e : Error) : M A := fun s => (Throw e, s).
Definition lift {A} (o : outcome A) : M A := fun s => (o, s).
Definition bind {A B} (m : M A) (k : A -> M B) : M B :=
  fun s =>
    match m s with
    | (Ok a, s') => k a s'
    | (Throw e, s') => (Throw e, s')
    end.

Declare Scope store_scope.
Delimit Scope store_scope with store.
Notation "x <- c ;; k" := (bind c (fun x => k))
  (at level 61, c at next level, right associativity) : store_scope.
Notation "c ;;; k" := (bind c (fun _ => k))
  (at level 61, right associativity) : store_scope.
Open Scope store_scope.

(** The first element satisfying [p] is replaced by its image under [f]. *)
Fixpoint update_first {A} (p : A -> bool) (f : A -> A) (l : list A) : list A :=
  match l with
  | [] => []
  | x :: l' => if p x then f x :: l' else x :: update_first p f l'
  end.

(** The first element satisfying [p] is removed. *)
Fixpoint remove_first {A} (p : A -> bool) (l : list A) : list A :=
  match l with
  | [] => []
  | x :: l' => if p x then l' else x :: remove_first p l'
  end.

Module Db.

(** [new mongoose.Types.ObjectId()]. *)
Definition new_oid : M ObjectId :=
  fun s => (Ok (next_oid s),
            mkStore (users s) (conversations s) (messages s) (N.succ (next_oid s))).

Definition set_conversations (s : Store) (l : list Conversation.t) : Store :=
  mkStore (users s) l (messages s) (next_oid s).
Definition set_messages (s : Store) (l : list Message.t) : Store :=
  mkStore (users s) (conversations s) l (next_oid s).

Definition has_id (i : ObjectId) (c : Conversation.t) : bool :=
  N.eqb (Conversation._id c) i.
Definition msg_has_id (i : ObjectId) (m : Message.t) : bool :=
  N.eqb (Message._id m) i.
Definition in_conversation (cid : ObjectId) (m : Message.t) : bool :=
  N.eqb (Message.conversationId m) cid.

(** [User.findById(id)]. *)
Definition User_findById (i : ObjectId) : M (option User.t) :=
  fun s => (Ok (find (fun u => N.eqb (User._id u) i) (users s)), s).

(** [Conversation.findById(id)]. *)
Definition Conversation_findById (i : ObjectId) : M (option Conversation.t) :=
  fun s => (Ok (find (has_id i) (conversations s)), s).

(** [Message.findById(id)]. *)
Definition Message_findById (i : ObjectId) : M (option Message.t) :=
  fun s => (Ok (find (msg_has_id i) (messages s)), s).

(** [Conversation.findByIdAndUpdate(id, { $inc: { messageCount: 1 } })]:
    nothing happens when no conversation has the id. *)
Definition Conversation_incMessageCount (i : ObjectId) : M unit :=
  fun s => (Ok tt,
            set_conversations s
              (update_first (has_id i) Conversation.inc_messageCount (conversations s))).

(** [conversation.save()] of a new document: validation, then insertion. *)
Definition Conversation_insert (c : Conversation.t) : M unit :=
  lift (Conversation.validate c) ;;;
  fun s => (Ok tt, set_conversations s (conversations s ++ [c])).

(** The stored document [d] after the paths [lastMessage] and [updatedAt]
    of the in-memory document [c] were written to it. *)
Definition write_last (c d : Conversation.t) : Conversation.t :=
  Conversation.mk (Conversation._id d) (Conversation.userId d)
    (Conversation.title d) (Conversation.lastMessage c)
    (Conversation.messageCount d) (Conversation.tags d)
    (Conversation.sharedWith d) (Conversation.createdAt d)
    (Conversation.updatedAt c).

(** [conversation.save()] after [lastMessage] and [updatedAt] were
    assigned: validation, then an update of these two paths of the stored
    document (the stored [messageCount] is not written). *)
Definition Conversation_saveLast (c : Conversation.t) : M unit :=
  lift (Conversation.validate c) ;;;
  fun s =>
    if existsb (has_id (Conversation._id c)) (conversations s)
    then (Ok tt,
          set_conversations s
            (update_first (has_id (Conversation._id c)) (write_last c) (conversations s)))
    else (Throw DocumentNotFoundError, s).

(** [message.save()] of a new document: validation, the [pre('save')]
    hook (which bumps the conversation's [messageCount] because [isNew]
    holds; the update it issues is taken to be applied at once), then
    insertion. *)
Definition Message_insert (m : Message.t) : M unit :=
  lift (Message.validate m) ;;;
  Conversation_incMessageCount (Message.conversationId m) ;;;
  fun s => (Ok tt, set_messages s (messages s ++ [m])).

(** [message.save()] of a stored document changed in memory: validation,
    the hook (a no-op, [isNew] is false), then the update. *)
Definition Message_save (m : Message.t) : M unit :=
  lift (Message.validate m) ;;;
  fun s =>
    if existsb (msg_has_id (Message._id m)) (messages s)
    then (Ok tt,
          set_messages s (update_first (msg_has_id (Message._id m)) (fun _ => m) (messages s)))
    else (Throw DocumentNotFoundError, s).

(** [Conversation.findOneAndDelete({ _id, userId })]. *)
Definition Conversation_findOneAndDelete (i userId : ObjectId) : M (option Conversation.t) :=
  fun s =>
    let p := fun c => has_id i c && N.eqb (Conversation.userId c) userId in
    match find p (conversations s) with
    | Some c => (Ok (Some c), set_conversations s (remove_first p (conversations s)))
    | None => (Ok None, s)
    end.

(** [Message.deleteMany({ conversationId })]. *)
Definition Message_deleteMany (cid : ObjectId) : M unit :=
  fun s => (Ok tt,
            set_messages s (filter (fun m => negb (in_conversation cid m)) (messages s))).

(** The order of a sort key: a document without the path sorts as null,
    below every date. *)
Definition key_le (a b : option Date) : bool :=
  match a, b with
  | None, _ => true
  | Some _, None => false
  | Some x, Some y => (x <=? y)%Z
  end.

(** [.sort({ timestamp: 1 })]: a stable insertion sort on the path
    [timestamp], ascending; documents with equal keys stay in the order
    of the store.  No message has the path, so all keys are equal. *)
Fixpoint insert_by_timestamp (m : Message.t) (l : list Message.t) : list Message.t :=
  match l with
  | [] => [m]
  | x :: l' =>
      if key_le (Message.timestamp m) (Message.timestamp x)
      then m :: l
      else x :: insert_by_timestamp m l'
  end.

Definition sort_by_timestamp (l : list Message.t) : list Message.t :=
  fold_right insert_by_timestamp [] l.

(** [Message.find({ conversationId }).sort({ timestamp: 1 }).limit(n)]:
    the first [n] of the conversation's messages in the sorted order,
    which is the order of the store. *)
Definition Message_find_sorted_limit (cid : ObjectId) (n : nat) : M (list Message.t) :=
  fun s => (Ok (firstn n (sort_by_timestamp (filter (in_conversation cid) (messages s)))), s).

End Db.

(* ------------------------------------------------------------------ *)
(** ** The AI service (provider gateway) *)

Module AIService.
Import JsString.

Record ChatMessage := mkChat { role : string; chat_content : string }.

(** The external providers of one turn: each call either answers with a
    text (an image URL for [openai_image]) or fails. *)
Record Providers := mkProviders {
  openai_chat : list ChatMessage -> option string;
  openai_image : string -> option string;
  gemini : string -> option string
}.

Record Response := mkResponse {
  content : string;
  type : string;
  metadata : JsObject
}.

Definition nl : string := String (ascii_of_nat 10) EmptyString.

Definition system_prompt : string :=
  "You are RAI (Revolutionary AI Assistant), a comprehensive AI that combines the best features from Gemini, Siri, ChatGPT, and other leading AI platforms. You are helpful, creative, and can assist with any task. You have access to real-time information, can generate code, create images, and much more. Always be friendly and professional.".

Definition gemini_preamble : string :=
  "You are RAI (Revolutionary AI Assistant), a comprehensive AI that combines the best features from Gemini, Siri, ChatGPT, and other leading AI platforms. You are helpful, creative, and can assist with any task.".

Definition fallback_content : string :=
  "I'm here to help! I can assist you with various tasks including text generation, code creation, image generation, and more. What would you like to work on?".

Definition is_user (m : Message.t) : bool := String.eqb (Message.sender m) "user".

Definition buildGeminiPrompt (message : string) (history : list Message.t) : string :=
  let prompt := gemini_preamble ++ nl ++ nl in
  let prompt :=
    match history with
    | [] => prompt
    | _ =>
        fold_left
          (fun acc msg =>
             acc ++ (if is_user msg then "User" else "RAI") ++ ": "
                 ++ Message.content msg ++ nl)
          history (prompt ++ "Previous conversation:" ++ nl)
        ++ nl
    end in
  prompt ++ "User: " ++ message ++ nl ++ "RAI:".

(** Never throws: a failure of the Gemini call is answered by the fixed
    fallback text. *)
Definition generateWithGemini (p : Providers) (message : string)
    (history : list Message.t) : Response :=
  match gemini p (buildGeminiPrompt message history) with
  | Some text =>
      mkResponse text "text" [("model", JStr "gemini-pro"); ("provider", JStr "google")]
  | None =>
      mkResponse fallback_content "text"
        [("model", JStr "fallback"); ("provider", JStr "rai")]
  end.

(** The role-tagged sequence sent to the chat completion. *)
Definition chat_messages (message : string) (history : list Message.t) : list ChatMessage :=
  mkChat "system" system_prompt
    :: map (fun msg => mkChat (if is_user msg then "user" else "assistant")
                              (Message.content msg)) history
    ++ [mkChat "user" message].

Definition generateTextResponse (p : Providers) (message : string)
    (history : list Message.t) : outcome Response :=
  match openai_chat p (chat_messages message history) with
  | Some text =>
      Ok (mkResponse text "text" [("model", JStr "gpt-4"); ("provider", JStr "openai")])
  | None => Ok (generateWithGemini p message history)
  end.

Definition generateImage (p : Providers) (prompt : string) : outcome Response :=
  match openai_image p prompt with
  | Some url =>
      Ok (mkResponse url "image"
            [("model", JStr "dall-e-3"); ("provider", JStr "openai"); ("prompt", JStr prompt)])
  | None => Throw (ProviderError "openai")
  end.

Definition detectLanguage (code : string) : string :=
  let lowerCode := toLowerCase code in
  if includes lowerCode "function" && includes lowerCode "const" && includes lowerCode "=>"
  then "javascript"
  else if includes lowerCode "def " || includes lowerCode "import " then "python"
  else if includes lowerCode "public class" || includes lowerCode "public static" then "java"
  else if includes lowerCode "#include" || includes lowerCode "int main" then "cpp"
  else if includes lowerCode "<?php" then "php"
  else if includes lowerCode "html" || includes lowerCode "<!DOCTYPE" then "html"
  else if includes lowerCode "css" || (includes lowerCode "{" && includes lowerCode ":")
  then "css"
  else "unknown".

Definition code_system_prompt : string :=
  "You are an expert programmer. Generate clean, working code with appropriate comments. Always specify the programming language.".

Definition code_prompt (message : string) : string :=
  "Generate code based on the following request. Provide only the code with brief comments explaining key parts. If it's a complete application, provide all necessary files. Request: "
  ++ message.

Definition generateCode (p : Providers) (message : string) : outcome Response :=
  match openai_chat p [mkChat "system" code_system_prompt; mkChat "user" (code_prompt message)] with
  | Some text =>
      Ok (mkResponse text "code"
            [("model", JStr "gpt-4"); ("provider", JStr "openai");
             ("language", JStr (detectLanguage text))])
  | None => Throw (ProviderError "openai")
  end.

Definition webSearch (p : Providers) (query : string) (now : Date) : outcome Response :=
  match generateTextResponse p
          ("Search for the latest information about: " ++ query
           ++ ". Provide current and accurate information.") [] with
  | Ok r =>
      Ok (mkResponse (content r) "search_result"
            [("query", JStr query); ("source", JStr "web_search"); ("timestamp", JDate now)])
  | Throw e => Throw e
  end.

Definition processVoiceCommand (p : Providers) (command : string) : outcome Response :=
  match generateTextResponse p
          ("Process this voice command: " ++ command
           ++ ". Provide a helpful response and suggest any actions that could be taken.") [] with
  | Ok r =>
      Ok (mkResponse (content r) "voice_command"
            [("originalCommand", JStr command); ("processed", JBool true)])
  | Throw e => Throw e
  end.

Definition analyzeDocument (p : Providers) (documentContent : string) (now : Date)
    : outcome Response :=
  match generateTextResponse p
          ("Analyze the following document and provide a comprehensive summary with key insights: "
           ++ documentContent) [] with
  | Ok r =>
      Ok (mkResponse (content r) "document_analysis"
            [("documentLength", JNum (inject_Z (JsString.length documentContent)));
             ("analysisType", JStr "comprehensive"); ("timestamp", JDate now)])
  | Throw e => Throw e
  end.

End AIService.

(* ------------------------------------------------------------------ *)
(** ** The chat controller *)

Module ChatController.
Import JsString.

(** The payload of a [send_message] event; [conversationId] is [None]
    when the field is missing (or otherwise falsy), [messageType] is
    [None] when it is left to its default. *)
Record Data := mkData {
  userId : ObjectId;
  message : string;
  conversationId : option ObjectId;
  messageType : option string
}.

(** What the turn receives from outside: the providers' answers and the
    successive readings of the clock ([now k] is the k-th [new Date()]). *)
Record Env := mkEnv {
  providers : AIService.Providers;
  now : nat -> Date
}.

Record UserMessageView := mkUserView {
  um_id : ObjectId;
  um_content : string;
  um_type : string;
  um_timestamp : option Date
}.

Record AiMessageView := mkAiView {
  am_id : ObjectId;
  am_content : string;
  am_type : string;
  am_metadata : JsObject;
  am_timestamp : option Date
}.

Record ConversationView := mkConvView {
  cv_id : ObjectId;
  cv_title : string;
  cv_updatedAt : option Date
}.

Record Response := mkResponse {
  r_conversationId : ObjectId;
  userMessage : UserMessageView;
  aiMessage : AiMessageView;
  conversation : ConversationView
}.

Definition apology : AIService.Response :=
  AIService.mkResponse
    "I apologize, but I'm having trouble processing your request right now. Please try again in a moment."
    "text" [("error", JBool true)].

(** The [switch] of [generateAIResponse] on the intent. *)
Definition dispatch (env : Env) (intent_type message : string)
    (history : list Message.t) : outcome AIService.Response :=
  let p := providers env in
  if String.eqb intent_type "image_generation" then AIService.generateImage p message
  else if String.eqb intent_type "code_generation" then AIService.generateCode p message
  else if String.eqb intent_type "web_search" then AIService.webSearch p message (now env 3)
  else if String.eqb intent_type "document_analysis"
  then AIService.analyzeDocument p message (now env 3)
  else if String.eqb intent_type "voice_command" then AIService.processVoiceCommand p message
  else AIService.generateTextResponse p message history.

(** The body of [generateAIResponse] once the history is fetched: the
    intent is analysed, the request dispatched, and an exception of the
    gateway answered by the apology. *)
Definition respondWith (env : Env) (message : string) (history : list Message.t)
    : AIService.Response :=
  let intent := Intent.analyzeIntent message in
  match dispatch env (Intent.type intent) message history with
  | Ok response =>
      AIService.mkResponse
        (AIService.content response)
        (str_or (AIService.type response) "text")
        (Obj.spread [("intent", JStr (Intent.type intent));
                     ("confidence", JNum (Intent.confidence intent))]
                    (AIService.metadata response))
  | Throw _ => apology
  end.

Definition generateAIResponse (env : Env) (message : string) (conversationId : ObjectId)
    : M AIService.Response :=
  history <- Db.Message_find_sorted_limit conversationId 10 ;;
  ret (respondWith env message history).

(** The first branch of [handleMessage]: the conversation of the turn. *)
Definition getOrCreateConversation (env : Env) (data : Data) : M Conversation.t :=
  match conversationId data with
  | Some cid =>
      found <- Db.Conversation_findById cid ;;
      match found with
      | Some c =>
          if N.eqb (Conversation.userId c) (userId data) then ret c
          else throw (Err "Conversation not found or access denied")
      | None => throw (Err "Conversation not found or access denied")
      end
  | None =>
      oid <- Db.new_oid ;;
      let c := Conversation.new oid (userId data)
                 (substring (message data) 0 50 ++ "...") (now env 0) in
      Db.Conversation_insert c ;;;
      ret c
  end.

(** [handleMessage], first half (up to the first [conversation.save()]
    after the user's message): the user is looked up, the conversation
    resolved, the user's message saved and the conversation's
    [lastMessage]/[updatedAt] written. *)
Definition saveUserTurn (env : Env) (data : Data) : M (Conversation.t * Message.t) :=
  let messageType := match messageType data with Some t => t | None => "text" end in
  user <- Db.User_findById (userId data) ;;
  match user with
  | None => throw (Err "User not found")
  | Some _ =>
      conversation <- getOrCreateConversation env data ;;
      uid <- Db.new_oid ;;
      let userMessage :=
        Message.new uid (Conversation._id conversation) "user" (message data)
          messageType [] (now env 1) in
      Db.Message_insert userMessage ;;;
      let conversation := Conversation.set_last conversation (message data) (now env 2) in
      Db.Conversation_saveLast conversation ;;;
      ret (conversation, userMessage)
  end.

(** [handleMessage], second half: the AI response is generated and saved,
    the conversation updated again and the response assembled. *)
Definition answerTurn (env : Env) (data : Data)
    (conversation : Conversation.t) (userMessage : Message.t) : M Response :=
  let cid := Conversation._id conversation in
  aiResponse <- generateAIResponse env (message data) cid ;;
  aid <- Db.new_oid ;;
  let aiMessage :=
    Message.new aid cid "ai" (AIService.content aiResponse)
      (str_or (AIService.type aiResponse) "text")
      (AIService.metadata aiResponse) (now env 4) in
  Db.Message_insert aiMessage ;;;
  let conversation :=
    Conversation.set_last conversation (AIService.content aiResponse) (now env 5) in
  Db.Conversation_saveLast conversation ;;;
  ret (mkResponse cid
         (mkUserView (Message._id userMessage) (message data)
            (Message.messageType userMessage) (Message.timestamp userMessage))
         (mkAiView aid (AIService.content aiResponse)
            (str_or (AIService.type aiResponse) "text")
            (AIService.metadata aiResponse) (Message.timestamp aiMessage))
         (mkConvView cid (Conversation.title conversation)
            (Conversation.updatedAt conversation))).

(** The [catch] of [handleMessage] logs and rethrows, so an exception of
    either half is the exception of the call. *)
Definition handleMessage (env : Env) (data : Data) : M Response :=
  turn <- saveUserTurn env data ;;
  answerTurn env data (fst turn) (snd turn).

Definition deleteConversation (userId conversationId : ObjectId) : M unit :=
  deleted <- Db.Conversation_findOneAndDelete conversationId userId ;;
  match deleted with
  | None => throw (Err "Conversation not found")
  | Some _ => Db.Message_deleteMany conversationId
  end.

End ChatController.

(* ------------------------------------------------------------------ *)
(** ** Sequences of operations on stored documents *)

Module MessageOps.

(** [new Message({...}).save()] and [message.softDelete(userId)] on the
    message stored under an id. *)
Inductive op :=
| Create (conversationId : ObjectId) (sender content messageType : string) (timestamp : Date)
| SoftDelete (messageId userId : ObjectId) (now : Date).

Definition create (cid : ObjectId) (sender content messageType : string) (ts : Date)
    : M unit :=
  oid <- Db.new_oid ;;
  Db.Message_insert (Message.new oid cid sender content messageType [] ts).

Definition softDelete (mid userId : ObjectId) (now : Date) : M unit :=
  found <- Db.Message_findById mid ;;
  match found with
  | Some m => Db.Message_save (Message.softDelete m userId now)
  | None => throw DocumentNotFoundError
  end.

Definition step (o : op) : M unit :=
  match o with
  | Create cid sender content messageType ts => create cid sender content messageType ts
  | SoftDelete mid userId now => softDelete mid userId now
  end.

(** The operations run one after the other; one that throws is over and
    the next one starts from the store it left. *)
Fixpoint run (ops : list op) (s : Store) : Store :=
  match ops with
  | [] => s
  | o :: ops' => run ops' (snd (step o s))
  end.

Definition count_all (cid : ObjectId) (s : Store) : nat :=
  length (filter (Db.in_conversation cid) (messages s)).

Definition count_active (cid : ObjectId) (s : Store) : nat :=
  length (filter (fun m => Db.in_conversation cid m && negb (Message.isDeleted m))
            (messages s)).

Definition count_deleted (cid : ObjectId) (s : Store) : nat :=
  length (filter (fun m => Db.in_conversation cid m && Message.isDeleted m) (messages s)).

(** Every conversation the store returns for an id counts all the messages
    stored under that id. *)
Definition counts_all_messages (s : Store) : Prop :=
  forall cid c,
    find (Db.has_id cid) (conversations s) = Some c ->
    Conversation.messageCount c = Z.of_nat (count_all cid s).

End MessageOps.

Module ReactionOps.

Record call := mkCall { c_userId : ObjectId; c_type : string; c_now : Date }.

(** Successive [addReaction] calls on one message. *)
Definition run (calls : list call) (m : Message.t) : Message.t :=
  fold_left (fun m c => Message.addReaction m (c_userId c) (c_type c) (c_now c)) calls m.

Definition by_user (u : ObjectId) (c : call) : bool := N.eqb (c_userId c) u.

Definition count_calls (u : ObjectId) (calls : list call) : nat :=
  length (filter (by_user u) calls).

(** The latest call of [u] in the sequence. *)
Definition latest (u : ObjectId) (calls : list call) : option call :=
  find (by_user u) (rev calls).

Definition reactions_of (u : ObjectId) (m : Message.t) : list Message.Reaction :=
  filter (fun r => N.eqb (Message.r_userId r) u) (Message.reactions m).

End ReactionOps.

Module ShareOps.

Inductive op :=
| ShareWith (userId : Conversation.IdArg) (permission : string) (now : Date)
| RemoveShare (userId : Conversation.IdArg).

Definition step (c : Conversation.t) (o : op) : Conversation.t :=
  match o with
  | ShareWith u p d => Conversation.shareWith c u p d
  | RemoveShare u => Conversation.removeShare c u
  end.

Definition run (ops : list op) (c : Conversation.t) : Conversation.t :=
  fold_left step ops c.

Definition arg (o : op) : Conversation.IdArg :=
  match o with ShareWith u _ _ | RemoveShare u => u end.

Definition is_string (a : Conversation.IdArg) : bool :=
  match a with Conversation.IdString _ => true | Conversation.IdObject _ => false end.

Definition shared_users (c : Conversation.t) : list ObjectId :=
  map Conversation.s_userId (Conversation.sharedWith c).

(** The permission of the first entry of the list for user [h]. *)
Definition permission_of (h : ObjectId) (c : Conversation.t) : option string :=
  option_map Conversation.s_permission
    (find (fun sh => N.eqb (Conversation.s_userId sh) h) (Conversation.sharedWith c)).

End ShareOps.

(** The context as the specification words it: the [n] most recent messages
    of the conversation, in ascending time order.  Messages are stored in
    the order of their creation, so these are the last [n] stored. *)
Definition most_recent (n : nat) (cid : ObjectId) (s : Store) : list Message.t :=
  let all := filter (Db.in_conversation cid) (messages s) in
  skipn (length all - n) all.

(** Every stored id is below the next one the driver will hand out. *)
Definition ids_below (s : Store) : Prop :=
  (forall c, In c (conversations s) -> (Conversation._id c < next_oid s)%N) /\
  (forall m, In m (messages s) -> (Message._id m < next_oid s)%N).

(* ------------------------------------------------------------------ *)
(** ** Sample stores and environments *)

Module Samples.

Definition alice : User.t := User.mk 1 User.free (User.mkUsage 0 0 0 0).
Definition bob : User.t := User.mk 9 User.free (User.mkUsage 0 0 0 0).

(** Two registered users, nothing else. *)
Definition empty_store : Store := mkStore [alice; bob] [] [] 10.

(** Alice owns conversation 10, which has no message yet. *)
Definition one_conversation : Store :=
  mkStore [alice; bob] [Conversation.new 10 1 "Holiday plans..." 0] [] 11.

(** Eleven messages sent to conversation 10 at times 1, 2, ..., 11. *)
Definition eleven_messages : Store :=
  MessageOps.run
    (map (fun k => MessageOps.Create 10 "user" "hello" "text" (Z.of_nat k)) (seq 1 11))
    one_conversation.

(** Every provider is out of reach. *)
Definition providers_down : AIService.Providers :=
  AIService.mkProviders (fun _ => None) (fun _ => None) (fun _ => None).

Definition providers_up : AIService.Providers :=
  AIService.mkProviders (fun _ => Some "Sunny, 21 degrees.")
    (fun _ => Some "https://images.example/cat.png") (fun _ => Some "Sunny.").

Definition clock (k : nat) : Date := (1000 + Z.of_nat k)%Z.

Definition env_down : ChatController.Env := ChatController.mkEnv providers_down clock.
Definition env_up : ChatController.Env := ChatController.mkEnv providers_up clock.

Definition weather : ChatController.Data :=
  ChatController.mkData 1 "What's the weather" None None.

Definition weather_padded : ChatController.Data :=
  ChatController.mkData 1 "  What's the weather" None None.

End Samples.

(* ------------------------------------------------------------------ *)
(** ** More of [server/models/message.js] *)

(** The message document with the paths of its metadata that the editing
    and mention methods use. *)
Module MessageDoc.

Record Edit := mkEdit { e_content : string; e_editedAt : Date }.

Record Mention := mkMention { m_userId : ObjectId; m_username : string }.

Record t := mk {
  base : Message.t;
  isEdited : bool;                 (* [metadata.isEdited] *)
  editHistory : list Edit;         (* [metadata.editHistory] *)
  mentions : list Mention          (* [metadata.mentions] *)
}.

(** A document as the constructor leaves it. *)
Definition of_message (m : Message.t) : t := mk m false [] [].

Definition set_content (m : Message.t) (c : string) : Message.t :=
  Message.mk (Message._id m) (Message.conversationId m) (Message.sender m) c
    (Message.messageType m) (Message.metadata m) (Message.reactions m) (Message.status m)
    (Message.isDeleted m) (Message.deletedAt m) (Message.deletedBy m).

(** [edit(newContent)] on the document in memory. *)
Definition edit (d : t) (newContent : string) (now : Date) : t :=
  mk (set_content (base d) newContent) true
     (editHistory d ++ [mkEdit (Message.content (base d)) now])
     (mentions d).

(** [addMention(userId, username)] on the document in memory. *)
Definition addMention (d : t) (userId : ObjectId) (username : string) : t :=
  match find (fun m => N.eqb (m_userId m) userId) (mentions d) with
  | Some _ => d
  | None => mk (base d) (isEdited d) (editHistory d)
              (mentions d ++ [mkMention userId username])
  end.

(** [softDelete(userId)] and [restore()]: the assignments each makes to
    the document, on the top-level paths only.  The [save()] that ends
    each of them also rewrites [updatedAt], a path this record does not
    hold: the record is the document up to [createdAt] and [updatedAt]. *)
Definition softDelete (d : t) (userId : ObjectId) (now : Date) : t :=
  mk (Message.softDelete (base d) userId now) (isEdited d) (editHistory d) (mentions d).

Definition restore (d : t) : t :=
  mk (Message.restore (base d)) (isEdited d) (editHistory d) (mentions d).

Record Summary := mkSummary {
  sm_id : ObjectId;
  sm_sender : string;
  sm_content : string;
  sm_messageType : string;
  sm_timestamp : option Date;
  sm_isDeleted : bool;
  sm_reactions : list Message.Reaction;
  sm_mentions : list Mention
}.

(** [getSummary()]. *)
Definition getSummary (d : t) : Summary :=
  let m := base d in
  mkSummary (Message._id m) (Message.sender m)
    (if Message.isDeleted m then "[Message deleted]" else Message.content m)
    (Message.messageType m) (Message.timestamp m) (Message.isDeleted m)
    (Message.reactions m) (mentions d).

(** Successive [edit] calls, each with its new content and its date. *)
Definition run_edits (edits : list (string * Date)) (d : t) : t :=
  fold_left (fun d e => edit d (fst e) (snd e)) edits d.

(** Successive [addMention] calls. *)
Definition run_mentions (calls : list (ObjectId * string)) (d : t) : t :=
  fold_left (fun d c => addMention d (fst c) (snd c)) calls d.

(** The versions of the content, oldest first: the snapshots of the edit
    history, then the current content. *)
Definition versions (d : t) : list string :=
  (map e_content (editHistory d) ++ [Message.content (base d)])%list.

End MessageDoc.

(** The query helpers of the message model. *)
Module MessageStatics.

(** The [options] argument of [findByConversation]; a missing field is
    [None]. *)
Record Options := mkOptions {
  sort : option string;
  limit : option nat;
  skip : option nat
}.

(** [x || d] on numbers: zero is falsy. *)
Definition nat_or (x : option nat) (d : nat) : nat :=
  match x with
  | Some (S n) => S n
  | Some O | None => d
  end.

(** [.sort({ timestamp: -1 })]: insertion sort on the path [timestamp],
    descending, with the keys and their order as in
    [Db.insert_by_timestamp]. *)
Fixpoint insert_by_timestamp_desc (m : Message.t) (l : list Message.t) : list Message.t :=
  match l with
  | [] => [m]
  | x :: l' =>
      if Db.key_le (Message.timestamp x) (Message.timestamp m)
      then m :: l
      else x :: insert_by_timestamp_desc m l'
  end.

Definition sort_by_timestamp_desc (l : list Message.t) : list Message.t :=
  fold_right insert_by_timestamp_desc [] l.

Definition is_desc (o : Options) : bool :=
  match sort o with
  | Some v => String.eqb v "desc"
  | None => false
  end.

(** [Message.findByConversation(conversationId, options)]: the messages of
    the conversation that are not soft-deleted, sorted, then [skip] of them
    passed over and at most [limit] returned. *)
Definition findByConversation (conversationId : ObjectId) (options : Options)
    : M (list Message.t) :=
  fun s =>
    let matching :=
      filter (fun m => Db.in_conversation conversationId m && negb (Message.isDeleted m))
        (messages s) in
    let sorted :=
      if is_desc options then sort_by_timestamp_desc matching
      else Db.sort_by_timestamp matching in
    (Ok (firstn (nat_or (limit options) 50) (skipn (nat_or (skip options) 0) sorted)), s).

(** [Message.findByType(conversationId, messageType)]. *)
Definition findByType (conversationId : ObjectId) (messageType : string)
    : M (list Message.t) :=
  fun s =>
    (Ok (sort_by_timestamp_desc
           (filter (fun m => Db.in_conversation conversationId m
                             && String.eqb (Message.messageType m) messageType
                             && negb (Message.isDeleted m))
              (messages s))), s).

End MessageStatics.

(* ------------------------------------------------------------------ *)
(** ** More of [server/models/conversation.js] *)

Module ConversationMethods.
Import Conversation.

Definition set_tags (c : t) (l : list string) : t :=
  mk (_id c) (userId c) (title c) (lastMessage c) (messageCount c)
     l (sharedWith c) (createdAt c) (updatedAt c).

(** [addTag(tag)]: the element pushed to [tags] goes through the [trim]
    setter of the array's element type. *)
Definition addTag (c : t) (tag : string) : t :=
  if existsb (String.eqb tag) (tags c) then c
  else set_tags c (tags c ++ [JsString.trim tag]).

(** [removeTag(tag)]: the filtered array is assigned to [tags], each
    element going through the setter again. *)
Definition removeTag (c : t) (tag : string) : t :=
  set_tags c (map JsString.trim (filter (fun t => negb (String.eqb t tag)) (tags c))).

Inductive tag_op :=
| AddTag (tag : string)
| RemoveTag (tag : string).

Definition tag_step (c : t) (o : tag_op) : t :=
  match o with
  | AddTag tag => addTag c tag
  | RemoveTag tag => removeTag c tag
  end.

Definition run_tags (ops : list tag_op) (c : t) : t := fold_left tag_step ops c.

Definition tag_of (o : tag_op) : string :=
  match o with AddTag tag | RemoveTag tag => tag end.

(** [l.indexOf(x)]; -1 when [x] is not an element. *)
Fixpoint indexOf (l : list string) (x : string) : Z :=
  match l with
  | [] => -1
  | y :: l' =>
      if String.eqb y x then 0
      else let i := indexOf l' x in if (i =? -1)%Z then -1 else (i + 1)%Z
  end.

Definition permissions : list string := ["read"; "write"; "admin"].

(** [this.userId.toString() === userId]. *)
Definition is_owner (c : t) (userId : IdArg) : bool :=
  match userId with
  | IdString h => N.eqb (Conversation.userId c) h
  | IdObject _ => false
  end.

(** [hasAccess(userId, requiredPermission)]. *)
Definition hasAccess (c : t) (userId : IdArg) (requiredPermission : string) : bool :=
  if is_owner c userId then true
  else
    match find (fun s => same_user s userId) (sharedWith c) with
    | None => false
    | Some share =>
        let userPermission := indexOf permissions (s_permission share) in
        let requiredLevel := indexOf permissions requiredPermission in
        (requiredLevel <=? userPermission)%Z
    end.

End ConversationMethods.

(* ------------------------------------------------------------------ *)
(** ** More of the chat controller and of the AI service *)

Module ChatHistory.

(** [Conversation.findOne({ _id, userId })]. *)
Definition Conversation_findOne (i userId : ObjectId) : M (option Conversation.t) :=
  fun s =>
    (Ok (find (fun c => Db.has_id i c && N.eqb (Conversation.userId c) userId)
           (conversations s)), s).

(** [Message.find({ conversationId }).sort({ timestamp: 1 })]: every
    message of the conversation; the sort is on a path no message has and
    leaves the order of the store. *)
Definition Message_find_sorted (cid : ObjectId) : M (list Message.t) :=
  fun s => (Ok (Db.sort_by_timestamp (filter (Db.in_conversation cid) (messages s))), s).

(** [getConversationHistory(userId, conversationId)]. *)
Definition getConversationHistory (userId conversationId : ObjectId)
    : M (Conversation.t * list Message.t) :=
  found <- Conversation_findOne conversationId userId ;;
  match found with
  | None => throw (Err "Conversation not found")
  | Some conversation =>
      msgs <- Message_find_sorted conversationId ;;
      ret (conversation, msgs)
  end.

(** [AIService.speechToText(audioData)]: a placeholder, whatever the audio. *)
Definition speechToText (audioData : string) : outcome string :=
  Ok "Speech-to-text conversion would happen here. Please provide your message in text format for now.".

(** The response of a voice turn: the response of the turn, whose
    [userMessage] received the two fields [originalAudio] and
    [transcribedText]. *)
Record VoiceResponse := mkVoiceResponse {
  response : ChatController.Response;
  originalAudio : string;
  transcribedText : string
}.

(** [handleVoiceMessage(socket, { userId, audioData, conversationId })]. *)
Definition handleVoiceMessage (env : ChatController.Env) (userId : ObjectId)
    (audioData : string) (conversationId : option ObjectId) : M VoiceResponse :=
  match speechToText audioData with
  | Throw e => throw e
  | Ok text =>
      r <- ChatController.handleMessage env
             (ChatController.mkData userId text conversationId (Some "voice")) ;;
      ret (mkVoiceResponse r audioData text)
  end.

End ChatHistory.

(** [server/controllers/aiController.js]: the image route. *)
Module AiController.

(** [req.body.prompt]: missing, a string, or a value of another type. *)
Inductive Prompt :=
| PromptMissing
| PromptString (s : string)
| PromptOther.

Inductive Reply :=
| Json (status : nat) (result : AIService.Response)
| JsonError (status : nat) (error : string).

(** [exports.generateImage]. *)
Definition generateImage (p : AIService.Providers) (prompt : Prompt) : Reply :=
  match prompt with
  | PromptString (String c rest) =>
      match AIService.generateImage p (String c rest) with
      | Ok result => Json 200 result
      | Throw _ => JsonError 500 "Failed to generate image."
      end
  | PromptString EmptyString | PromptMissing | PromptOther =>
      JsonError 400 "Prompt is required."
  end.

End AiController.

(** No stored message refers to a conversation id that is still to be
    handed out. *)
Definition references_below (s : Store) : Prop :=
  forall m, In m (messages s) -> (Message.conversationId m < next_oid s)%N.

(** What identifies a conversation to its users: id, owner and title. *)
Definition conversation_key (c : Conversation.t) : ObjectId * ObjectId * string :=
  (Conversation._id c, Conversation.userId c, Conversation.title c).

(** From [s] to [s'] the users are the same, the messages of [s] are still
    there, unchanged and in place, with new ones after them at most, and
    so are the conversations with their ids, owners and titles. *)
Definition only_appends (s s' : Store) : Prop :=
  users s' = users s /\
  (exists added, messages s' = (messages s ++ added)%list) /\
  (exists created,
      map conversation_key (conversations s')
      = (map conversation_key (conversations s) ++ created)%list) /\
  (next_oid s <= next_oid s')%N.

(** A computation that only appends, from every store. *)
Definition appending {A} (m : M A) : Prop := forall s, only_appends s (snd (m s)).

(** A store after some activity, with a soft-deleted message. *)
Module MoreSamples.

Definition three_messages : Store :=
  MessageOps.run
    [MessageOps.Create 10 "user" "my card number is 1234" "text" 5;
     MessageOps.Create 10 "ai" "noted" "text" 6;
     MessageOps.Create 10 "user" "thanks" "text" 7;
     MessageOps.SoftDelete 11 1 8]
    Samples.one_conversation.

Definition long_message : string :=
  "0123456789012345678901234567890123456789012345678901234567890123456789012345678901234567890123456789012345678901234567890123456789012345678901234567890123456789012345678901234567890123456789012345678901234567890123456789012345678901234567890123456789012345678901234567890123456789012345678901234567890123456789012345678901234567890123456789012345678901234567890123456789012345678901234567890123456789012345678901234567890123456789012345678901234567890123456789012345678901234567890123456789012345678901234567890123456789012345678901234567890".

Definition shared_conversation : Conversation.t :=
  Conversation.shareWith (Conversation.new 10 1 "Holiday plans..." 0)
    (Conversation.IdString 9) "write" 3.

End MoreSamples.

(* ================================================================== *)
(** * Properties *)

(* ------------------------------------------------------------------ *)
(** ** The intent classifier *)

Section IntentProps.
Import JsString Intent.

Example lower_mixed_case : toLowerCase "Write CODE" = "write code".
Proof. reflexivity. Qed.

Example includes_inside : includes "a picture of" "picture" = true.
Proof. reflexivity. Qed.

Example includes_missing : includes "what's the weather" "find" = false.
Proof. reflexivity. Qed.

Lemma confidence_in_unit_interval (message : string) :
  (0 <= confidence (analyzeIntent message) <= 1)%Q.
Proof.
  unfold analyzeIntent.
  repeat match goal with
         | |- context [if ?b then _ else _] => destruct b
         end; cbn; unfold Qle; cbn; lia.
Qed.

Lemma type_is_a_category (message : string) :
  In (type (analyzeIntent message)) categories.
Proof.
  unfold analyzeIntent, categories.
  repeat match goal with
         | |- context [if ?b then _ else _] => destruct b
         end; cbn; tauto.
Qed.

Lemma default_when_no_rule (message : string) :
  no_rule_matches message = true ->
  analyzeIntent message = mkIntent "text_response" (9 # 10).
Proof.
  unfold no_rule_matches, analyzeIntent.
  rewrite negb_true_iff, !orb_false_iff.
  intros [[[[[[-> ->] ->] ->] ->] ->] ->].
  reflexivity.
Qed.

(** The generic code rule is tested before the "write" rule, so a
    message that mentions "code" never reaches the latter. *)
Lemma generic_code_rule_first (message : string) :
  generate_image (toLowerCase message) = false ->
  create_image (toLowerCase message) = false ->
  includes (toLowerCase message) "code" = true ->
  analyzeIntent message = mkIntent "code_generation" (8 # 10).
Proof.
  intros Hg Hc Hcode. unfold analyzeIntent.
  rewrite Hg, Hc. unfold code_generic. rewrite Hcode. reflexivity.
Qed.

(** When the "write" rule decides, it is through "script". *)
Lemma write_rule_only_for_script (message : string) :
  generate_image (toLowerCase message) = false ->
  create_image (toLowerCase message) = false ->
  code_generic (toLowerCase message) = false ->
  code_write (toLowerCase message) = true ->
  includes (toLowerCase message) "script" = true /\
  analyzeIntent message = mkIntent "code_generation" (9 # 10).
Proof.
  intros Hg Hc Hgen Hw. unfold analyzeIntent. rewrite Hg, Hc, Hgen, Hw.
  split; [|reflexivity].
  unfold code_generic in Hgen. unfold code_write in Hw.
  apply orb_false_iff in Hgen as [Hgen _].
  apply orb_false_iff in Hgen as [Hcode _].
  rewrite Hcode in Hw. apply andb_true_iff in Hw as [_ Hw]. exact Hw.
Qed.

(** The table as the specification orders it and the code agree on the
    category of every message; they disagree on the confidence exactly
    when both code rules fire after the image rules did not. *)
Lemma spec_order_same_category (message : string) :
  type (analyzeIntent message) = type (classify_spec_order message).
Proof.
  unfold analyzeIntent, classify_spec_order.
  destruct (generate_image (toLowerCase message)), (create_image (toLowerCase message)),
    (code_generic (toLowerCase message)), (code_write (toLowerCase message)),
    (web_search (toLowerCase message)), (voice_command (toLowerCase message)),
    (document_analysis (toLowerCase message)); reflexivity.
Qed.

Lemma spec_order_differs_iff (message : string) :
  analyzeIntent message <> classify_spec_order message <->
  generate_image (toLowerCase message) = false /\
  create_image (toLowerCase message) = false /\
  code_generic (toLowerCase message) = true /\
  code_write (toLowerCase message) = true.
Proof.
  unfold analyzeIntent, classify_spec_order.
  destruct (generate_image (toLowerCase message)), (create_image (toLowerCase message)),
    (code_generic (toLowerCase message)), (code_write (toLowerCase message)),
    (web_search (toLowerCase message)), (voice_command (toLowerCase message)),
    (document_analysis (toLowerCase message)); cbn [orb];
    (split; [intro H; solve [exfalso; apply H; reflexivity | repeat split]
            |intros (H1 & H2 & H3 & H4); solve [discriminate | intro E; inversion E]]).
Qed.

Example spec_order_write_code :
  classify_spec_order "write code" = mkIntent "code_generation" (9 # 10).
Proof. reflexivity. Qed.

End IntentProps.

(** C5 (as stated, refuted).  Two messages whose lower-case form contains
    both "write" and "code": the first is classified code_generation with
    confidence 0.8, not 0.9, because the generic code rule is tested first;
    the second is an image request and is classified image_generation. *)
Lemma write_code_counterexample :
  JsString.includes (JsString.toLowerCase "write code") "write" = true /\
  JsString.includes (JsString.toLowerCase "write code") "code" = true /\
  Intent.analyzeIntent "write code" = Intent.mkIntent "code_generation" (8 # 10) /\
  Intent.analyzeIntent "write code" <> Intent.mkIntent "code_generation" (9 # 10) /\
  JsString.includes (JsString.toLowerCase "Write code to generate an image") "write" = true /\
  JsString.includes (JsString.toLowerCase "Write code to generate an image") "code" = true /\
  Intent.analyzeIntent "Write code to generate an image"
    = Intent.mkIntent "image_generation" (9 # 10).
Proof.
  repeat split; try reflexivity.
  intro H. vm_compute in H. discriminate H.
Qed.

(** C5 (amended).  A message whose lower-case form contains both "write"
    and "code", and on which neither image rule fires, is classified
    code_generation: the image rules come first and the first rule that
    fires decides. *)
Theorem write_code_is_code_generation (message : string) :
  JsString.includes (JsString.toLowerCase message) "write" = true ->
  JsString.includes (JsString.toLowerCase message) "code" = true ->
  Intent.generate_image (JsString.toLowerCase message) = false ->
  Intent.create_image (JsString.toLowerCase message) = false ->
  Intent.type (Intent.analyzeIntent message) = "code_generation".
Proof.
  intros _ Hcode Hg Hc.
  rewrite (generic_code_rule_first message Hg Hc Hcode). reflexivity.
Qed.

Lemma write_code_is_code_generation_witness :
  Intent.type (Intent.analyzeIntent "Please write the code for a parser") = "code_generation".
Proof.
  apply (write_code_is_code_generation "Please write the code for a parser");
    reflexivity.
Defined.

(** C6.  [analyzeIntent] is a total function of its argument (so equal
    messages get equal answers); its category is one of the six, its
    confidence lies in [0,1], it answers (text_response, 0.9) when no rule
    fires, and the three sample messages are classified as listed. *)
Theorem analyzeIntent_total :
  (forall message : string,
      In (Intent.type (Intent.analyzeIntent message)) Intent.categories /\
      (0 <= Intent.confidence (Intent.analyzeIntent message) <= 1)%Q /\
      (Intent.no_rule_matches message = true ->
       Intent.analyzeIntent message = Intent.mkIntent "text_response" (9 # 10))) /\
  (forall m1 m2 : string, m1 = m2 -> Intent.analyzeIntent m1 = Intent.analyzeIntent m2) /\
  Intent.analyzeIntent "Generate an image of a cat"
    = Intent.mkIntent "image_generation" (9 # 10) /\
  Intent.analyzeIntent "Write a script to sort a list"
    = Intent.mkIntent "code_generation" (9 # 10) /\
  Intent.analyzeIntent "What's the weather"
    = Intent.mkIntent "text_response" (9 # 10) /\
  Intent.no_rule_matches "What's the weather" = true.
Proof.
  split; [|split; [|repeat split]].
  - intro message. split; [|split].
    + apply type_is_a_category.
    + apply confidence_in_unit_interval.
    + apply default_when_no_rule.
  - intros m1 m2 ->. reflexivity.
Qed.

(* ------------------------------------------------------------------ *)
(** ** Subscription limits *)

Section LimitProps.
Import User.

Lemma lt_nan_right (a b : Val) : to_number b = None -> lt a b = false.
Proof. intro H. unfold lt. rewrite H. destruct (to_number a); reflexivity. Qed.

Lemma lt_nan_left (a b : Val) : to_number a = None -> lt a b = false.
Proof. intro H. unfold lt. rewrite H. reflexivity. Qed.

Lemma minus_one_is_number (a : Val) : to_number a = None -> is_minus_one a = false.
Proof. destruct a; simpl; intro H; try reflexivity; discriminate H. Qed.

(** A key of the limit table is one of its three own keys, or the access
    yields no number. *)
Lemma limit_key_cases (p : Plan) (type : string) :
  In type ["messages"; "images"; "code"] \/ to_number (lookup (limits p) type) = None.
Proof.
  destruct (String.eqb_spec "messages" type) as [E1|N1]; [left; simpl; auto|].
  destruct (String.eqb_spec "images" type) as [E2|N2]; [left; simpl; auto|].
  destruct (String.eqb_spec "code" type) as [E3|N3]; [left; simpl; auto|].
  right.
  apply String.eqb_neq in N1, N2, N3.
  destruct p; cbn [lookup limits]; rewrite N1, N2, N3;
    destruct (existsb (String.eqb type) object_prototype); reflexivity.
Qed.

(** With a key of the limit table, the two counter names built from it
    name no usage path. *)
Lemma no_counter_for_limit_key (u : Usage) (type : string) :
  In type ["messages"; "images"; "code"] ->
  usage_get u (type ++ "sSent") = VUndefined /\
  usage_get u (type ++ "sGenerated") = VUndefined.
Proof.
  simpl. intros [<-|[<-|[<-|[]]]]; split; reflexivity.
Qed.

Lemma checkLimits_true_iff (this : t) (type : string) :
  checkLimits this type = true <->
  plan this = enterprise /\ In type ["messages"; "images"; "code"].
Proof.
  destruct this as [i p u]. unfold checkLimits. cbn [plan usage].
  destruct (limit_key_cases p type) as [Hkey|Hnan].
  - destruct (no_counter_for_limit_key u type Hkey) as [-> ->].
    split.
    + intro H. split; [|exact Hkey].
      simpl in Hkey.
      destruct Hkey as [<-|[<-|[<-|[]]]]; destruct p; simpl in H;
        solve [reflexivity | discriminate H].
    + intros [-> _]. simpl in Hkey.
      destruct Hkey as [<-|[<-|[<-|[]]]]; reflexivity.
  - rewrite (minus_one_is_number _ Hnan), (lt_nan_right _ _ Hnan).
    split; [discriminate|].
    intros [-> Hkey]. exfalso.
    simpl in Hkey. destruct Hkey as [<-|[<-|[<-|[]]]]; discriminate Hnan.
Qed.

Example checkLimits_fresh_free_user :
  checkLimits (mk 1 free (mkUsage 0 0 0 0)) "messages" = false.
Proof. reflexivity. Qed.

Example checkLimits_singular_key :
  checkLimits (mk 1 free (mkUsage 5 0 0 0)) "message" = false.
Proof. reflexivity. Qed.

End LimitProps.

(** C9.  For a free, basic or premium user [checkLimits] answers false for
    every type argument, whatever the usage counters hold: with a key of the
    limit table the counter names built from the type name no usage path.
    It answers true exactly for an enterprise user and a type among
    messages, images and code. *)
Theorem checkLimits_only_enterprise :
  forall (this : User.t) (type : string),
    (In (User.plan this) [User.free; User.basic; User.premium] ->
     User.checkLimits this type = false) /\
    (In type ["messages"; "images"; "code"] ->
     User.usage_get (User.usage this) (type ++ "sSent") = User.VUndefined /\
     User.usage_get (User.usage this) (type ++ "sGenerated") = User.VUndefined) /\
    (User.checkLimits this type = true <->
     User.plan this = User.enterprise /\ In type ["messages"; "images"; "code"]).
Proof.
  intros this type. split; [|split].
  - intro Hplan.
    destruct (User.checkLimits this type) eqn:E; [|reflexivity].
    apply checkLimits_true_iff in E. destruct E as [E _]. rewrite E in Hplan.
    cbn [In] in Hplan. destruct Hplan as [H|[H|[H|[]]]]; discriminate H.
  - apply no_counter_for_limit_key.
  - apply checkLimits_true_iff.
Qed.

(* ------------------------------------------------------------------ *)
(** ** Reactions *)

Section ReactionProps.
Import Message ReactionOps.

Lemma run_snoc (calls : list call) (c : call) (m : Message.t) :
  run (calls ++ [c]) m = addReaction (run calls m) (c_userId c) (c_type c) (c_now c).
Proof. unfold run. rewrite fold_left_app. reflexivity. Qed.

Lemma latest_snoc (u : ObjectId) (calls : list call) (c : call) :
  latest u (calls ++ [c]) = if by_user u c then Some c else latest u calls.
Proof. unfold latest. rewrite rev_app_distr. reflexivity. Qed.

Lemma reactions_of_addReaction_same (m : Message.t) (u : ObjectId) (ty : string) (d : Date) :
  reactions_of u (addReaction m u ty d) = [mkReaction u ty d].
Proof.
  unfold reactions_of, addReaction. cbn [reactions set_reactions].
  rewrite filter_app. cbn [filter r_userId]. rewrite N.eqb_refl.
  replace (filter _ (filter _ (reactions m))) with (@nil Reaction); [reflexivity|].
  symmetry. induction (reactions m) as [|r rs IH]; [reflexivity|].
  cbn [filter]. destruct (N.eqb (r_userId r) u) eqn:E; cbn [negb filter].
  - exact IH.
  - rewrite E. exact IH.
Qed.

Lemma reactions_of_addReaction_other (m : Message.t) (u v : ObjectId) (ty : string) (d : Date) :
  v <> u ->
  reactions_of u (addReaction m v ty d) = reactions_of u m.
Proof.
  intro Hne. unfold reactions_of, addReaction. cbn [reactions set_reactions].
  rewrite filter_app. cbn [filter r_userId].
  apply N.eqb_neq in Hne. rewrite Hne, app_nil_r.
  induction (reactions m) as [|r rs IH]; [reflexivity|].
  cbn [filter]. destruct (N.eqb (r_userId r) v) eqn:E; cbn [negb filter].
  - apply N.eqb_eq in E. rewrite E, Hne. exact IH.
  - destruct (N.eqb (r_userId r) u); [f_equal|]; exact IH.
Qed.

(** After a sequence in which [u] reacted at least once, the message holds
    one reaction of [u]: the one of [u]'s latest call. *)
Lemma one_reaction_per_user (u : ObjectId) (calls : list call) (m : Message.t) (c : call) :
  latest u calls = Some c ->
  reactions_of u (run calls m) = [mkReaction u (c_type c) (c_now c)].
Proof.
  revert c. induction calls as [|c' calls IH] using rev_ind; intros c H.
  - discriminate H.
  - rewrite latest_snoc in H. rewrite run_snoc.
    destruct (by_user u c') eqn:E.
    + injection H as <-. unfold by_user in E. apply N.eqb_eq in E. rewrite E.
      apply reactions_of_addReaction_same.
    + unfold by_user in E. apply N.eqb_neq in E.
      rewrite reactions_of_addReaction_other by exact E.
      apply IH. exact H.
Qed.

Lemma latest_exists (u : ObjectId) (calls : list call) :
  (1 <= count_calls u calls)%nat -> exists c, latest u calls = Some c /\ c_userId c = u.
Proof.
  unfold count_calls, latest. intro H.
  destruct (find (by_user u) (rev calls)) as [c|] eqn:E.
  - exists c. split; [reflexivity|].
    apply find_some in E. destruct E as [_ E]. apply N.eqb_eq. exact E.
  - exfalso.
    assert (Hnil : filter (by_user u) calls = []).
    { destruct (filter (by_user u) calls) as [|x l] eqn:F; [reflexivity|].
      assert (Hin : In x (filter (by_user u) calls)) by (rewrite F; left; reflexivity).
      apply filter_In in Hin. destruct Hin as [Hin Hx].
      apply in_rev in Hin.
      rewrite (find_none _ _ E x Hin) in Hx. discriminate Hx. }
    rewrite Hnil in H. simpl in H. lia.
Qed.

End ReactionProps.

(** C8.  Whatever reactions a message holds, after a sequence of
    [addReaction] calls in which user [u] reacted twice or more, the
    reactions list holds exactly one reaction of [u], and its type is the
    one of [u]'s latest call. *)
Theorem addReaction_one_per_user
    (m : Message.t) (u : ObjectId) (calls : list ReactionOps.call) :
  (2 <= ReactionOps.count_calls u calls)%nat ->
  exists c r,
    ReactionOps.latest u calls = Some c /\
    ReactionOps.reactions_of u (ReactionOps.run calls m) = [r] /\
    Message.r_userId r = u /\
    Message.r_type r = ReactionOps.c_type c.
Proof.
  intro H.
  destruct (latest_exists u calls) as [c [Hc _]]; [lia|].
  exists c, (Message.mkReaction u (ReactionOps.c_type c) (ReactionOps.c_now c)).
  split; [exact Hc|]. split; [|split; reflexivity].
  apply one_reaction_per_user. exact Hc.
Qed.

Lemma addReaction_one_per_user_witness :
  exists c r,
    ReactionOps.latest 7%N
      [ReactionOps.mkCall 7 "like" 10; ReactionOps.mkCall 8 "wow" 11;
       ReactionOps.mkCall 7 "love" 12] = Some c /\
    ReactionOps.reactions_of 7%N
      (ReactionOps.run
         [ReactionOps.mkCall 7 "like" 10; ReactionOps.mkCall 8 "wow" 11;
          ReactionOps.mkCall 7 "love" 12]
         (Message.new 1 2 "ai" "hello" "text" [] 0)) = [r] /\
    Message.r_userId r = 7%N /\
    Message.r_type r = ReactionOps.c_type c.
Proof.
  apply (addReaction_one_per_user (Message.new 1 2 "ai" "hello" "text" [] 0) 7%N).
  vm_compute. lia.
Defined.

(* ------------------------------------------------------------------ *)
(** ** Sharing *)

Section ShareProps.
Import Conversation ShareOps.

Lemma set_permission_users (l : list Share) (a : IdArg) (p : string) :
  map s_userId (set_permission l a p) = map s_userId l.
Proof.
  induction l as [|sh l IH]; [reflexivity|].
  cbn [set_permission]. destruct (same_user sh a); cbn [map s_userId].
  - reflexivity.
  - f_equal. exact IH.
Qed.

Lemma set_permission_first (l : list Share) (h : ObjectId) (p : string) :
  In h (map s_userId l) ->
  option_map s_permission
    (find (fun sh => N.eqb (s_userId sh) h) (set_permission l (IdString h) p)) = Some p.
Proof.
  induction l as [|sh l IH]; [intros []|].
  intro Hin. cbn [set_permission same_user].
  destruct (N.eqb (s_userId sh) h) eqn:E.
  - cbn [find s_userId]. rewrite E. reflexivity.
  - cbn [find]. rewrite E. apply IH.
    destruct Hin as [Hin|Hin]; [|exact Hin].
    apply N.eqb_neq in E. contradiction.
Qed.

Lemma find_none_not_shared (l : list Share) (h : ObjectId) :
  find (fun sh => same_user sh (IdString h)) l = None -> ~ In h (map s_userId l).
Proof.
  intros Hnone Hin. apply in_map_iff in Hin. destruct Hin as [sh [Hsh Hin]].
  pose proof (find_none _ _ Hnone sh Hin) as H. cbn [same_user] in H.
  rewrite Hsh, N.eqb_refl in H. discriminate H.
Qed.

Lemma find_some_shared (l : list Share) (h : ObjectId) (sh : Share) :
  find (fun sh => same_user sh (IdString h)) l = Some sh -> In h (map s_userId l).
Proof.
  intro H. apply find_some in H. destruct H as [Hin Hsame].
  cbn [same_user] in Hsame. apply N.eqb_eq in Hsame. subst h.
  apply in_map. exact Hin.
Qed.

Lemma NoDup_map_filter (q : Share -> bool) (l : list Share) :
  NoDup (map s_userId l) -> NoDup (map s_userId (filter q l)).
Proof.
  induction l as [|sh l IH]; [intros _; constructor|].
  cbn [map filter]. intro H. inversion H as [|x xs Hnot Hrest]; subst.
  destruct (q sh); [|apply IH; exact Hrest].
  cbn [map]. constructor; [|apply IH; exact Hrest].
  intro Hin. apply Hnot.
  apply in_map_iff in Hin. destruct Hin as [y [Hy Hin]].
  apply filter_In in Hin. destruct Hin as [Hin _].
  rewrite <- Hy. apply in_map. exact Hin.
Qed.

Lemma NoDup_snoc (l : list ObjectId) (h : ObjectId) :
  ~ In h l -> NoDup l -> NoDup (l ++ [h]).
Proof.
  induction l as [|x l IH]; intros Hnot Hnd; cbn [app].
  - constructor; [intros []|constructor].
  - inversion Hnd as [|y ys Hx Hl]; subst.
    constructor.
    + rewrite in_app_iff. intros [Hin|[Heq|[]]]; [exact (Hx Hin)|].
      apply Hnot. left. symmetry. exact Heq.
    + apply IH; [|exact Hl]. intro Hin. apply Hnot. right. exact Hin.
Qed.

Lemma step_keeps_NoDup (c : Conversation.t) (o : op) :
  is_string (arg o) = true ->
  NoDup (shared_users c) -> NoDup (shared_users (step c o)).
Proof.
  unfold shared_users. destruct o as [[h|h] p d|[h|h]]; cbn [arg is_string step];
    intros Hs Hnd; try discriminate Hs.
  - unfold shareWith.
    destruct (find (fun sh => same_user sh (IdString h)) (sharedWith c)) eqn:F;
      cbn [sharedWith set_sharedWith].
    + rewrite set_permission_users. exact Hnd.
    + rewrite map_app. cbn [map s_userId id_of].
      apply NoDup_snoc; [apply find_none_not_shared; exact F|exact Hnd].
  - unfold removeShare. cbn [sharedWith set_sharedWith].
    apply NoDup_map_filter. exact Hnd.
Qed.

Lemma run_keeps_NoDup (ops : list op) (c : Conversation.t) :
  forallb (fun o => is_string (arg o)) ops = true ->
  NoDup (shared_users c) -> NoDup (shared_users (run ops c)).
Proof.
  revert c. induction ops as [|o ops IH]; intros c Hs Hnd; [exact Hnd|].
  cbn [forallb] in Hs. apply andb_true_iff in Hs. destruct Hs as [Ho Hs].
  unfold run. cbn [fold_left]. apply IH; [exact Hs|].
  apply step_keeps_NoDup; assumption.
Qed.

Lemma shareWith_again_in_place (c : Conversation.t) (h : ObjectId) (p : string) (d : Date) :
  In h (shared_users c) ->
  shared_users (shareWith c (IdString h) p d) = shared_users c /\
  permission_of h (shareWith c (IdString h) p d) = Some p.
Proof.
  unfold shared_users, permission_of, shareWith. intro Hin.
  destruct (find (fun sh => same_user sh (IdString h)) (sharedWith c)) eqn:F.
  - cbn [sharedWith set_sharedWith]. split.
    + apply set_permission_users.
    + apply set_permission_first. exact Hin.
  - exfalso. exact (find_none_not_shared _ _ F Hin).
Qed.

(** With an ObjectId object instead of its string, the strict comparison
    never succeeds and a second entry is appended. *)
Example shareWith_object_id_appends :
  shared_users
    (shareWith (shareWith (Conversation.new 1 2 "t" 0) (IdObject 5) "read" 1)
       (IdObject 5) "write" 2) = [5%N; 5%N].
Proof. reflexivity. Qed.

End ShareProps.

(** C10.  Starting from a conversation whose sharing list has at most one
    entry per user (a new conversation has none), after any sequence of
    [shareWith] and [removeShare] calls whose user ids are given as strings
    the list still has at most one entry per user; and [shareWith] for a
    user who is already in the list leaves the entries as they are and sets
    that user's permission. *)
Theorem sharedWith_one_entry_per_user (c : Conversation.t) (ops : list ShareOps.op) :
  NoDup (ShareOps.shared_users c) ->
  forallb (fun o => ShareOps.is_string (ShareOps.arg o)) ops = true ->
  NoDup (ShareOps.shared_users (ShareOps.run ops c)) /\
  forall (h : ObjectId) (p : string) (d : Date),
    In h (ShareOps.shared_users (ShareOps.run ops c)) ->
    ShareOps.shared_users
      (Conversation.shareWith (ShareOps.run ops c) (Conversation.IdString h) p d)
      = ShareOps.shared_users (ShareOps.run ops c) /\
    ShareOps.permission_of h
      (Conversation.shareWith (ShareOps.run ops c) (Conversation.IdString h) p d) = Some p.
Proof.
  intros Hnd Hs. split.
  - apply run_keeps_NoDup; assumption.
  - intros h p d Hin. apply shareWith_again_in_place. exact Hin.
Qed.

Lemma sharedWith_one_entry_per_user_witness :
  ShareOps.shared_users
    (ShareOps.run
       [ShareOps.ShareWith (Conversation.IdString 5) "read" 1;
        ShareOps.ShareWith (Conversation.IdString 6) "read" 2;
        ShareOps.ShareWith (Conversation.IdString 5) "admin" 3;
        ShareOps.RemoveShare (Conversation.IdString 6);
        ShareOps.ShareWith (Conversation.IdString 5) "write" 4]
       (Conversation.new 1 2 "Hello..." 0)) = [5%N] /\
  NoDup (ShareOps.shared_users
    (ShareOps.run
       [ShareOps.ShareWith (Conversation.IdString 5) "read" 1;
        ShareOps.ShareWith (Conversation.IdString 6) "read" 2;
        ShareOps.ShareWith (Conversation.IdString 5) "admin" 3;
        ShareOps.RemoveShare (Conversation.IdString 6);
        ShareOps.ShareWith (Conversation.IdString 5) "write" 4]
       (Conversation.new 1 2 "Hello..." 0))).
Proof.
  split; [reflexivity|].
  apply (sharedWith_one_entry_per_user (Conversation.new 1 2 "Hello..." 0)).
  - constructor.
  - reflexivity.
Defined.

(* ------------------------------------------------------------------ *)
(** ** Lists updated in place *)

Section ListUpdates.
Context {A : Type}.
Implicit Types (p q : A -> bool) (f : A -> A) (l : list A).

Lemma update_first_untouched p f l :
  (forall y, In y l -> p y = false) -> update_first p f l = l.
Proof.
  induction l as [|x l IH]; intro H; [reflexivity|].
  cbn [update_first]. rewrite (H x (or_introl eq_refl)).
  f_equal. apply IH. intros y Hy. apply H. right. exact Hy.
Qed.

Lemma update_first_last p f l x :
  (forall y, In y l -> p y = false) -> p x = true ->
  update_first p f (l ++ [x]) = (l ++ [f x])%list.
Proof.
  induction l as [|z l IH]; intros H Hx; cbn [app update_first].
  - rewrite Hx. reflexivity.
  - rewrite (H z (or_introl eq_refl)). f_equal.
    apply IH; [|exact Hx]. intros y Hy. apply H. right. exact Hy.
Qed.

Lemma existsb_update_first p q f l :
  (forall y, q (f y) = q y) -> existsb q (update_first p f l) = existsb q l.
Proof.
  intro H. induction l as [|x l IH]; [reflexivity|].
  cbn [update_first]. destruct (p x); cbn [existsb].
  - rewrite H. reflexivity.
  - rewrite IH. reflexivity.
Qed.

Lemma find_update_first_same p f l :
  (forall y, p (f y) = p y) ->
  find p (update_first p f l) = option_map f (find p l).
Proof.
  intro H. induction l as [|x l IH]; [reflexivity|].
  cbn [update_first find]. destruct (p x) eqn:E; cbn [find].
  - rewrite H, E. reflexivity.
  - rewrite E. exact IH.
Qed.

Lemma find_update_first_other p q f l :
  (forall y, q (f y) = q y) ->
  (forall y, p y = true -> q y = false) ->
  find q (update_first p f l) = find q l.
Proof.
  intros Hf Hpq. induction l as [|x l IH]; [reflexivity|].
  cbn [update_first find]. destruct (p x) eqn:E; cbn [find].
  - rewrite Hf, (Hpq x E). reflexivity.
  - destruct (q x); [reflexivity|exact IH].
Qed.

Lemma filter_length_replace_found p q (m m' : A) l :
  find p l = Some m -> q m' = q m ->
  length (filter q (update_first p (fun _ => m') l)) = length (filter q l).
Proof.
  intros Hfind Hq. induction l as [|x l IH]; [reflexivity|].
  cbn [find] in Hfind. cbn [update_first]. destruct (p x).
  - injection Hfind as ->. cbn [filter]. rewrite Hq. destruct (q m); reflexivity.
  - cbn [filter]. destruct (q x); cbn [length]; rewrite (IH Hfind); reflexivity.
Qed.

Lemma In_update_first_const p (m' : A) l x :
  In x l -> p x = false -> In x (update_first p (fun _ => m') l).
Proof.
  intros Hin Hp. induction l as [|z l IH]; [destruct Hin|].
  cbn [update_first]. destruct (p z) eqn:E.
  - destruct Hin as [->|Hin]; [rewrite Hp in E; discriminate E|right; exact Hin].
  - destruct Hin as [->|Hin]; [left; reflexivity|right; apply IH; exact Hin].
Qed.

End ListUpdates.

Lemma bind_ok_inv {A B} (m : M A) (k : A -> M B) (s s' : Store) (b : B) :
  bind m k s = (Ok b, s') ->
  exists a s1, m s = (Ok a, s1) /\ k a s1 = (Ok b, s').
Proof.
  unfold bind. destruct (m s) as [[a|e] s1]; intro H.
  - exists a, s1. split; [reflexivity|exact H].
  - discriminate H.
Qed.

Lemma has_id_true (i : ObjectId) (c : Conversation.t) :
  Db.has_id i c = true <-> Conversation._id c = i.
Proof. unfold Db.has_id. apply N.eqb_eq. Qed.

Lemma find_has_id (i : ObjectId) (l : list Conversation.t) (c : Conversation.t) :
  find (Db.has_id i) l = Some c -> In c l /\ Conversation._id c = i.
Proof.
  intro H. apply find_some in H. destruct H as [Hin Hid].
  split; [exact Hin|]. apply has_id_true. exact Hid.
Qed.

(* ------------------------------------------------------------------ *)
(** ** Access control *)

(** C3.  When [handleMessage] is called with the id of a conversation that
    does not exist or belongs to another user, the call throws (user not
    found, or conversation not found or access denied) and the store is
    left as it was: no conversation created or changed, no message saved.
    Under the same condition [deleteConversation] throws and deletes
    neither the conversation nor a message. *)
Theorem no_write_without_ownership
    (env : ChatController.Env) (data : ChatController.Data) (cid : ObjectId) (s : Store) :
  ChatController.conversationId data = Some cid ->
  (forall c, In c (conversations s) -> Conversation._id c = cid ->
             Conversation.userId c <> ChatController.userId data) ->
  (exists e,
      ChatController.handleMessage env data s = (Throw e, s) /\
      (e = Err "User not found" \/ e = Err "Conversation not found or access denied")) /\
  ChatController.deleteConversation (ChatController.userId data) cid s
    = (Throw (Err "Conversation not found"), s).
Proof.
  intros Hcid Hforeign. split.
  - unfold ChatController.handleMessage, ChatController.saveUserTurn.
    unfold bind at 1. unfold bind at 1. unfold Db.User_findById.
    destruct (find _ (users s)) as [u|].
    + exists (Err "Conversation not found or access denied"). split; [|right; reflexivity].
      unfold bind at 1. unfold ChatController.getOrCreateConversation. rewrite Hcid.
      unfold bind at 1. unfold Db.Conversation_findById.
      destruct (find (Db.has_id cid) (conversations s)) as [c|] eqn:F.
      * apply find_has_id in F. destruct F as [Hin Hid].
        pose proof (Hforeign c Hin Hid) as Hne. apply N.eqb_neq in Hne.
        rewrite Hne. reflexivity.
      * reflexivity.
    + exists (Err "User not found"). split; [reflexivity|left; reflexivity].
  - unfold ChatController.deleteConversation, bind, Db.Conversation_findOneAndDelete.
    destruct (find _ (conversations s)) as [c|] eqn:F; [|reflexivity].
    exfalso. apply find_some in F. destruct F as [Hin Hp].
    apply andb_true_iff in Hp. destruct Hp as [Hid Howner].
    apply has_id_true in Hid. apply N.eqb_eq in Howner.
    exact (Hforeign c Hin Hid Howner).
Qed.

Lemma no_write_without_ownership_witness :
  (exists e,
      ChatController.handleMessage Samples.env_up
        (ChatController.mkData 9 "Hello there" (Some 10%N) None) Samples.one_conversation
        = (Throw e, Samples.one_conversation) /\
      (e = Err "User not found" \/ e = Err "Conversation not found or access denied")) /\
  ChatController.deleteConversation 9 10 Samples.one_conversation
    = (Throw (Err "Conversation not found"), Samples.one_conversation).
Proof.
  apply (no_write_without_ownership Samples.env_up
           (ChatController.mkData 9 "Hello there" (Some 10%N) None) 10%N
           Samples.one_conversation).
  - reflexivity.
  - intros c [<-|[]] _. vm_compute. discriminate.
Defined.

(* ------------------------------------------------------------------ *)
(** ** The message count of a conversation *)

Section CountProps.
Import MessageOps.

Lemma inc_keeps_id (i : ObjectId) (c : Conversation.t) :
  Db.has_id i (Conversation.inc_messageCount c) = Db.has_id i c.
Proof. reflexivity. Qed.

(** The store after [create]: when the validators accept the message, the
    conversation's count is bumped and the message appended; otherwise
    only an ObjectId was used up. *)
Lemma create_store (cid : ObjectId) (sender content ty : string) (ts : Date) (s : Store) :
  snd (create cid sender content ty ts s) =
  match Message.validate (Message.new (next_oid s) cid sender content ty [] ts) with
  | Ok _ =>
      mkStore (users s)
        (update_first (Db.has_id cid) Conversation.inc_messageCount (conversations s))
        (messages s ++ [Message.new (next_oid s) cid sender content ty [] ts])
        (N.succ (next_oid s))
  | Throw _ => mkStore (users s) (conversations s) (messages s) (N.succ (next_oid s))
  end.
Proof.
  unfold create, Db.Message_insert, Db.Conversation_incMessageCount, Db.new_oid, bind, lift.
  cbn [next_oid users conversations messages].
  destruct (Message.validate _); reflexivity.
Qed.

(** The store after [softDelete]: the stored message is replaced by its
    soft-deleted version, or nothing changes. *)
Lemma softDelete_store (mid userId : ObjectId) (now : Date) (s : Store) :
  snd (softDelete mid userId now s) = s \/
  exists m,
    find (Db.msg_has_id mid) (messages s) = Some m /\
    snd (softDelete mid userId now s) =
    Db.set_messages s
      (update_first (Db.msg_has_id mid) (fun _ => Message.softDelete m userId now)
         (messages s)).
Proof.
  unfold softDelete, bind, Db.Message_findById.
  destruct (find (Db.msg_has_id mid) (messages s)) as [m|] eqn:F; [|left; reflexivity].
  unfold Db.Message_save, bind, lift.
  destruct (Message.validate _); [|left; reflexivity].
  assert (Hid : Message._id (Message.softDelete m userId now) = mid).
  { apply find_some in F. destruct F as [_ F]. apply N.eqb_eq in F. exact F. }
  rewrite Hid.
  destruct (existsb _ (messages s)); [|left; reflexivity].
  right. exists m. split; reflexivity.
Qed.

Lemma count_all_snoc (cid : ObjectId) (l : list Message.t) (m : Message.t) :
  length (filter (Db.in_conversation cid) (l ++ [m])) =
  (length (filter (Db.in_conversation cid) l)
   + if Db.in_conversation cid m then 1 else 0)%nat.
Proof.
  rewrite filter_app, length_app. cbn [filter].
  destruct (Db.in_conversation cid m); reflexivity.
Qed.

Lemma create_keeps_counts (cid : ObjectId) (sender content ty : string) (ts : Date) (s : Store) :
  counts_all_messages s ->
  counts_all_messages (snd (create cid sender content ty ts s)).
Proof.
  intro Inv. rewrite create_store.
  destruct (Message.validate _); [|exact Inv].
  intros i c. unfold count_all. cbn [conversations messages].
  rewrite count_all_snoc.
  unfold Db.in_conversation at 2. cbn [Message.conversationId Message.new].
  destruct (N.eqb_spec cid i) as [->|Hne].
  - rewrite find_update_first_same by (intro; apply inc_keeps_id).
    destruct (find (Db.has_id i) (conversations s)) as [c0|] eqn:F; [|discriminate].
    cbn [option_map]. intros [= <-]. cbn [Conversation.messageCount Conversation.inc_messageCount].
    rewrite (Inv i c0 F). unfold count_all. lia.
  - rewrite find_update_first_other.
    + intro F. rewrite (Inv i c F). unfold count_all. lia.
    + intro; apply inc_keeps_id.
    + intros y Hy. apply has_id_true in Hy. unfold Db.has_id.
      apply N.eqb_neq. rewrite Hy. exact Hne.
Qed.

Lemma softDelete_keeps_counts (mid userId : ObjectId) (now : Date) (s : Store) :
  counts_all_messages s ->
  counts_all_messages (snd (softDelete mid userId now s)).
Proof.
  intro Inv. destruct (softDelete_store mid userId now s) as [->|[m [F ->]]]; [exact Inv|].
  intros i c. unfold count_all. cbn [conversations messages Db.set_messages].
  rewrite (filter_length_replace_found _ _ m) by (exact F || reflexivity).
  apply Inv.
Qed.

Lemma run_keeps_counts (ops : list op) (s : Store) :
  counts_all_messages s -> counts_all_messages (run ops s).
Proof.
  revert s. induction ops as [|o ops IH]; intros s Inv; [exact Inv|].
  cbn [run]. apply IH. destruct o as [cid sender content ty ts|mid userId now]; cbn [step].
  - apply create_keeps_counts. exact Inv.
  - apply softDelete_keeps_counts. exact Inv.
Qed.

(** The messages of a conversation are the active ones and the deleted ones. *)
Lemma count_all_split (cid : ObjectId) (s : Store) :
  count_all cid s = (count_active cid s + count_deleted cid s)%nat.
Proof.
  unfold count_all, count_active, count_deleted.
  induction (messages s) as [|m l IH]; [reflexivity|].
  cbn [filter]. destruct (Db.in_conversation cid m), (Message.isDeleted m);
    cbn [andb negb length]; lia.
Qed.

(** A soft delete leaves the count of every conversation as it was. *)
Lemma softDelete_keeps_messageCount (mid userId : ObjectId) (now : Date) (s : Store) :
  conversations (snd (softDelete mid userId now s)) = conversations s.
Proof.
  destruct (softDelete_store mid userId now s) as [->|[m [_ ->]]]; reflexivity.
Qed.

End CountProps.

(** C1 (as stated, refuted).  In a conversation with no message, one
    message is created and then soft-deleted: the conversation's
    [messageCount] is 1 while no message with [isDeleted = false] is left. *)
Lemma messageCount_counterexample :
  exists c,
    find (Db.has_id 10)
      (conversations
         (MessageOps.run
            [MessageOps.Create 10 "user" "hi" "text" 5; MessageOps.SoftDelete 11 1 6]
            Samples.one_conversation)) = Some c /\
    Conversation.messageCount c = 1%Z /\
    MessageOps.count_active 10
      (MessageOps.run
         [MessageOps.Create 10 "user" "hi" "text" 5; MessageOps.SoftDelete 11 1 6]
         Samples.one_conversation) = 0%nat /\
    Conversation.messageCount c <>
    Z.of_nat
      (MessageOps.count_active 10
         (MessageOps.run
            [MessageOps.Create 10 "user" "hi" "text" 5; MessageOps.SoftDelete 11 1 6]
            Samples.one_conversation)).
Proof.
  eexists. split; [vm_compute; reflexivity|].
  split; [reflexivity|]. split; [reflexivity|].
  vm_compute. discriminate.
Qed.

(** C1 (amended).  From a store in which every conversation counts all of
    its messages (a new conversation counts none), after any sequence of
    message creations and soft deletions the [messageCount] of every
    conversation is the number of its messages, soft-deleted or not: the
    number with [isDeleted = false] plus the number of soft-deleted ones. *)
Theorem messageCount_counts_created (ops : list MessageOps.op) (s : Store) :
  MessageOps.counts_all_messages s ->
  forall cid c,
    find (Db.has_id cid) (conversations (MessageOps.run ops s)) = Some c ->
    Conversation.messageCount c =
    (Z.of_nat (MessageOps.count_active cid (MessageOps.run ops s))
     + Z.of_nat (MessageOps.count_deleted cid (MessageOps.run ops s)))%Z.
Proof.
  intros Inv cid c F.
  rewrite (run_keeps_counts ops s Inv cid c F), count_all_split. lia.
Qed.

Lemma messageCount_counts_created_witness :
  Conversation.messageCount
    (Conversation.inc_messageCount
       (Conversation.inc_messageCount (Conversation.new 10 1 "Holiday plans..." 0))) =
  (Z.of_nat
     (MessageOps.count_active 10
        (MessageOps.run
           [MessageOps.Create 10 "user" "hi" "text" 5;
            MessageOps.Create 10 "ai" "hello" "text" 6;
            MessageOps.SoftDelete 11 1 7]
           Samples.one_conversation))
   + Z.of_nat
       (MessageOps.count_deleted 10
          (MessageOps.run
             [MessageOps.Create 10 "user" "hi" "text" 5;
              MessageOps.Create 10 "ai" "hello" "text" 6;
              MessageOps.SoftDelete 11 1 7]
             Samples.one_conversation)))%Z.
Proof.
  apply (messageCount_counts_created
           [MessageOps.Create 10 "user" "hi" "text" 5;
            MessageOps.Create 10 "ai" "hello" "text" 6;
            MessageOps.SoftDelete 11 1 7]
           Samples.one_conversation).
  - intros cid c. unfold MessageOps.count_all.
    cbn [Samples.one_conversation conversations messages find filter length].
    destruct (Db.has_id cid _); [|discriminate].
    intros [= <-]. reflexivity.
  - reflexivity.
Defined.

(* ------------------------------------------------------------------ *)
(** ** The context of a turn *)

Section HistoryProps.
Import Db.

Lemma sort_by_timestamp_storage_order (l : list Message.t) :
  sort_by_timestamp l = l.
Proof.
  induction l as [|m l IH]; [reflexivity|].
  cbn [sort_by_timestamp fold_right]. fold (sort_by_timestamp l). rewrite IH.
  destruct l; reflexivity.
Qed.

Lemma sort_by_timestamp_perm (l : list Message.t) :
  Permutation (sort_by_timestamp l) l.
Proof. rewrite sort_by_timestamp_storage_order. apply Permutation_refl. Qed.

(** With the text intent the gateway receives the fetched history. *)
Lemma text_dispatch_passes_history
    (env : ChatController.Env) (message : string) (history : list Message.t) :
  ChatController.dispatch env "text_response" message history
  = AIService.generateTextResponse (ChatController.providers env) message history.
Proof. reflexivity. Qed.

End HistoryProps.

(** C4 (as stated, refuted).  Conversation 10 holds eleven messages,
    stored one after the other with ids 11 to 21.  The context fetched for
    a turn is made of the ten stored first (ids 11 to 20); the ten most
    recent are the messages with ids 12 to 21. *)
Lemma context_counterexample :
  (10 < MessageOps.count_all 10 Samples.eleven_messages)%nat /\
  (exists history,
      Db.Message_find_sorted_limit 10 10 Samples.eleven_messages
        = (Ok history, Samples.eleven_messages) /\
      map Message._id history = [11; 12; 13; 14; 15; 16; 17; 18; 19; 20]%N /\
      map Message._id (most_recent 10 10 Samples.eleven_messages)
        = [12; 13; 14; 15; 16; 17; 18; 19; 20; 21]%N /\
      history <> most_recent 10 10 Samples.eleven_messages).
Proof.
  split; [vm_compute; lia|].
  eexists. split; [reflexivity|].
  split; [reflexivity|]. split; [reflexivity|].
  intro H. apply (f_equal (map Message._id)) in H. vm_compute in H. discriminate H.
Qed.

(** The date given to the constructor plays no part in the order of the
    context: a message created with date 5 and stored before one created
    with date 3 also comes before it in the context. *)
Example context_keeps_storage_order :
  let first := Message.new 11 10 "user" "one" "text" [] 5 in
  let second := Message.new 12 10 "ai" "two" "text" [] 3 in
  Db.Message_find_sorted_limit 10 10
    (mkStore [Samples.alice] [] [first; second] 13)
  = (Ok [first; second], mkStore [Samples.alice] [] [first; second] 13).
Proof. reflexivity. Qed.

(** C4 (amended).  For a conversation holding more than 10 messages, the
    context fetched for a turn and handed to the response generation is
    made of the 10 messages of the conversation that were stored first,
    in the order in which they were stored: the messages of the
    conversation, in the order of the store, are the context followed by
    the messages left out, of which there is at least one. *)
Theorem context_is_first_ten_stored
    (env : ChatController.Env) (message : string) (cid : ObjectId) (s : Store) :
  (10 < MessageOps.count_all cid s)%nat ->
  exists history later,
    Db.Message_find_sorted_limit cid 10 s = (Ok history, s) /\
    ChatController.generateAIResponse env message cid s
      = (Ok (ChatController.respondWith env message history), s) /\
    length history = 10%nat /\
    later <> [] /\
    filter (Db.in_conversation cid) (messages s) = (history ++ later)%list.
Proof.
  unfold MessageOps.count_all. intro Hlen.
  set (conv := filter (Db.in_conversation cid) (messages s)) in *.
  exists (firstn 10 conv), (skipn 10 conv).
  split.
  { unfold Db.Message_find_sorted_limit. fold conv.
    rewrite sort_by_timestamp_storage_order. reflexivity. }
  split.
  { unfold ChatController.generateAIResponse, bind, Db.Message_find_sorted_limit.
    fold conv. rewrite sort_by_timestamp_storage_order. reflexivity. }
  split; [rewrite length_firstn; lia|].
  split.
  { intro H. apply (f_equal (@length Message.t)) in H.
    rewrite length_skipn in H. cbn [length] in H. lia. }
  symmetry. apply firstn_skipn.
Qed.

Lemma context_is_first_ten_stored_witness :
  exists history later,
    Db.Message_find_sorted_limit 10 10 Samples.eleven_messages
      = (Ok history, Samples.eleven_messages) /\
    ChatController.generateAIResponse Samples.env_up "What's the weather" 10
      Samples.eleven_messages
      = (Ok (ChatController.respondWith Samples.env_up "What's the weather" history),
         Samples.eleven_messages) /\
    length history = 10%nat /\
    later <> [] /\
    filter (Db.in_conversation 10) (messages Samples.eleven_messages)
    = (history ++ later)%list.
Proof.
  apply (context_is_first_ten_stored Samples.env_up "What's the weather" 10%N
           Samples.eleven_messages).
  vm_compute. lia.
Defined.

(* ------------------------------------------------------------------ *)
(** ** One turn of [handleMessage] *)

Section TurnProps.
Import ChatController.

Ltac bind_inv H :=
  let a := fresh "a" in
  let s1 := fresh "s" in
  let H1 := fresh "Hstep" in
  apply bind_ok_inv in H; destruct H as (a & s1 & H1 & H).

Lemma new_oid_inv (s s' : Store) (i : ObjectId) :
  Db.new_oid s = (Ok i, s') ->
  i = next_oid s /\
  s' = mkStore (users s) (conversations s) (messages s) (N.succ (next_oid s)).
Proof. unfold Db.new_oid. intros [= <- <-]. split; reflexivity. Qed.

Lemma lift_inv {A} (o : outcome A) (s s' : Store) (a : A) :
  lift o s = (Ok a, s') -> o = Ok a /\ s' = s.
Proof. unfold lift. intros [= -> ->]. split; reflexivity. Qed.

Lemma Message_insert_inv (m : Message.t) (s s' : Store) (u : unit) :
  Db.Message_insert m s = (Ok u, s') ->
  Message.validate m = Ok tt /\
  s' = mkStore (users s)
         (update_first (Db.has_id (Message.conversationId m))
            Conversation.inc_messageCount (conversations s))
         (messages s ++ [m]) (next_oid s).
Proof.
  unfold Db.Message_insert. intro H.
  bind_inv H. apply lift_inv in Hstep. destruct Hstep as [Hv ->]. destruct a.
  bind_inv H. unfold Db.Conversation_incMessageCount in Hstep.
  injection Hstep as _ <-. injection H as _ <-.
  split; [exact Hv|reflexivity].
Qed.

Lemma Conversation_insert_inv (c : Conversation.t) (s s' : Store) (u : unit) :
  Db.Conversation_insert c s = (Ok u, s') ->
  Conversation.validate c = Ok tt /\
  s' = Db.set_conversations s (conversations s ++ [c]).
Proof.
  unfold Db.Conversation_insert. intro H.
  bind_inv H. apply lift_inv in Hstep. destruct Hstep as [Hv ->]. destruct a.
  injection H as _ <-. split; [exact Hv|reflexivity].
Qed.

Lemma Conversation_saveLast_inv (c : Conversation.t) (s s' : Store) (u : unit) :
  Db.Conversation_saveLast c s = (Ok u, s') ->
  Conversation.validate c = Ok tt /\
  existsb (Db.has_id (Conversation._id c)) (conversations s) = true /\
  s' = Db.set_conversations s
         (update_first (Db.has_id (Conversation._id c)) (Db.write_last c) (conversations s)).
Proof.
  unfold Db.Conversation_saveLast. intro H.
  bind_inv H. apply lift_inv in Hstep. destruct Hstep as [Hv ->]. destruct a.
  destruct (existsb _ (conversations s)) eqn:E; [|discriminate H].
  injection H as _ <-. split; [exact Hv|]. split; reflexivity.
Qed.

Lemma write_last_keeps_id (i : ObjectId) (c d : Conversation.t) :
  Db.has_id i (Db.write_last c d) = Db.has_id i d.
Proof. reflexivity. Qed.

(** The history fetched for the conversation [conv] in the store [s], the
    response made from it, and the message that records the response. *)
Local Abbreviation history_of conv s :=
  (firstn 10 (Db.sort_by_timestamp
                (filter (Db.in_conversation (Conversation._id conv)) (messages s)))).
Local Abbreviation response_of env data conv s :=
  (respondWith env (message data) (history_of conv s)).
Local Abbreviation ai_message_of env data conv s :=
  (Message.new (next_oid s) (Conversation._id conv) "ai"
     (AIService.content (response_of env data conv s))
     (str_or (AIService.type (response_of env data conv s)) "text")
     (AIService.metadata (response_of env data conv s)) (now env 4)).
Local Abbreviation answered conv env data s :=
  (Conversation.set_last conv (AIService.content (response_of env data conv s)) (now env 5)).
Local Abbreviation response_view env data conv um s :=
  (mkResponse (Conversation._id conv)
     (mkUserView (Message._id um) (message data) (Message.messageType um)
        (Message.timestamp um))
     (mkAiView (next_oid s) (AIService.content (response_of env data conv s))
        (str_or (AIService.type (response_of env data conv s)) "text")
        (AIService.metadata (response_of env data conv s))
        (Message.timestamp (ai_message_of env data conv s)))
     (mkConvView (Conversation._id conv) (Conversation.title conv) (Some (now env 5)))).
Local Abbreviation store_after_answer env data conv s :=
  (mkStore (users s)
     (update_first (Db.has_id (Conversation._id conv))
        (Db.write_last (answered conv env data s))
        (update_first (Db.has_id (Conversation._id conv))
           Conversation.inc_messageCount (conversations s)))
     (messages s ++ [ai_message_of env data conv s])
     (N.succ (next_oid s))).

(** What a completed second half did. *)
Lemma answerTurn_inv (env : Env) (data : Data) (conv : Conversation.t) (um : Message.t)
    (s s' : Store) (r : Response) :
  answerTurn env data conv um s = (Ok r, s') ->
  Message.validate (ai_message_of env data conv s) = Ok tt /\
  r = response_view env data conv um s /\
  s' = store_after_answer env data conv s.
Proof.
  unfold answerTurn, generateAIResponse. intro H.
  bind_inv H. bind_inv Hstep.
  unfold Db.Message_find_sorted_limit in Hstep0. injection Hstep0 as <- <-.
  injection Hstep as <- <-.
  bind_inv H. apply new_oid_inv in Hstep. destruct Hstep as [-> ->].
  bind_inv H. apply Message_insert_inv in Hstep. destruct Hstep as [Hv ->].
  bind_inv H. apply Conversation_saveLast_inv in Hstep. destruct Hstep as [_ [_ ->]].
  injection H as <- <-.
  split; [exact Hv|]. split; reflexivity.
Qed.

(** The second half completes as soon as the validators accept the AI
    message and the updated conversation, and the conversation is stored. *)
Lemma answerTurn_ok (env : Env) (data : Data) (conv : Conversation.t) (um : Message.t)
    (s : Store) :
  Message.validate (ai_message_of env data conv s) = Ok tt ->
  Conversation.validate (answered conv env data s) = Ok tt ->
  existsb (Db.has_id (Conversation._id conv)) (conversations s) = true ->
  answerTurn env data conv um s
  = (Ok (response_view env data conv um s), store_after_answer env data conv s).
Proof.
  intros Hm Hc Hex.
  unfold answerTurn, generateAIResponse, Db.Message_find_sorted_limit, Db.new_oid,
    Db.Message_insert, Db.Conversation_incMessageCount, Db.Conversation_saveLast,
    bind, ret, lift.
  cbn [next_oid users conversations messages Db.set_conversations Db.set_messages].
  cbn [Message.conversationId Message.new] in *.
  rewrite Hm, Hc. cbn [Conversation._id Conversation.set_last].
  unfold Db.set_messages, Db.set_conversations. cbn [users conversations messages next_oid].
  rewrite existsb_update_first by (intro; apply inc_keeps_id).
  rewrite Hex. reflexivity.
Qed.

(** What a completed first half established. *)
Lemma saveUserTurn_inv (env : Env) (data : Data) (s s1 : Store)
    (conv : Conversation.t) (um : Message.t) :
  saveUserTurn env data s = (Ok (conv, um), s1) ->
  Conversation.validate conv = Ok tt /\
  existsb (Db.has_id (Conversation._id conv)) (conversations s1) = true /\
  In um (messages s1) /\
  Message.sender um = "user" /\
  Message.content um = message data /\
  Message.conversationId um = Conversation._id conv /\
  Message.isDeleted um = false.
Proof.
  unfold saveUserTurn. intro H.
  bind_inv H. destruct a as [u|]; [|discriminate H].
  bind_inv H. bind_inv H. apply new_oid_inv in Hstep1. destruct Hstep1 as [-> ->].
  bind_inv H. apply Message_insert_inv in Hstep1. destruct Hstep1 as [_ ->].
  bind_inv H. apply Conversation_saveLast_inv in Hstep1.
  destruct Hstep1 as [Hv [Hex ->]].
  injection H as <- <- <-.
  split; [exact Hv|]. split.
  - cbn [conversations Db.set_conversations]. cbn [conversations] in Hex.
    rewrite existsb_update_first by (intro; apply write_last_keeps_id).
    exact Hex.
  - cbn [messages Db.set_messages]. split; [apply in_or_app; right; left; reflexivity|].
    repeat split.
Qed.

(** The conversation a turn without [conversationId] starts with. *)
Local Abbreviation new_conversation env data s :=
  (Conversation.new (next_oid s) (userId data)
     (JsString.substring (message data) 0 50 ++ "...") (now env 0)).

(** What a completed first half did when no [conversationId] came with
    the message. *)
Lemma saveUserTurn_new_inv (env : Env) (data : Data) (s s1 : Store)
    (conv : Conversation.t) (um : Message.t) :
  conversationId data = None ->
  saveUserTurn env data s = (Ok (conv, um), s1) ->
  conv = Conversation.set_last (new_conversation env data s) (message data) (now env 2) /\
  um = Message.new (N.succ (next_oid s)) (next_oid s) "user" (message data)
         (match messageType data with Some t => t | None => "text" end) [] (now env 1) /\
  s1 = mkStore (users s)
         (update_first (Db.has_id (next_oid s)) (Db.write_last conv)
            (update_first (Db.has_id (next_oid s)) Conversation.inc_messageCount
               (conversations s ++ [new_conversation env data s])))
         (messages s ++ [um]) (N.succ (N.succ (next_oid s))).
Proof.
  unfold saveUserTurn. intros Hnone H.
  bind_inv H. unfold Db.User_findById in Hstep. injection Hstep as <- <-.
  destruct (find _ (users s)) as [u|]; [|discriminate H].
  bind_inv H. unfold getOrCreateConversation in Hstep. rewrite Hnone in Hstep.
  bind_inv Hstep. apply new_oid_inv in Hstep0. destruct Hstep0 as [-> ->].
  bind_inv Hstep. apply Conversation_insert_inv in Hstep0. destruct Hstep0 as [_ ->].
  injection Hstep as <- <-.
  bind_inv H. apply new_oid_inv in Hstep. destruct Hstep as [-> ->].
  bind_inv H. apply Message_insert_inv in Hstep. destruct Hstep as [_ ->].
  bind_inv H. apply Conversation_saveLast_inv in Hstep. destruct Hstep as [_ [_ ->]].
  injection H as <- <- <-.
  split; [reflexivity|]. split; reflexivity.
Qed.

Lemma text_intent_confidence (message : string) :
  Intent.type (Intent.analyzeIntent message) = "text_response" ->
  Intent.analyzeIntent message = Intent.mkIntent "text_response" (9 # 10).
Proof.
  unfold Intent.analyzeIntent.
  repeat match goal with
         | |- context [if ?b then _ else _] => destruct b
         end; cbn [Intent.type]; intro H; solve [reflexivity | discriminate H].
Qed.

(** With the text intent and both text providers failing, the response is
    the fallback of [generateWithGemini], tagged with the intent. *)
Lemma respondWith_fallback (env : Env) (message : string) (history : list Message.t) :
  (forall ms, AIService.openai_chat (providers env) ms = None) ->
  (forall pr, AIService.gemini (providers env) pr = None) ->
  Intent.type (Intent.analyzeIntent message) = "text_response" ->
  respondWith env message history =
  AIService.mkResponse AIService.fallback_content "text"
    [("intent", JStr "text_response"); ("confidence", JNum (9 # 10));
     ("model", JStr "fallback"); ("provider", JStr "rai")].
Proof.
  intros Hopenai Hgemini Hintent. unfold respondWith.
  rewrite (text_intent_confidence message Hintent). cbn [Intent.type Intent.confidence].
  rewrite text_dispatch_passes_history. unfold AIService.generateTextResponse.
  rewrite Hopenai. unfold AIService.generateWithGemini. rewrite Hgemini.
  reflexivity.
Qed.

(** An exception of the gateway is answered by the apology, whose metadata
    carry the error marker. *)
Lemma respondWith_apology (env : Env) (message : string) (history : list Message.t)
    (e : Error) :
  dispatch env (Intent.type (Intent.analyzeIntent message)) message history = Throw e ->
  respondWith env message history = apology /\
  Obj.get (AIService.metadata apology) "error" = JBool true.
Proof.
  intro H. unfold respondWith. rewrite H. split; reflexivity.
Qed.

Lemma validate_set_last (conv : Conversation.t) (v : string) (d : Date) :
  Conversation.validate conv = Ok tt ->
  (JsString.length (JsString.trim v) <=? 500)%Z = true ->
  Conversation.validate (Conversation.set_last conv v d) = Ok tt.
Proof.
  unfold Conversation.validate.
  cbn [Conversation.title Conversation.lastMessage Conversation.set_last].
  intros Hconv Hlen.
  destruct (JsString.length (Conversation.title conv) =? 0)%Z; [discriminate Hconv|].
  destruct (200 <? JsString.length (Conversation.title conv))%Z; [discriminate Hconv|].
  rewrite Z.ltb_antisym, Hlen. reflexivity.
Qed.

Lemma trimStart_ellipsis (x : string) :
  JsString.trimStart (x ++ "...") = (JsString.trimStart x ++ "...")%string.
Proof.
  induction x as [|c x IH]; [reflexivity|].
  cbn [append JsString.trimStart]. destruct (JsString.is_space c); [exact IH|reflexivity].
Qed.

Lemma trimEnd_ellipsis (x : string) :
  JsString.trimEnd (x ++ "...") = (x ++ "...")%string.
Proof.
  induction x as [|c x IH]; [reflexivity|].
  cbn [append JsString.trimEnd]. rewrite IH.
  destruct x; reflexivity.
Qed.

(** The [trim] setter on a title that ends with the ellipsis removes the
    leading white space only. *)
Lemma trim_ellipsis (x : string) :
  JsString.trim (x ++ "...") = (JsString.trimStart x ++ "...")%string.
Proof.
  unfold JsString.trim. rewrite trimStart_ellipsis. apply trimEnd_ellipsis.
Qed.

Lemma trimStart_substring (m : string) :
  JsString.starts_with_space m = false ->
  JsString.trimStart (JsString.substring m 0 50) = JsString.substring m 0 50.
Proof.
  destruct m as [|c m]; [reflexivity|].
  cbn [JsString.starts_with_space]. intro Hc.
  unfold JsString.substring. cbn [String.length].
  change (Nat.min 0 (S (String.length m))) with 0%nat.
  change (Nat.min 50 (S (String.length m))) with (S (Nat.min 49 (String.length m))).
  cbn [Nat.min Nat.max Nat.sub String.substring JsString.trimStart].
  rewrite Hc. reflexivity.
Qed.

(** C2 (as stated, refuted).  Every provider is down and the message is a
    plain question: the turn returns, but the metadata of the AI message
    are those of the fallback of [generateWithGemini] and carry no error
    marker. *)
Lemma degraded_turn_counterexample :
  (forall ms, AIService.openai_chat (providers Samples.env_down) ms = None) /\
  (forall pr, AIService.gemini (providers Samples.env_down) pr = None) /\
  exists r s',
    handleMessage Samples.env_down Samples.weather Samples.empty_store = (Ok r, s') /\
    am_metadata (aiMessage r) =
      [("intent", JStr "text_response"); ("confidence", JNum (9 # 10));
       ("model", JStr "fallback"); ("provider", JStr "rai")] /\
    Obj.get (am_metadata (aiMessage r)) "error" <> JBool true.
Proof.
  split; [reflexivity|]. split; [reflexivity|].
  eexists. eexists. split; [vm_compute; reflexivity|].
  split; [reflexivity|]. vm_compute. discriminate.
Qed.

(** C2 (amended).  In a turn classified text_response whose user message
    has been saved, when the chat completion fails for the primary and for
    the fallback provider, [handleMessage] does not throw: it returns the
    saved user message and an AI message that carries the fixed fallback
    text, with metadata made of the intent, the confidence, model
    "fallback" and provider "rai", and without an error marker; the user
    message saved before the AI call is still stored, next to the AI
    message. *)
Theorem degraded_turn_returns_fallback
    (env : Env) (data : Data) (s s1 : Store) (conv : Conversation.t) (um : Message.t) :
  (forall ms, AIService.openai_chat (providers env) ms = None) ->
  (forall pr, AIService.gemini (providers env) pr = None) ->
  Intent.type (Intent.analyzeIntent (message data)) = "text_response" ->
  saveUserTurn env data s = (Ok (conv, um), s1) ->
  exists r s',
    handleMessage env data s = (Ok r, s') /\
    um_id (userMessage r) = Message._id um /\
    um_content (userMessage r) = message data /\
    Message.sender um = "user" /\
    Message.content um = message data /\
    In um (messages s1) /\
    In um (messages s') /\
    am_content (aiMessage r) = AIService.fallback_content /\
    am_metadata (aiMessage r) =
      [("intent", JStr "text_response"); ("confidence", JNum (9 # 10));
       ("model", JStr "fallback"); ("provider", JStr "rai")] /\
    Obj.get (am_metadata (aiMessage r)) "error" = JUndefined /\
    exists am,
      In am (messages s') /\
      Message._id am = am_id (aiMessage r) /\
      Message.sender am = "ai" /\
      Message.content am = AIService.fallback_content.
Proof.
  intros Hopenai Hgemini Hintent Hsave.
  destruct (saveUserTurn_inv env data s s1 conv um Hsave)
    as (Hvalid & Hstored & Hin & Hsender & Hcontent & _ & _).
  pose proof (respondWith_fallback env (message data) (history_of conv s1)
                Hopenai Hgemini Hintent) as Hresp.
  assert (Hanswer :
            answerTurn env data conv um s1
            = (Ok (response_view env data conv um s1), store_after_answer env data conv s1)).
  { apply answerTurn_ok.
    - rewrite Hresp. reflexivity.
    - apply validate_set_last; [exact Hvalid|]. rewrite Hresp. reflexivity.
    - exact Hstored. }
  exists (response_view env data conv um s1), (store_after_answer env data conv s1).
  split.
  { unfold handleMessage, bind. rewrite Hsave. cbn [fst snd]. exact Hanswer. }
  cbn [userMessage aiMessage um_id um_content am_content am_metadata am_id messages].
  rewrite Hresp. cbn [AIService.content AIService.metadata AIService.type].
  repeat (split; [first [reflexivity | assumption | (apply in_or_app; left; assumption)]|]).
  eexists. split; [apply in_or_app; right; left; reflexivity|].
  repeat split.
Qed.

Lemma degraded_turn_returns_fallback_witness :
  exists r s',
    handleMessage Samples.env_down Samples.weather Samples.empty_store = (Ok r, s') /\
    um_id (userMessage r) = 11%N /\
    am_content (aiMessage r) = AIService.fallback_content /\
    Obj.get (am_metadata (aiMessage r)) "error" = JUndefined.
Proof.
  destruct (degraded_turn_returns_fallback Samples.env_down Samples.weather
              Samples.empty_store
              (snd (saveUserTurn Samples.env_down Samples.weather Samples.empty_store))
              (Conversation.set_last
                 (Conversation.new 10 1 "What's the weather..." 1000)
                 "What's the weather" 1002)
              (Message.new 11 10 "user" "What's the weather" "text" [] 1001))
    as (r & s' & Hret & Hid & _ & _ & _ & _ & _ & Hcontent & _ & Herror & _);
    try reflexivity.
  exists r, s'. repeat split; assumption.
Defined.

(** The error marker appears when the gateway itself throws: an image
    request while the image provider is down. *)
Example image_turn_marks_error :
  exists r s',
    handleMessage Samples.env_down
      (mkData 1 "generate an image of a cat" None None) Samples.empty_store = (Ok r, s') /\
    am_metadata (aiMessage r) = [("error", JBool true)].
Proof. eexists. eexists. split; [vm_compute; reflexivity|reflexivity]. Qed.

(** A search request gets the response type "search_result", which the
    [messageType] enum of the message schema does not list: saving the AI
    message is rejected and the turn throws, the user's message being
    stored already. *)
Example search_turn_rejected :
  exists s',
    handleMessage Samples.env_down
      (mkData 1 "find the latest news" None None) Samples.empty_store
      = (Throw (ValidationError "messageType"), s') /\
    map Message.sender (messages s') = ["user"].
Proof. eexists. split; [vm_compute; reflexivity|reflexivity]. Qed.

(** C7 (as stated, refuted).  The first message of a conversation starts
    with two blanks: the turn succeeds and creates one conversation, whose
    title is not the first 50 characters of the message followed by the
    ellipsis, because the [trim] setter of the title removed the blanks. *)
Lemma first_turn_title_counterexample :
  exists r s' c,
    handleMessage Samples.env_up Samples.weather_padded Samples.empty_store = (Ok r, s') /\
    conversations s' = [c] /\
    Conversation.title c = "What's the weather..." /\
    (JsString.substring (message Samples.weather_padded) 0 50 ++ "...")%string
      = "  What's the weather..." /\
    Conversation.title c
      <> (JsString.substring (message Samples.weather_padded) 0 50 ++ "...")%string.
Proof.
  eexists. eexists. eexists. split; [vm_compute; reflexivity|].
  split; [reflexivity|]. split; [reflexivity|]. split; [reflexivity|].
  vm_compute. discriminate.
Qed.

(** C7 (amended).  In a store whose ids are below the next generated
    ObjectId, a successful turn without [conversationId] creates
    exactly one conversation, owned by the caller, whose title is the first
    50 characters of the message, leading white space removed, followed by
    the ellipsis (so the first 50 characters followed by the ellipsis when
    the message does not start with white space); and it saves exactly two
    messages, both in that conversation: the user's, then the AI's. *)
Theorem first_turn_creates_conversation
    (env : Env) (data : Data) (s s' : Store) (r : Response) :
  ids_below s ->
  conversationId data = None ->
  handleMessage env data s = (Ok r, s') ->
  exists c um am,
    conversations s' = (conversations s ++ [c])%list /\
    messages s' = (messages s ++ [um; am])%list /\
    Conversation._id c = r_conversationId r /\
    Conversation.userId c = userId data /\
    Conversation.title c
      = (JsString.trimStart (JsString.substring (message data) 0 50) ++ "...")%string /\
    (JsString.starts_with_space (message data) = false ->
     Conversation.title c = (JsString.substring (message data) 0 50 ++ "...")%string) /\
    cv_title (conversation r) = Conversation.title c /\
    Conversation.messageCount c = 2%Z /\
    Message._id um = um_id (userMessage r) /\
    Message.conversationId um = Conversation._id c /\
    Message.sender um = "user" /\
    Message.content um = message data /\
    Message._id am = am_id (aiMessage r) /\
    Message.conversationId am = Conversation._id c /\
    Message.sender am = "ai" /\
    Message.content am = am_content (aiMessage r) /\
    ids_below s'.
Proof.
  intros [Hbelow Hbelow'] Hnone H. unfold handleMessage in H.
  bind_inv H. destruct a as [conv um]. cbn [fst snd] in H.
  destruct (saveUserTurn_new_inv env data s s0 conv um Hnone Hstep) as (Hconv & Hum & Hs0).
  apply answerTurn_inv in H. destruct H as (_ & Hr & Hs').
  assert (Hfresh : forall y, In y (conversations s) -> Db.has_id (next_oid s) y = false).
  { intros y Hy. unfold Db.has_id. apply N.eqb_neq.
    pose proof (Hbelow y Hy) as Hlt. lia. }
  assert (Hcid : Conversation._id conv = next_oid s) by (rewrite Hconv; reflexivity).
  rewrite update_first_last in Hs0 by (exact Hfresh || apply N.eqb_refl).
  rewrite update_first_last in Hs0 by (exact Hfresh || apply N.eqb_refl).
  assert (Hconvs : conversations s0
                   = (conversations s
                      ++ [Db.write_last conv
                            (Conversation.inc_messageCount (new_conversation env data s))])%list)
    by (rewrite Hs0; reflexivity).
  assert (Hmsgs : messages s0 = (messages s ++ [um])%list) by (rewrite Hs0; reflexivity).
  rewrite Hconvs, Hmsgs, Hcid in Hs'.
  rewrite update_first_last in Hs' by (exact Hfresh || apply N.eqb_refl).
  rewrite update_first_last in Hs' by (exact Hfresh || apply N.eqb_refl).
  assert (Hnext : next_oid s0 = N.succ (N.succ (next_oid s))) by (rewrite Hs0; reflexivity).
  assert (Hids : ids_below s').
  { rewrite Hs', Hnext. split; cbn [conversations messages next_oid].
    - intros c Hc. apply in_app_or in Hc. destruct Hc as [Hc|[<-|[]]].
      + pose proof (Hbelow c Hc). lia.
      + cbn [Conversation._id Db.write_last Conversation.inc_messageCount Conversation.new].
        lia.
    - intros m Hm. apply in_app_or in Hm. destruct Hm as [Hm|[<-|[]]].
      + apply in_app_or in Hm. destruct Hm as [Hm|[<-|[]]].
        * pose proof (Hbelow' m Hm). lia.
        * rewrite Hum. cbn [Message._id Message.new]. lia.
      + cbn [Message._id Message.new]. lia. }
  eexists. exists um. eexists.
  split; [rewrite Hs'; reflexivity|].
  split; [rewrite Hs'; cbn [messages]; rewrite <- app_assoc; reflexivity|].
  rewrite Hr.
  cbn [r_conversationId conversation cv_title userMessage aiMessage um_id am_id am_content
       Conversation._id Conversation.userId Conversation.title Conversation.messageCount
       Db.write_last Conversation.inc_messageCount Conversation.new
       Message._id Message.conversationId Message.sender Message.content Message.new].
  split; [symmetry; exact Hcid|]. split; [reflexivity|].
  split; [apply trim_ellipsis|].
  split.
  { intro Hsp. rewrite trim_ellipsis, (trimStart_substring (message data) Hsp).
    reflexivity. }
  split; [rewrite Hconv; reflexivity|]. split; [reflexivity|].
  rewrite Hum.
  cbn [Message._id Message.conversationId Message.sender Message.content Message.new].
  rewrite Hs0. cbn [next_oid messages].
  repeat match goal with |- _ /\ _ => split end;
    try reflexivity; try exact Hids.
  rewrite Hcid, <- Hum. reflexivity.
Qed.

Lemma first_turn_creates_conversation_witness :
  exists c um am,
    conversations
      (snd (handleMessage Samples.env_up Samples.weather Samples.empty_store))
      = (conversations Samples.empty_store ++ [c])%list /\
    messages
      (snd (handleMessage Samples.env_up Samples.weather Samples.empty_store))
      = (messages Samples.empty_store ++ [um; am])%list /\
    Conversation.userId c = 1%N /\
    Conversation.title c = "What's the weather..." /\
    Message.sender um = "user" /\
    Message.sender am = "ai".
Proof.
  destruct (first_turn_creates_conversation Samples.env_up Samples.weather
              Samples.empty_store
              (snd (handleMessage Samples.env_up Samples.weather Samples.empty_store))
              (mkResponse 10
                 (mkUserView 11 "What's the weather" "text" None)
                 (mkAiView 12 "Sunny, 21 degrees." "text"
                    [("intent", JStr "text_response"); ("confidence", JNum (9 # 10));
                     ("model", JStr "gpt-4"); ("provider", JStr "openai")] None)
                 (mkConvView 10 "What's the weather..." (Some 1005%Z))))
    as (c & um & am & Hc & Hm & _ & Howner & _ & Htitle & _ & _ & _ & _ & Hu & _ & _ & _ & Ha & _ & _).
  - split; intros x [].
  - reflexivity.
  - reflexivity.
  - exists c, um, am. repeat split; try assumption. apply Htitle. reflexivity.
Defined.

(** The no-break space U+00A0 is white space for the setter: a first
    message made of two of them and of "Hi" gives the title "Hi...". *)
Example first_turn_title_no_break_space :
  exists r s' c,
    handleMessage Samples.env_up
      (mkData 1 (String "160"%char (String "160"%char "Hi")) None None)
      Samples.empty_store = (Ok r, s') /\
    conversations s' = [c] /\
    Conversation.title c = "Hi...".
Proof.
  eexists. eexists. eexists. split; [vm_compute; reflexivity|].
  split; reflexivity.
Qed.

End TurnProps.



(* ================================================================== *)
(** * Further properties of the models *)

(* ------------------------------------------------------------------ *)
(** ** Editing, mentions, soft deletion and reactions *)

Section MessageMethodProps.
Import MessageDoc.

Lemma versions_edit (d : MessageDoc.t) (c : string) (now : Date) :
  versions (edit d c now) = (versions d ++ [c])%list.
Proof.
  unfold versions, edit. cbn [editHistory base Message.content set_content].
  rewrite map_app. reflexivity.
Qed.

Lemma mention_ids_addMention (d : MessageDoc.t) (u : ObjectId) (n : string) :
  map m_userId (mentions (addMention d u n)) =
  if existsb (N.eqb u) (map m_userId (mentions d))
  then map m_userId (mentions d)
  else (map m_userId (mentions d) ++ [u])%list.
Proof.
  unfold addMention.
  assert (H : forall l : list Mention,
             existsb (N.eqb u) (map m_userId l) = true <->
             exists m, find (fun m => N.eqb (m_userId m) u) l = Some m).
  { induction l as [|x l IH]; cbn [map existsb find].
    - split; [discriminate|intros [m Hm]; discriminate Hm].
    - rewrite (N.eqb_sym u). destruct (N.eqb (m_userId x) u); cbn [orb].
      + split; [intros _; exists x; reflexivity|reflexivity].
      + exact IH. }
  destruct (find _ (mentions d)) as [m|] eqn:F.
  - destruct (H (mentions d)) as [_ H2]. rewrite H2 by (exists m; exact F). reflexivity.
  - destruct (existsb _ _) eqn:E.
    + apply H in E. destruct E as [m Hm]. rewrite F in Hm. discriminate Hm.
    + cbn [mentions]. rewrite map_app. reflexivity.
Qed.

Lemma existsb_eqb_In (u : ObjectId) (l : list ObjectId) :
  existsb (N.eqb u) l = true <-> In u l.
Proof.
  rewrite existsb_exists. split.
  - intros [x [Hin Hx]]. apply N.eqb_eq in Hx. subst x. exact Hin.
  - intro Hin. exists u. split; [exact Hin|apply N.eqb_refl].
Qed.

Lemma addMention_known (d : MessageDoc.t) (u : ObjectId) (n : string) :
  In u (map m_userId (mentions d)) -> addMention d u n = d.
Proof.
  intro Hin. unfold addMention.
  destruct (find _ (mentions d)) as [m|] eqn:F; [reflexivity|].
  exfalso. apply in_map_iff in Hin. destruct Hin as [m [Hm Hin]].
  pose proof (find_none _ _ F m Hin) as H. cbn in H. rewrite Hm, N.eqb_refl in H.
  discriminate H.
Qed.

Lemma addMention_keeps (d : MessageDoc.t) (u v : ObjectId) (n : string) :
  In v (map m_userId (mentions d)) -> In v (map m_userId (mentions (addMention d u n))).
Proof.
  intro H. rewrite mention_ids_addMention.
  destruct (existsb _ _); [exact H|apply in_or_app; left; exact H].
Qed.

Lemma addMention_present (d : MessageDoc.t) (u : ObjectId) (n : string) :
  In u (map m_userId (mentions (addMention d u n))).
Proof.
  rewrite mention_ids_addMention.
  destruct (existsb _ _) eqn:E.
  - apply existsb_eqb_In. exact E.
  - apply in_or_app. right. left. reflexivity.
Qed.

Lemma addMention_NoDup (d : MessageDoc.t) (u : ObjectId) (n : string) :
  NoDup (map m_userId (mentions d)) ->
  NoDup (map m_userId (mentions (addMention d u n))).
Proof.
  intro Hnd. rewrite mention_ids_addMention.
  destruct (existsb _ _) eqn:E; [exact Hnd|].
  apply NoDup_snoc; [|exact Hnd].
  intro Hin. apply existsb_eqb_In in Hin. rewrite Hin in E. discriminate E.
Qed.

Lemma filter_idem {A} (f : A -> bool) (l : list A) :
  filter f (filter f l) = filter f l.
Proof.
  induction l as [|x l IH]; [reflexivity|].
  cbn [filter]. destruct (f x) eqn:E; [cbn [filter]; rewrite E, IH; reflexivity|exact IH].
Qed.

Lemma map_replace_found {A B} (p : A -> bool) (g : A -> B) (m m' : A) (l : list A) :
  find p l = Some m -> g m' = g m ->
  map g (update_first p (fun _ => m') l) = map g l.
Proof.
  intros F Hg. induction l as [|x l IH]; [reflexivity|].
  cbn [find] in F. cbn [update_first]. destruct (p x).
  - injection F as ->. cbn [map]. rewrite Hg. reflexivity.
  - cbn [map]. rewrite (IH F). reflexivity.
Qed.

Lemma find_replace_found {A} (p : A -> bool) (m m' : A) (l : list A) :
  find p l = Some m -> p m' = true ->
  find p (update_first p (fun _ => m') l) = Some m'.
Proof.
  intros F Hp. induction l as [|x l IH]; [discriminate F|].
  cbn [find] in F. cbn [update_first]. destruct (p x) eqn:E.
  - cbn [find]. rewrite Hp. reflexivity.
  - cbn [find]. rewrite E. exact (IH F).
Qed.

End MessageMethodProps.

(** X1.  Editing never discards a version: after any sequence of [edit]
    calls, the edit history followed by the current content is the list of
    versions before, followed by the new contents in the order of the
    calls; the history grew by one snapshot per call, and the message is
    flagged as edited as soon as one call was made. *)
Theorem edit_keeps_every_version (d : MessageDoc.t) (edits : list (string * Date)) :
  MessageDoc.versions (MessageDoc.run_edits edits d)
    = (MessageDoc.versions d ++ map fst edits)%list /\
  length (MessageDoc.editHistory (MessageDoc.run_edits edits d))
    = (length (MessageDoc.editHistory d) + length edits)%nat /\
  (edits <> [] -> MessageDoc.isEdited (MessageDoc.run_edits edits d) = true).
Proof.
  revert d. induction edits as [|e edits IH]; intro d.
  - unfold MessageDoc.run_edits. cbn [fold_left map length].
    rewrite app_nil_r, Nat.add_0_r. repeat split. intro H. contradiction.
  - unfold MessageDoc.run_edits in *. cbn [fold_left map length].
    destruct (IH (MessageDoc.edit d (fst e) (snd e))) as (Hv & Hl & He).
    rewrite Hv, Hl, versions_edit, <- app_assoc.
    cbn [MessageDoc.edit MessageDoc.editHistory app]. rewrite length_app. cbn [length].
    split; [reflexivity|]. split; [lia|].
    intros _. destruct edits as [|e' edits']; [reflexivity|].
    apply He. discriminate.
Qed.

(** X2.  A soft delete keeps the content in the document, records who
    deleted the message and when, and shows the placeholder in the
    summary; [restore] clears the three deletion paths and brings the
    content back into the summary; and the summary of a message that was
    not deleted is the same after a soft delete followed by [restore]. *)
Theorem softDelete_then_restore (d : MessageDoc.t) (userId : ObjectId) (now : Date) :
  Message.content (MessageDoc.base (MessageDoc.softDelete d userId now))
    = Message.content (MessageDoc.base d) /\
  Message.isDeleted (MessageDoc.base (MessageDoc.softDelete d userId now)) = true /\
  Message.deletedAt (MessageDoc.base (MessageDoc.softDelete d userId now)) = Some now /\
  Message.deletedBy (MessageDoc.base (MessageDoc.softDelete d userId now)) = Some userId /\
  MessageDoc.sm_content (MessageDoc.getSummary (MessageDoc.softDelete d userId now))
    = "[Message deleted]" /\
  MessageDoc.sm_isDeleted (MessageDoc.getSummary (MessageDoc.softDelete d userId now)) = true /\
  Message.isDeleted
    (MessageDoc.base (MessageDoc.restore (MessageDoc.softDelete d userId now))) = false /\
  Message.deletedAt
    (MessageDoc.base (MessageDoc.restore (MessageDoc.softDelete d userId now))) = None /\
  Message.deletedBy
    (MessageDoc.base (MessageDoc.restore (MessageDoc.softDelete d userId now))) = None /\
  MessageDoc.sm_content
    (MessageDoc.getSummary (MessageDoc.restore (MessageDoc.softDelete d userId now)))
    = Message.content (MessageDoc.base d) /\
  (Message.isDeleted (MessageDoc.base d) = false ->
   MessageDoc.getSummary (MessageDoc.restore (MessageDoc.softDelete d userId now))
   = MessageDoc.getSummary d).
Proof.
  destruct d as [[i c sd ct ty md rs st del dat dby] ie eh mn].
  cbn. repeat split. intros ->. reflexivity.
Qed.

(** X3.  Mentions are a set keyed by user: after any sequence of
    [addMention] calls on a message whose mentions name each user once,
    they still name each user once, every user of a call is mentioned, and
    mentioning a user again changes nothing. *)
Theorem addMention_set_semantics
    (d : MessageDoc.t) (calls : list (ObjectId * string)) :
  NoDup (map MessageDoc.m_userId (MessageDoc.mentions d)) ->
  NoDup (map MessageDoc.m_userId (MessageDoc.mentions (MessageDoc.run_mentions calls d))) /\
  (forall c, In c calls ->
     In (fst c)
        (map MessageDoc.m_userId (MessageDoc.mentions (MessageDoc.run_mentions calls d)))) /\
  (forall c username, In c calls ->
     MessageDoc.addMention (MessageDoc.run_mentions calls d) (fst c) username
     = MessageDoc.run_mentions calls d).
Proof.
  intro Hnd.
  assert (Hkeep : forall calls d v,
             In v (map MessageDoc.m_userId (MessageDoc.mentions d)) ->
             In v (map MessageDoc.m_userId
                     (MessageDoc.mentions (MessageDoc.run_mentions calls d)))).
  { clear. induction calls as [|c calls IH]; intros d v Hv; [exact Hv|].
    unfold MessageDoc.run_mentions. cbn [fold_left]. apply IH.
    apply addMention_keeps. exact Hv. }
  assert (Hall : forall c, In c calls ->
             In (fst c)
                (map MessageDoc.m_userId
                   (MessageDoc.mentions (MessageDoc.run_mentions calls d)))).
  { clear Hnd. revert d. induction calls as [|c0 calls IH]; intros d c Hc; [destruct Hc|].
    unfold MessageDoc.run_mentions. cbn [fold_left].
    destruct Hc as [<-|Hc].
    - apply Hkeep. apply addMention_present.
    - apply IH. exact Hc. }
  split; [|split; [exact Hall|]].
  - clear Hall Hkeep. revert d Hnd.
    induction calls as [|c calls IH]; intros d Hnd; [exact Hnd|].
    unfold MessageDoc.run_mentions. cbn [fold_left]. apply IH.
    apply addMention_NoDup. exact Hnd.
  - intros c username Hc. apply addMention_known. apply Hall. exact Hc.
Qed.

Lemma addMention_set_semantics_witness :
  map MessageDoc.m_userId
    (MessageDoc.mentions
       (MessageDoc.run_mentions [(7%N, "ann"); (8%N, "bo"); (7%N, "anna")]
          (MessageDoc.of_message (Message.new 1 2 "user" "hi" "text" [] 0)))) = [7%N; 8%N] /\
  NoDup
    (map MessageDoc.m_userId
       (MessageDoc.mentions
          (MessageDoc.run_mentions [(7%N, "ann"); (8%N, "bo"); (7%N, "anna")]
             (MessageDoc.of_message (Message.new 1 2 "user" "hi" "text" [] 0))))).
Proof.
  split; [reflexivity|].
  apply (addMention_set_semantics
           (MessageDoc.of_message (Message.new 1 2 "user" "hi" "text" [] 0))
           [(7%N, "ann"); (8%N, "bo"); (7%N, "anna")]).
  constructor.
Defined.

(** X4.  [removeReaction] removes every reaction of the user and leaves
    those of the other users as they are; a reaction added and then removed
    leaves the message as a plain removal does. *)
Theorem removeReaction_removes_only_the_user
    (m : Message.t) (u : ObjectId) (reactionType : string) (now : Date) :
  ReactionOps.reactions_of u (Message.removeReaction m u) = [] /\
  (forall v, v <> u ->
     ReactionOps.reactions_of v (Message.removeReaction m u) = ReactionOps.reactions_of v m) /\
  Message.removeReaction (Message.addReaction m u reactionType now) u
    = Message.removeReaction m u.
Proof.
  unfold ReactionOps.reactions_of, Message.removeReaction, Message.addReaction.
  cbn [Message.reactions Message.set_reactions].
  split; [|split].
  - induction (Message.reactions m) as [|r rs IH]; [reflexivity|].
    cbn [filter]. destruct (N.eqb (Message.r_userId r) u) eqn:E; cbn [negb filter].
    + exact IH.
    + rewrite E. exact IH.
  - intros v Hv. apply N.eqb_neq in Hv.
    induction (Message.reactions m) as [|r rs IH]; [reflexivity|].
    cbn [filter]. destruct (N.eqb (Message.r_userId r) u) eqn:E; cbn [negb filter].
    + apply N.eqb_eq in E. rewrite E, N.eqb_sym, Hv. exact IH.
    + destruct (N.eqb (Message.r_userId r) v); [f_equal|]; exact IH.
  - rewrite filter_app, filter_idem. cbn [filter Message.r_userId].
    rewrite N.eqb_refl. cbn [negb]. rewrite app_nil_r. reflexivity.
Qed.

(* ------------------------------------------------------------------ *)
(** ** Soft deletion in the store and the standard read path *)

Section ReadPathProps.
Import MessageStatics.

Lemma validate_softDelete (m : Message.t) (u : ObjectId) (d : Date) :
  Message.validate (Message.softDelete m u d) = Message.validate m.
Proof. destruct m. reflexivity. Qed.

Lemma find_some_existsb {A} (p : A -> bool) (l : list A) (x : A) :
  find p l = Some x -> existsb p l = true.
Proof.
  intro F. apply find_some in F. destruct F as [Hin Hp].
  apply existsb_exists. exists x. split; assumption.
Qed.

Lemma insert_by_timestamp_desc_perm (m : Message.t) (l : list Message.t) :
  Permutation (insert_by_timestamp_desc m l) (m :: l).
Proof.
  induction l as [|x l IH]; cbn [insert_by_timestamp_desc]; [apply Permutation_refl|].
  destruct (Db.key_le (Message.timestamp x) (Message.timestamp m)).
  - apply Permutation_refl.
  - apply perm_trans with (x :: m :: l); [apply perm_skip; exact IH|apply perm_swap].
Qed.

Lemma sort_by_timestamp_desc_perm (l : list Message.t) :
  Permutation (sort_by_timestamp_desc l) l.
Proof.
  induction l as [|m l IH]; [apply perm_nil|].
  cbn [sort_by_timestamp_desc fold_right].
  apply perm_trans with (m :: sort_by_timestamp_desc l).
  - apply insert_by_timestamp_desc_perm.
  - apply perm_skip. exact IH.
Qed.

Lemma firstn_subset {A} (n : nat) (l : list A) (x : A) :
  In x (firstn n l) -> In x l.
Proof.
  revert l. induction n as [|n IH]; intros l H; [destruct H|].
  destruct l as [|y l]; [destruct H|].
  cbn [firstn] in H. destruct H as [->|H]; [left; reflexivity|right; apply IH; exact H].
Qed.

Lemma skipn_subset {A} (n : nat) (l : list A) (x : A) :
  In x (skipn n l) -> In x l.
Proof.
  revert l. induction n as [|n IH]; intros l H; [exact H|].
  destruct l as [|y l]; [destruct H|].
  right. apply IH. exact H.
Qed.

(** The sorted list of the messages [findByConversation] selects. *)
Lemma selected_perm (cid : ObjectId) (o : Options) (s : Store) :
  Permutation
    (if is_desc o
     then sort_by_timestamp_desc
            (filter (fun m => Db.in_conversation cid m && negb (Message.isDeleted m))
               (messages s))
     else Db.sort_by_timestamp
            (filter (fun m => Db.in_conversation cid m && negb (Message.isDeleted m))
               (messages s)))
    (filter (fun m => Db.in_conversation cid m && negb (Message.isDeleted m)) (messages s)).
Proof.
  destruct (is_desc o); [apply sort_by_timestamp_desc_perm|apply sort_by_timestamp_perm].
Qed.

End ReadPathProps.

(** X5.  Soft-deleting a stored message that passes the validators
    succeeds and marks that message as deleted; no message leaves the
    store, and the id, the conversation and the content of every stored
    message stay what they were; the conversations are not touched. *)
Theorem softDelete_keeps_message_stored
    (mid userId : ObjectId) (now : Date) (s : Store) (m : Message.t) :
  find (Db.msg_has_id mid) (messages s) = Some m ->
  Message.validate m = Ok tt ->
  fst (MessageOps.softDelete mid userId now s) = Ok tt /\
  find (Db.msg_has_id mid) (messages (snd (MessageOps.softDelete mid userId now s)))
    = Some (Message.softDelete m userId now) /\
  map (fun x => (Message._id x, Message.conversationId x, Message.content x))
      (messages (snd (MessageOps.softDelete mid userId now s)))
    = map (fun x => (Message._id x, Message.conversationId x, Message.content x))
        (messages s) /\
  conversations (snd (MessageOps.softDelete mid userId now s)) = conversations s.
Proof.
  intros F Hv.
  assert (Hid : Message._id (Message.softDelete m userId now) = mid).
  { apply find_some in F. destruct F as [_ F]. apply N.eqb_eq in F. exact F. }
  unfold MessageOps.softDelete, bind, Db.Message_findById. rewrite F.
  unfold Db.Message_save, bind, lift. rewrite validate_softDelete, Hv, Hid.
  rewrite (find_some_existsb _ _ _ F). cbn [fst snd messages conversations Db.set_messages].
  split; [reflexivity|]. split; [|split; [|reflexivity]].
  - apply (find_replace_found _ m); [exact F|]. unfold Db.msg_has_id. rewrite Hid.
    apply N.eqb_refl.
  - apply (map_replace_found _ _ m); [exact F|reflexivity].
Qed.

Lemma softDelete_keeps_message_stored_witness :
  fst (MessageOps.softDelete 11 1 8
         (MessageOps.run [MessageOps.Create 10 "user" "hi" "text" 5] Samples.one_conversation))
    = Ok tt /\
  map (fun x => (Message._id x, Message.conversationId x, Message.content x))
      (messages
         (snd (MessageOps.softDelete 11 1 8
                 (MessageOps.run [MessageOps.Create 10 "user" "hi" "text" 5]
                    Samples.one_conversation))))
    = [(11%N, 10%N, "hi")].
Proof.
  destruct (softDelete_keeps_message_stored 11 1 8
              (MessageOps.run [MessageOps.Create 10 "user" "hi" "text" 5]
                 Samples.one_conversation)
              (Message.new 11 10 "user" "hi" "text" [] 5))
    as (Hok & _ & Hmap & _); [reflexivity|reflexivity|].
  split; [exact Hok|]. rewrite Hmap. reflexivity.
Defined.

(** X6.  [findByConversation] leaves the store as it is and returns only
    stored messages of the conversation that are not soft-deleted, at most
    [limit] of them (50 when the limit is missing or zero); when nothing is
    skipped and the limit is not exceeded, it returns every such message. *)
Theorem findByConversation_hides_deleted
    (cid : ObjectId) (options : MessageStatics.Options) (s : Store) :
  exists result,
    MessageStatics.findByConversation cid options s = (Ok result, s) /\
    (forall m, In m result ->
       In m (messages s) /\ Message.conversationId m = cid /\ Message.isDeleted m = false) /\
    (length result <= MessageStatics.nat_or (MessageStatics.limit options) 50)%nat /\
    (MessageStatics.nat_or (MessageStatics.skip options) 0 = 0%nat ->
     (MessageOps.count_active cid s
      <= MessageStatics.nat_or (MessageStatics.limit options) 50)%nat ->
     forall m, In m (messages s) -> Message.conversationId m = cid ->
               Message.isDeleted m = false -> In m result).
Proof.
  eexists. split; [reflexivity|].
  pose proof (selected_perm cid options s) as Hperm.
  set (sorted := if MessageStatics.is_desc options then _ else _) in *.
  split; [|split].
  - intros m Hm. apply firstn_subset, skipn_subset in Hm.
    apply (Permutation_in _ Hperm) in Hm. apply filter_In in Hm.
    destruct Hm as [Hin Hp]. apply andb_true_iff in Hp. destruct Hp as [Hc Hd].
    split; [exact Hin|]. split.
    + apply N.eqb_eq. exact Hc.
    + apply negb_true_iff. exact Hd.
  - rewrite length_firstn. lia.
  - intros Hskip Hcount m Hin Hc Hd. rewrite Hskip. cbn [skipn].
    rewrite firstn_all2.
    + apply (Permutation_in _ (Permutation_sym Hperm)). apply filter_In.
      split; [exact Hin|]. apply andb_true_iff. split.
      * apply N.eqb_eq. exact Hc.
      * apply negb_true_iff. exact Hd.
    + rewrite (Permutation_length Hperm). exact Hcount.
Qed.

(* ------------------------------------------------------------------ *)
(** ** Access to a conversation and its tags *)

Section AccessProps.
Import Conversation ConversationMethods.

Lemma indexOf_lower_bound (l : list string) (x : string) : (-1 <= indexOf l x)%Z.
Proof.
  induction l as [|y l IH]; cbn [indexOf]; [lia|].
  destruct (String.eqb y x); [lia|].
  destruct (indexOf l x =? -1)%Z; lia.
Qed.

Lemma indexOf_absent (l : list string) (x : string) : ~ In x l -> indexOf l x = (-1)%Z.
Proof.
  induction l as [|y l IH]; intro H; cbn [indexOf]; [reflexivity|].
  destruct (String.eqb_spec y x) as [E|_].
  - exfalso. apply H. left. exact E.
  - rewrite IH by (intro Hin; apply H; right; exact Hin). reflexivity.
Qed.

Lemma find_snoc_miss {A} (p : A -> bool) (l : list A) (x : A) :
  p x = false -> find p (l ++ [x]) = find p l.
Proof.
  intro Hx. induction l as [|y l IH]; cbn [app find]; [rewrite Hx; reflexivity|].
  destruct (p y); [reflexivity|exact IH].
Qed.

Lemma find_snoc_hit {A} (p : A -> bool) (l : list A) (x : A) :
  find p l = None -> p x = true -> find p (l ++ [x]) = Some x.
Proof.
  intros Hl Hx. induction l as [|y l IH]; cbn [app find]; [rewrite Hx; reflexivity|].
  cbn [find] in Hl. destruct (p y); [discriminate Hl|exact (IH Hl)].
Qed.

Lemma find_set_permission_same (l : list Share) (h : ObjectId) (p : string) (sh : Share) :
  find (fun s => same_user s (IdString h)) l = Some sh ->
  find (fun s => same_user s (IdString h)) (set_permission l (IdString h) p)
  = Some (mkShare (s_userId sh) p (s_addedAt sh)).
Proof.
  induction l as [|x l IH]; [discriminate|].
  cbn [find set_permission]. destruct (same_user x (IdString h)) eqn:E.
  - intros [= <-]. cbn [find]. cbn [same_user s_userId] in *. rewrite E. reflexivity.
  - intro F. cbn [find]. rewrite E. exact (IH F).
Qed.

Lemma find_set_permission_other (l : list Share) (h h' : ObjectId) (p : string) :
  h' <> h ->
  find (fun s => same_user s (IdString h')) (set_permission l (IdString h) p)
  = find (fun s => same_user s (IdString h')) l.
Proof.
  intro Hne. induction l as [|x l IH]; [reflexivity|].
  cbn [set_permission]. destruct (same_user x (IdString h)) eqn:E.
  - cbn [find same_user s_userId] in *. apply N.eqb_eq in E. rewrite E.
    apply N.eqb_neq in Hne. rewrite N.eqb_sym, Hne. reflexivity.
  - cbn [find]. destruct (same_user x (IdString h')); [reflexivity|exact IH].
Qed.

Lemma find_filter_removed (l : list Share) (h : ObjectId) :
  find (fun s => same_user s (IdString h))
       (filter (fun s => negb (same_user s (IdString h))) l) = None.
Proof.
  induction l as [|x l IH]; [reflexivity|].
  cbn [filter]. destruct (same_user x (IdString h)) eqn:E; cbn [negb]; [exact IH|].
  cbn [find]. rewrite E. exact IH.
Qed.

Lemma find_filter_other (l : list Share) (h h' : ObjectId) :
  h' <> h ->
  find (fun s => same_user s (IdString h'))
       (filter (fun s => negb (same_user s (IdString h))) l)
  = find (fun s => same_user s (IdString h')) l.
Proof.
  intro Hne. induction l as [|x l IH]; [reflexivity|].
  cbn [filter]. destruct (same_user x (IdString h)) eqn:E; cbn [negb].
  - cbn [find]. cbn [same_user] in *. apply N.eqb_eq in E. rewrite E.
    apply N.eqb_neq in Hne. rewrite N.eqb_sym, Hne. exact IH.
  - cbn [find]. destruct (same_user x (IdString h')); [reflexivity|exact IH].
Qed.

Lemma find_object_id (l : list Share) (h : ObjectId) :
  find (fun s => same_user s (IdObject h)) l = None.
Proof. induction l as [|x l IH]; [reflexivity|exact IH]. Qed.

Lemma map_trimmed (l : list string) :
  Forall (fun t => JsString.trim t = t) l -> map JsString.trim l = l.
Proof.
  induction 1 as [|t l Ht _ IH]; [reflexivity|].
  cbn [map]. rewrite Ht, IH. reflexivity.
Qed.

Lemma existsb_tag (tag : string) (l : list string) :
  existsb (String.eqb tag) l = true <-> In tag l.
Proof.
  rewrite existsb_exists. split.
  - intros [x [Hin Hx]]. apply String.eqb_eq in Hx. subst x. exact Hin.
  - intro Hin. exists tag. split; [exact Hin|apply String.eqb_refl].
Qed.

Lemma NoDup_snoc_string (l : list string) (x : string) :
  ~ In x l -> NoDup l -> NoDup (l ++ [x]).
Proof.
  induction l as [|y l IH]; intros Hnot Hnd; cbn [app].
  - constructor; [intros []|constructor].
  - inversion Hnd as [|z zs Hy Hl]; subst.
    constructor.
    + rewrite in_app_iff. intros [Hin|[Heq|[]]]; [exact (Hy Hin)|].
      apply Hnot. left. symmetry. exact Heq.
    + apply IH; [|exact Hl]. intro Hin. apply Hnot. right. exact Hin.
Qed.

Lemma tags_addTag (c : Conversation.t) (tag : string) :
  JsString.trim tag = tag ->
  tags (addTag c tag) = if existsb (String.eqb tag) (tags c) then tags c
                        else (tags c ++ [tag])%list.
Proof.
  intro Ht. unfold addTag. destruct (existsb _ _); [reflexivity|].
  cbn [tags set_tags]. rewrite Ht. reflexivity.
Qed.

Lemma tags_removeTag (c : Conversation.t) (tag : string) :
  Forall (fun t => JsString.trim t = t) (tags c) ->
  tags (removeTag c tag) = filter (fun t => negb (String.eqb t tag)) (tags c).
Proof.
  intro H. unfold removeTag. cbn [tags set_tags]. apply map_trimmed.
  rewrite Forall_forall in *. intros t Ht. apply filter_In in Ht. apply H, Ht.
Qed.

Lemma tag_step_keeps_set (c : Conversation.t) (o : tag_op) :
  JsString.trim (tag_of o) = tag_of o ->
  NoDup (tags c) /\ Forall (fun t => JsString.trim t = t) (tags c) ->
  NoDup (tags (tag_step c o)) /\ Forall (fun t => JsString.trim t = t) (tags (tag_step c o)).
Proof.
  intros Ht [Hnd Htr]. destruct o as [tag|tag]; cbn [tag_step tag_of] in *.
  - rewrite (tags_addTag c tag Ht). destruct (existsb _ _) eqn:E; [split; assumption|].
    split.
    + apply NoDup_snoc_string; [|exact Hnd]. intro Hin.
      apply existsb_tag in Hin. rewrite Hin in E. discriminate E.
    + apply Forall_app. split; [exact Htr|]. constructor; [exact Ht|constructor].
  - rewrite (tags_removeTag c tag Htr). split.
    + apply NoDup_filter. exact Hnd.
    + rewrite Forall_forall in *. intros t Hin. apply filter_In in Hin. apply Htr, Hin.
Qed.

End AccessProps.

(** X7.  The owner of a conversation (given by the string of the id) has
    access whatever permission is required; for every user, access at a
    level gives access at every lower level, so admin access implies write
    access and write access implies read access. *)
Theorem hasAccess_owner_and_levels (c : Conversation.t) :
  (forall r, ConversationMethods.hasAccess c
               (Conversation.IdString (Conversation.userId c)) r = true) /\
  (forall u r1 r2,
      (ConversationMethods.indexOf ConversationMethods.permissions r1
       <= ConversationMethods.indexOf ConversationMethods.permissions r2)%Z ->
      ConversationMethods.hasAccess c u r2 = true ->
      ConversationMethods.hasAccess c u r1 = true) /\
  (forall u,
      (ConversationMethods.hasAccess c u "admin" = true ->
       ConversationMethods.hasAccess c u "write" = true) /\
      (ConversationMethods.hasAccess c u "write" = true ->
       ConversationMethods.hasAccess c u "read" = true)).
Proof.
  assert (Hmono : forall u r1 r2,
             (ConversationMethods.indexOf ConversationMethods.permissions r1
              <= ConversationMethods.indexOf ConversationMethods.permissions r2)%Z ->
             ConversationMethods.hasAccess c u r2 = true ->
             ConversationMethods.hasAccess c u r1 = true).
  { intros u r1 r2 Hle. unfold ConversationMethods.hasAccess.
    destruct (ConversationMethods.is_owner c u); [reflexivity|].
    destruct (find _ (Conversation.sharedWith c)) as [sh|]; [|discriminate].
    intro H. apply Z.leb_le in H. apply Z.leb_le. lia. }
  split; [|split; [exact Hmono|]].
  - intro r. unfold ConversationMethods.hasAccess. cbn [ConversationMethods.is_owner].
    rewrite N.eqb_refl. reflexivity.
  - intro u. split; apply Hmono; vm_compute; discriminate.
Qed.

(** X8.  After [shareWith] for a user (id given as a string), that user
    has access exactly at the levels up to the permission just given, or at
    any level when the user owns the conversation; the access of every
    other user is what it was. *)
Theorem shareWith_grants_access
    (c : Conversation.t) (h : ObjectId) (p : string) (d : Date) (r : string) :
  ConversationMethods.hasAccess
    (Conversation.shareWith c (Conversation.IdString h) p d) (Conversation.IdString h) r
  = (N.eqb (Conversation.userId c) h
     || (ConversationMethods.indexOf ConversationMethods.permissions r
         <=? ConversationMethods.indexOf ConversationMethods.permissions p)%Z) /\
  (forall h', h' <> h ->
     ConversationMethods.hasAccess
       (Conversation.shareWith c (Conversation.IdString h) p d) (Conversation.IdString h') r
     = ConversationMethods.hasAccess c (Conversation.IdString h') r).
Proof.
  unfold ConversationMethods.hasAccess, Conversation.shareWith.
  cbn [ConversationMethods.is_owner].
  destruct (find (fun sh => Conversation.same_user sh (Conversation.IdString h))
              (Conversation.sharedWith c)) as [sh|] eqn:F;
    cbn [Conversation.userId Conversation.sharedWith Conversation.set_sharedWith].
  - split.
    + destruct (N.eqb (Conversation.userId c) h); [reflexivity|].
      rewrite (find_set_permission_same _ _ _ _ F). reflexivity.
    + intros h' Hne. rewrite (find_set_permission_other _ _ _ _ Hne). reflexivity.
  - split.
    + destruct (N.eqb (Conversation.userId c) h); [reflexivity|].
      rewrite find_snoc_hit; [reflexivity|exact F|].
      cbn [Conversation.same_user Conversation.s_userId Conversation.id_of].
      apply N.eqb_refl.
    + intros h' Hne. rewrite find_snoc_miss; [reflexivity|].
      cbn [Conversation.same_user Conversation.s_userId Conversation.id_of].
      apply N.eqb_neq. intro E. apply Hne. symmetry. exact E.
Qed.

(** X9.  After [removeShare] for a user (id given as a string), that user
    has access only when owning the conversation; the access of every other
    user is what it was. *)
Theorem removeShare_revokes_access (c : Conversation.t) (h : ObjectId) (r : string) :
  ConversationMethods.hasAccess
    (Conversation.removeShare c (Conversation.IdString h)) (Conversation.IdString h) r
  = N.eqb (Conversation.userId c) h /\
  (forall h', h' <> h ->
     ConversationMethods.hasAccess
       (Conversation.removeShare c (Conversation.IdString h)) (Conversation.IdString h') r
     = ConversationMethods.hasAccess c (Conversation.IdString h') r).
Proof.
  unfold ConversationMethods.hasAccess, Conversation.removeShare.
  cbn [ConversationMethods.is_owner Conversation.userId Conversation.sharedWith
       Conversation.set_sharedWith].
  split.
  - rewrite find_filter_removed. destruct (N.eqb (Conversation.userId c) h); reflexivity.
  - intros h' Hne. rewrite (find_filter_other _ _ _ Hne). reflexivity.
Qed.

(** X10.  Two edge cases of [hasAccess]: called with an ObjectId object
    instead of its string, it denies everyone, the owner included; and a
    required permission that is not read, write or admin is granted to
    every user of the sharing list. *)
Theorem hasAccess_edge_arguments (c : Conversation.t) (h : ObjectId) (r : string) :
  ConversationMethods.hasAccess c (Conversation.IdObject h) r = false /\
  (In h (ShareOps.shared_users c) ->
   ~ In r ConversationMethods.permissions ->
   ConversationMethods.hasAccess c (Conversation.IdString h) r = true).
Proof.
  unfold ConversationMethods.hasAccess. cbn [ConversationMethods.is_owner]. split.
  - rewrite find_object_id. reflexivity.
  - intros Hin Hr. destruct (N.eqb (Conversation.userId c) h); [reflexivity|].
    destruct (find _ (Conversation.sharedWith c)) as [sh|] eqn:F.
    + rewrite (indexOf_absent _ _ Hr). apply Z.leb_le. apply indexOf_lower_bound.
    + exfalso. exact (find_none_not_shared _ _ F Hin).
Qed.

(** X11.  Tags are a set: from a tag list without duplicates whose tags
    carry no surrounding white space, any sequence of [addTag] and
    [removeTag] calls with such tags leaves a list without duplicates. *)
Theorem tags_stay_a_set (c : Conversation.t) (ops : list ConversationMethods.tag_op) :
  NoDup (Conversation.tags c) ->
  Forall (fun t => JsString.trim t = t) (Conversation.tags c) ->
  Forall (fun o => JsString.trim (ConversationMethods.tag_of o) = ConversationMethods.tag_of o)
    ops ->
  NoDup (Conversation.tags (ConversationMethods.run_tags ops c)) /\
  Forall (fun t => JsString.trim t = t)
    (Conversation.tags (ConversationMethods.run_tags ops c)).
Proof.
  intros Hnd Htr Hops. revert c Hnd Htr.
  induction Hops as [|o ops Ho _ IH]; intros c Hnd Htr; [split; assumption|].
  unfold ConversationMethods.run_tags. cbn [fold_left].
  destruct (tag_step_keeps_set c o Ho (conj Hnd Htr)) as [Hnd' Htr'].
  apply IH; assumption.
Qed.

Lemma tags_stay_a_set_witness :
  Conversation.tags
    (ConversationMethods.run_tags
       [ConversationMethods.AddTag "work"; ConversationMethods.AddTag "urgent";
        ConversationMethods.AddTag "work"; ConversationMethods.RemoveTag "urgent"]
       (Conversation.new 10 1 "Holiday plans..." 0)) = ["work"] /\
  NoDup
    (Conversation.tags
       (ConversationMethods.run_tags
          [ConversationMethods.AddTag "work"; ConversationMethods.AddTag "urgent";
           ConversationMethods.AddTag "work"; ConversationMethods.RemoveTag "urgent"]
          (Conversation.new 10 1 "Holiday plans..." 0))).
Proof.
  split; [reflexivity|].
  apply (tags_stay_a_set (Conversation.new 10 1 "Holiday plans..." 0)
           [ConversationMethods.AddTag "work"; ConversationMethods.AddTag "urgent";
            ConversationMethods.AddTag "work"; ConversationMethods.RemoveTag "urgent"]).
  - constructor.
  - constructor.
  - repeat constructor.
Defined.

(** The membership test of [addTag] looks at the tag as given and the
    setter trims what is pushed: a tag that differs from a stored one by a
    leading no-break space (U+00A0) is stored a second time. *)
Example addTag_padded_tag_is_stored_twice :
  Conversation.tags
    (ConversationMethods.addTag
       (ConversationMethods.addTag (Conversation.new 10 1 "Holiday plans..." 0) "work")
       (String "160"%char "work"))
  = ["work"; "work"].
Proof. reflexivity. Qed.

(** X12.  On a conversation whose tags carry no surrounding white space,
    [addTag] with such a tag makes it a tag, [removeTag] makes it none, and
    both leave every other tag in or out as it was. *)
Theorem addTag_removeTag_membership (c : Conversation.t) (tag : string) :
  Forall (fun t => JsString.trim t = t) (Conversation.tags c) ->
  JsString.trim tag = tag ->
  In tag (Conversation.tags (ConversationMethods.addTag c tag)) /\
  ~ In tag (Conversation.tags (ConversationMethods.removeTag c tag)) /\
  (forall t, t <> tag ->
     (In t (Conversation.tags (ConversationMethods.addTag c tag))
      <-> In t (Conversation.tags c)) /\
     (In t (Conversation.tags (ConversationMethods.removeTag c tag))
      <-> In t (Conversation.tags c))).
Proof.
  intros Htr Ht. rewrite (tags_addTag c tag Ht), (tags_removeTag c tag Htr).
  split; [|split].
  - destruct (existsb _ _) eqn:E; [apply existsb_tag; exact E|].
    apply in_or_app. right. left. reflexivity.
  - intro Hin. apply filter_In in Hin. destruct Hin as [_ Hin].
    rewrite String.eqb_refl in Hin. discriminate Hin.
  - intros t Hne. split.
    + destruct (existsb _ _); [reflexivity|]. rewrite in_app_iff. cbn [In].
      split; [intros [H|[H|[]]]; [exact H|exfalso; apply Hne; symmetry; exact H]
             |intro H; left; exact H].
    + rewrite filter_In. split; [intros [H _]; exact H|].
      intro H. split; [exact H|]. apply negb_true_iff. apply String.eqb_neq. exact Hne.
Qed.

Lemma addTag_removeTag_membership_witness :
  In "work"
     (Conversation.tags
        (ConversationMethods.addTag (Conversation.new 10 1 "Holiday plans..." 0) "work")) /\
  ~ In "work"
      (Conversation.tags
         (ConversationMethods.removeTag
            (ConversationMethods.addTag (Conversation.new 10 1 "Holiday plans..." 0) "work")
            "work")).
Proof.
  destruct (addTag_removeTag_membership (Conversation.new 10 1 "Holiday plans..." 0) "work")
    as (Hadd & _); [apply Forall_nil|reflexivity|].
  destruct (addTag_removeTag_membership
              (ConversationMethods.addTag (Conversation.new 10 1 "Holiday plans..." 0) "work")
              "work") as (_ & Hremove & _);
    [apply Forall_cons; [reflexivity|apply Forall_nil]|reflexivity|].
  split; assumption.
Defined.

(* ------------------------------------------------------------------ *)
(** ** Usage accounting *)

(** X13.  [checkLimits] depends on the subscription plan and on the type
    only: two users on the same plan get the same answer whatever their
    usage counters, and no [updateUsage] call changes the answer. *)
Theorem checkLimits_ignores_usage (a b : User.t) (type : string) :
  (User.plan a = User.plan b -> User.checkLimits a type = User.checkLimits b type) /\
  (forall usedType count now,
      User.checkLimits (User.updateUsage a usedType count now) type
      = User.checkLimits a type).
Proof.
  assert (H : forall x y : User.t,
             User.plan x = User.plan y -> User.checkLimits x type = User.checkLimits y type).
  { intros x y Hp.
    destruct (User.checkLimits x type) eqn:Ex, (User.checkLimits y type) eqn:Ey;
      try reflexivity.
    - apply checkLimits_true_iff in Ex. rewrite Hp in Ex.
      apply checkLimits_true_iff in Ex. rewrite Ex in Ey. discriminate Ey.
    - apply checkLimits_true_iff in Ey. rewrite <- Hp in Ey.
      apply checkLimits_true_iff in Ey. rewrite Ey in Ex. discriminate Ex. }
  split; [apply H|].
  intros usedType count now. apply H. reflexivity.
Qed.

(* ------------------------------------------------------------------ *)
(** ** Deleting and reading a conversation *)

Section ConversationLifeProps.
Import ChatController ChatHistory.

Lemma remove_first_length {A} (p : A -> bool) (l : list A) (x : A) :
  find p l = Some x -> S (length (remove_first p l)) = length l.
Proof.
  induction l as [|y l IH]; [discriminate|].
  cbn [find remove_first]. destruct (p y); [reflexivity|].
  intro F. cbn [length]. rewrite (IH F). reflexivity.
Qed.

Lemma remove_first_subset {A} (p : A -> bool) (l : list A) (x : A) :
  In x (remove_first p l) -> In x l.
Proof.
  induction l as [|y l IH]; [intros []|].
  cbn [remove_first]. destruct (p y); [intro H; right; exact H|].
  intros [->|H]; [left; reflexivity|right; apply IH; exact H].
Qed.

Lemma remove_first_other {A} (p : A -> bool) (l : list A) (x : A) :
  In x l -> p x = false -> In x (remove_first p l).
Proof.
  induction l as [|y l IH]; [intros []|].
  cbn [remove_first]. intros [->|H] Hp.
  - rewrite Hp. left. reflexivity.
  - destruct (p y); [exact H|right; apply IH; assumption].
Qed.

(** With ids that identify the conversations, removing the conversation
    found for an id leaves none with that id. *)
Lemma find_after_remove (q : Conversation.t -> bool) (l : list Conversation.t)
    (cid : ObjectId) (x : Conversation.t) :
  NoDup (map Conversation._id l) ->
  find (fun c => Db.has_id cid c && q c) l = Some x ->
  find (Db.has_id cid) (remove_first (fun c => Db.has_id cid c && q c) l) = None.
Proof.
  induction l as [|y l IH]; [discriminate|].
  cbn [map find remove_first]. intros Hnd F.
  inversion Hnd as [|i ids Hnot Hrest]; subst.
  destruct (Db.has_id cid y) eqn:Ey; cbn [andb] in *.
  - destruct (q y).
    + destruct (find (Db.has_id cid) l) as [z|] eqn:Fz; [|reflexivity].
      exfalso. apply find_has_id in Fz. destruct Fz as [Hin Hid].
      apply has_id_true in Ey. apply Hnot. rewrite Ey, <- Hid. apply in_map. exact Hin.
    + exfalso. apply find_some in F. destruct F as [Hin Hx].
      apply andb_true_iff in Hx. destruct Hx as [Hx _].
      apply has_id_true in Hx. apply has_id_true in Ey.
      apply Hnot. rewrite Ey, <- Hx. apply in_map. exact Hin.
  - cbn [find]. rewrite Ey. apply IH; assumption.
Qed.

End ConversationLifeProps.

(** X14.  When the caller owns a conversation with the given id,
    [deleteConversation] succeeds: one conversation is removed and no other
    is added or changed, no message of that conversation is left, and the
    messages of the other conversations are all kept; when ids identify the
    conversations, looking the id up afterwards finds nothing. *)
Theorem deleteConversation_cascades (userId cid : ObjectId) (s : Store) (c : Conversation.t) :
  In c (conversations s) ->
  Conversation._id c = cid ->
  Conversation.userId c = userId ->
  exists s',
    ChatController.deleteConversation userId cid s = (Ok tt, s') /\
    S (length (conversations s')) = length (conversations s) /\
    (forall c', In c' (conversations s') -> In c' (conversations s)) /\
    (forall c', In c' (conversations s) -> Conversation._id c' <> cid ->
                In c' (conversations s')) /\
    (forall m, In m (messages s') -> Message.conversationId m <> cid) /\
    (forall m, Message.conversationId m <> cid ->
               (In m (messages s') <-> In m (messages s))) /\
    (NoDup (map Conversation._id (conversations s)) ->
     find (Db.has_id cid) (conversations s') = None).
Proof.
  intros Hin Hid Howner.
  unfold ChatController.deleteConversation, bind, Db.Conversation_findOneAndDelete.
  destruct (find (fun c0 => Db.has_id cid c0 && N.eqb (Conversation.userId c0) userId)
              (conversations s)) as [x|] eqn:F.
  - eexists. split; [reflexivity|].
    cbn [conversations messages Db.set_conversations Db.set_messages].
    split; [apply (remove_first_length _ _ x F)|].
    split; [intros c'; apply remove_first_subset|].
    split.
    { intros c' Hc' Hne. apply remove_first_other; [exact Hc'|].
      apply andb_false_iff. left. unfold Db.has_id. apply N.eqb_neq. exact Hne. }
    split.
    { intros m Hm. apply filter_In in Hm. destruct Hm as [_ Hm].
      apply negb_true_iff in Hm. apply N.eqb_neq. exact Hm. }
    split.
    { intros m Hm. rewrite filter_In. split; [intros [H _]; exact H|].
      intro H. split; [exact H|]. apply negb_true_iff. apply N.eqb_neq. exact Hm. }
    intro Hnd. apply (find_after_remove _ _ _ x Hnd F).
  - exfalso. pose proof (find_none _ _ F c Hin) as H.
    apply andb_false_iff in H. destruct H as [H|H].
    + unfold Db.has_id in H. apply N.eqb_neq in H. contradiction.
    + apply N.eqb_neq in H. contradiction.
Qed.

Lemma deleteConversation_cascades_witness :
  exists s',
    ChatController.deleteConversation 1 10 MoreSamples.three_messages = (Ok tt, s') /\
    conversations s' = [] /\ messages s' = [].
Proof.
  destruct (deleteConversation_cascades 1 10 MoreSamples.three_messages
              (Conversation.inc_messageCount
                 (Conversation.inc_messageCount
                    (Conversation.inc_messageCount
                       (Conversation.new 10 1 "Holiday plans..." 0)))))
    as (s' & Hrun & _); [left; reflexivity|reflexivity|reflexivity|].
  exists s'. split; [exact Hrun|].
  vm_compute in Hrun. injection Hrun as <-. split; reflexivity.
Defined.

(** X15.  [getConversationHistory] never changes the store.  It throws
    "Conversation not found" when no conversation with the id is owned by
    the caller; and what it returns is a stored conversation with that id
    and that owner together with all the messages of the conversation,
    soft-deleted ones included, in the order in which they were stored. *)
Theorem getConversationHistory_reads_all (userId cid : ObjectId) (s : Store) :
  snd (ChatHistory.getConversationHistory userId cid s) = s /\
  ((forall c, In c (conversations s) -> Conversation._id c = cid ->
              Conversation.userId c <> userId) ->
   fst (ChatHistory.getConversationHistory userId cid s)
   = Throw (Err "Conversation not found")) /\
  (forall c msgs,
      fst (ChatHistory.getConversationHistory userId cid s) = Ok (c, msgs) ->
      In c (conversations s) /\ Conversation._id c = cid /\ Conversation.userId c = userId /\
      msgs = filter (Db.in_conversation cid) (messages s)).
Proof.
  unfold ChatHistory.getConversationHistory, bind, ChatHistory.Conversation_findOne,
    ChatHistory.Message_find_sorted, ret, throw.
  destruct (find (fun c => Db.has_id cid c && N.eqb (Conversation.userId c) userId)
              (conversations s)) as [x|] eqn:F; cbn [fst snd].
  - split; [reflexivity|]. apply find_some in F. destruct F as [Hin Hp].
    apply andb_true_iff in Hp. destruct Hp as [Hid Howner].
    apply has_id_true in Hid. apply N.eqb_eq in Howner. split.
    + intro H. exfalso. exact (H x Hin Hid Howner).
    + intros c msgs [= <- <-]. repeat split; try assumption.
      apply sort_by_timestamp_storage_order.
  - split; [reflexivity|]. split; [reflexivity|]. intros c msgs H. discriminate H.
Qed.

(* ------------------------------------------------------------------ *)
(** ** More on the turns of [handleMessage] *)

Section MoreTurnProps.
Import ChatController.

Ltac bind_step H :=
  let a := fresh "a" in
  let s1 := fresh "s" in
  let H1 := fresh "Hstep" in
  apply bind_ok_inv in H; destruct H as (a & s1 & H1 & H).

Local Abbreviation typeOf data :=
  (match messageType data with Some t => t | None => "text" end).

(** What the validators of the message schema accepted. *)
Lemma Message_validate_ok (m : Message.t) :
  Message.validate m = Ok tt ->
  Message.in_enum Message.sender_enum (Message.sender m) = true /\
  (1 <= JsString.length (Message.content m) <= 10000)%Z /\
  Message.in_enum Message.messageType_enum (Message.messageType m) = true.
Proof.
  unfold Message.validate.
  destruct (Message.in_enum Message.sender_enum (Message.sender m)); [|discriminate].
  cbn [negb].
  destruct (JsString.length (Message.content m) =? 0)%Z eqn:E0; [discriminate|].
  destruct (10000 <? JsString.length (Message.content m))%Z eqn:E1; [discriminate|].
  destruct (Message.in_enum Message.messageType_enum (Message.messageType m));
    [|discriminate].
  intros _. apply Z.eqb_neq in E0. apply Z.ltb_ge in E1.
  unfold JsString.length in *. repeat split; lia.
Qed.

(** What the validators of the conversation schema accepted. *)
Lemma Conversation_validate_ok (c : Conversation.t) (l : string) :
  Conversation.validate c = Ok tt ->
  Conversation.lastMessage c = Some l ->
  (JsString.length l <= 500)%Z.
Proof.
  unfold Conversation.validate. intros H Hl. rewrite Hl in H.
  destruct (JsString.length (Conversation.title c) =? 0)%Z; [discriminate|].
  destruct (200 <? JsString.length (Conversation.title c))%Z; [discriminate|].
  destruct (500 <? JsString.length l)%Z eqn:E; [discriminate|].
  apply Z.ltb_ge in E. exact E.
Qed.

Lemma saveUserTurn_valid (env : Env) (data : Data) (s s1 : Store)
    (conv : Conversation.t) (um : Message.t) :
  saveUserTurn env data s = (Ok (conv, um), s1) ->
  Message.validate um = Ok tt /\
  Conversation.validate conv = Ok tt /\
  Message.content um = message data /\
  Message.messageType um = typeOf data /\
  Conversation.lastMessage conv = Some (JsString.trim (message data)).
Proof.
  unfold saveUserTurn. intro H.
  bind_step H. destruct a as [u|]; [|discriminate H].
  bind_step H. bind_step H. apply new_oid_inv in Hstep1. destruct Hstep1 as [-> ->].
  bind_step H. apply Message_insert_inv in Hstep1. destruct Hstep1 as [Hm ->].
  bind_step H. apply Conversation_saveLast_inv in Hstep1.
  destruct Hstep1 as [Hc [_ ->]].
  injection H as <- <- <-.
  split; [exact Hm|]. split; [exact Hc|]. repeat split.
Qed.

Lemma answerTurn_valid (env : Env) (data : Data) (conv : Conversation.t) (um : Message.t)
    (s s' : Store) (r : Response) :
  answerTurn env data conv um s = (Ok r, s') ->
  (1 <= JsString.length (am_content (aiMessage r)) <= 10000)%Z /\
  Message.in_enum Message.messageType_enum (am_type (aiMessage r)) = true /\
  (JsString.length (JsString.trim (am_content (aiMessage r))) <= 500)%Z.
Proof.
  unfold answerTurn, generateAIResponse. intro H.
  bind_step H. bind_step Hstep.
  unfold Db.Message_find_sorted_limit in Hstep0. injection Hstep0 as <- <-.
  injection Hstep as <- <-.
  bind_step H. apply new_oid_inv in Hstep. destruct Hstep as [-> ->].
  bind_step H. apply Message_insert_inv in Hstep. destruct Hstep as [Hm ->].
  bind_step H. apply Conversation_saveLast_inv in Hstep. destruct Hstep as [Hc _].
  injection H as <- _.
  apply Message_validate_ok in Hm. destruct Hm as (_ & Hlen & Hty).
  cbn [aiMessage am_content am_type]. cbn [Message.content Message.messageType Message.new] in *.
  split; [exact Hlen|]. split; [exact Hty|].
  apply (Conversation_validate_ok _ _ Hc). reflexivity.
Qed.

(** What a completed first half did in a conversation that exists. *)
Lemma saveUserTurn_existing_inv (env : Env) (data : Data) (s s1 : Store)
    (conv : Conversation.t) (um : Message.t) (cid : ObjectId) :
  conversationId data = Some cid ->
  saveUserTurn env data s = (Ok (conv, um), s1) ->
  exists c,
    find (Db.has_id cid) (conversations s) = Some c /\
    Conversation.userId c = userId data /\
    conv = Conversation.set_last c (message data) (now env 2) /\
    um = Message.new (next_oid s) cid "user" (message data) (typeOf data) [] (now env 1) /\
    s1 = mkStore (users s)
           (update_first (Db.has_id cid) (Db.write_last conv)
              (update_first (Db.has_id cid) Conversation.inc_messageCount (conversations s)))
           (messages s ++ [um]) (N.succ (next_oid s)).
Proof.
  unfold saveUserTurn. intros Hcid H.
  bind_step H. unfold Db.User_findById in Hstep. injection Hstep as <- <-.
  destruct (find _ (users s)) as [u|]; [|discriminate H].
  bind_step H. unfold getOrCreateConversation in Hstep. rewrite Hcid in Hstep.
  bind_step Hstep. unfold Db.Conversation_findById in Hstep0. injection Hstep0 as <- <-.
  destruct (find (Db.has_id cid) (conversations s)) as [c|] eqn:F; [|discriminate Hstep].
  destruct (N.eqb (Conversation.userId c) (userId data)) eqn:Eo; [|discriminate Hstep].
  injection Hstep as <- <-.
  assert (Hid : Conversation._id c = cid) by (apply find_has_id in F; apply F).
  bind_step H. apply new_oid_inv in Hstep. destruct Hstep as [-> ->].
  bind_step H. apply Message_insert_inv in Hstep. destruct Hstep as [_ ->].
  bind_step H. apply Conversation_saveLast_inv in Hstep. destruct Hstep as [_ [_ ->]].
  injection H as <- <- <-.
  exists c. split; [reflexivity|]. split; [apply N.eqb_eq; exact Eo|].
  cbn [Message.conversationId Message.new Conversation._id Conversation.set_last
       conversations messages users next_oid Db.set_conversations].
  rewrite Hid. repeat split.
Qed.

Lemma map_id_update_first (p : Conversation.t -> bool) (f : Conversation.t -> Conversation.t)
    (l : list Conversation.t) :
  (forall c, Conversation._id (f c) = Conversation._id c) ->
  map Conversation._id (update_first p f l) = map Conversation._id l.
Proof.
  intro Hf. induction l as [|x l IH]; [reflexivity|].
  cbn [update_first]. destruct (p x); cbn [map]; [rewrite Hf|rewrite IH]; reflexivity.
Qed.

Lemma length_update_first {A} (p : A -> bool) (f : A -> A) (l : list A) :
  length (update_first p f l) = length l.
Proof.
  induction l as [|x l IH]; [reflexivity|].
  cbn [update_first]. destruct (p x); cbn [length]; [|rewrite IH]; reflexivity.
Qed.

Lemma string_length_append (a b : string) :
  String.length (a ++ b) = (String.length a + String.length b)%nat.
Proof. induction a as [|c a IH]; [reflexivity|]. cbn. rewrite IH. reflexivity. Qed.

Lemma trimStart_shorter (x : string) :
  (String.length (JsString.trimStart x) <= String.length x)%nat.
Proof.
  induction x as [|c x IH]; [apply le_n|].
  cbn [JsString.trimStart]. destruct (JsString.is_space c); cbn [String.length]; lia.
Qed.

Lemma substring_from_start_length (n : nat) (x : string) :
  (String.length (String.substring 0 n x) <= n)%nat.
Proof.
  revert x. induction n as [|n IH]; intro x.
  - destruct x; cbn; lia.
  - destruct x as [|c x]; cbn [String.substring String.length]; [lia|].
    specialize (IH x). lia.
Qed.

Lemma substring_first_fifty (m : string) :
  (String.length (JsString.substring m 0 50) <= 50)%nat.
Proof.
  unfold JsString.substring.
  replace (Nat.min 0 (String.length m)) with 0%nat by reflexivity.
  rewrite Nat.min_0_l, Nat.max_0_l, Nat.sub_0_r.
  pose proof (substring_from_start_length (Nat.min 50 (String.length m)) m). lia.
Qed.

(** The title given to a new conversation has between 3 and 53 characters. *)
Lemma new_title_length (m : string) :
  (3 <= JsString.length (JsString.trim (JsString.substring m 0 50 ++ "...")) <= 53)%Z.
Proof.
  rewrite trim_ellipsis. unfold JsString.length. rewrite string_length_append.
  pose proof (trimStart_shorter (JsString.substring m 0 50)).
  pose proof (substring_first_fifty m). cbn [String.length]. lia.
Qed.

Lemma new_conversation_valid (oid uid : ObjectId) (m : string) (d : Date) :
  Conversation.validate
    (Conversation.new oid uid (JsString.substring m 0 50 ++ "...") d) = Ok tt.
Proof.
  unfold Conversation.validate.
  cbn [Conversation.title Conversation.lastMessage Conversation.new].
  pose proof (new_title_length m) as H.
  destruct (Z.eqb_spec
              (JsString.length (JsString.trim (JsString.substring m 0 50 ++ "..."))) 0);
    [lia|].
  destruct (Z.ltb_spec 200
              (JsString.length (JsString.trim (JsString.substring m 0 50 ++ "..."))));
    [lia|reflexivity].
Qed.

Lemma bind_ok {A B} (m : M A) (k : A -> M B) (s s1 : Store) (a : A) :
  m s = (Ok a, s1) -> bind m k s = k a s1.
Proof. intro H. unfold bind. rewrite H. reflexivity. Qed.

Lemma bind_throw {A B} (m : M A) (k : A -> M B) (s s1 : Store) (e : Error) :
  m s = (Throw e, s1) -> bind m k s = (Throw e, s1).
Proof. intro H. unfold bind. rewrite H. reflexivity. Qed.

Lemma getOrCreateConversation_new (env : Env) (data : Data) (s : Store) :
  conversationId data = None ->
  getOrCreateConversation env data s =
  (Ok (Conversation.new (next_oid s) (userId data)
         (JsString.substring (message data) 0 50 ++ "...") (now env 0)),
   mkStore (users s)
     (conversations s
      ++ [Conversation.new (next_oid s) (userId data)
            (JsString.substring (message data) 0 50 ++ "...") (now env 0)])
     (messages s) (N.succ (next_oid s))).
Proof.
  intro Hnone. unfold getOrCreateConversation. rewrite Hnone.
  unfold bind, Db.new_oid, Db.Conversation_insert, bind, lift.
  rewrite new_conversation_valid. reflexivity.
Qed.

Lemma Message_insert_ok (m : Message.t) (s : Store) :
  Message.validate m = Ok tt ->
  Db.Message_insert m s =
  (Ok tt,
   mkStore (users s)
     (update_first (Db.has_id (Message.conversationId m)) Conversation.inc_messageCount
        (conversations s))
     (messages s ++ [m]) (next_oid s)).
Proof.
  intro H. unfold Db.Message_insert, bind, lift. rewrite H. reflexivity.
Qed.

Lemma Conversation_saveLast_throw (c : Conversation.t) (s : Store) (e : Error) :
  Conversation.validate c = Throw e ->
  Db.Conversation_saveLast c s = (Throw e, s).
Proof.
  intro H. unfold Db.Conversation_saveLast, bind, lift. rewrite H. reflexivity.
Qed.

Lemma user_message_valid (oid cid : ObjectId) (content ty : string) (d : Date) :
  (1 <= JsString.length content <= 10000)%Z ->
  Message.in_enum Message.messageType_enum ty = true ->
  Message.validate (Message.new oid cid "user" content ty [] d) = Ok tt.
Proof.
  intros Hlen Hty. unfold Message.validate.
  cbn [Message.sender Message.content Message.messageType Message.reactions Message.status
       Message.new].
  rewrite Hty.
  replace (JsString.length content =? 0)%Z with false by (symmetry; apply Z.eqb_neq; lia).
  replace (10000 <? JsString.length content)%Z with false by (symmetry; apply Z.ltb_ge; lia).
  reflexivity.
Qed.

End MoreTurnProps.

Section TurnTheorems.
Import ChatController.

(** X16.  A successful turn in an existing conversation is a turn of its
    owner; it creates and removes no conversation, leaves the title and the
    owner of the conversation as they were, raises its [messageCount] by
    two, caches the trimmed AI text as [lastMessage], and appends exactly
    two messages to the store: the user's, then the AI's. *)
Theorem turn_in_existing_conversation
    (env : Env) (data : Data) (cid : ObjectId) (s s' : Store) (r : Response) :
  conversationId data = Some cid ->
  handleMessage env data s = (Ok r, s') ->
  exists c c' um am,
    find (Db.has_id cid) (conversations s) = Some c /\
    Conversation.userId c = userId data /\
    find (Db.has_id cid) (conversations s') = Some c' /\
    Conversation.title c' = Conversation.title c /\
    Conversation.userId c' = Conversation.userId c /\
    Conversation.messageCount c' = (Conversation.messageCount c + 2)%Z /\
    Conversation.lastMessage c' = Some (JsString.trim (am_content (aiMessage r))) /\
    map Conversation._id (conversations s') = map Conversation._id (conversations s) /\
    messages s' = (messages s ++ [um; am])%list /\
    r_conversationId r = cid /\
    Message.conversationId um = cid /\ Message.sender um = "user" /\
    Message.content um = message data /\
    Message.conversationId am = cid /\ Message.sender am = "ai" /\
    Message.content am = am_content (aiMessage r).
Proof.
  intros Hcid H. unfold handleMessage in H.
  apply bind_ok_inv in H. destruct H as ([conv um] & s1 & Hsave & H). cbn [fst snd] in H.
  destruct (saveUserTurn_existing_inv env data s s1 conv um cid Hcid Hsave)
    as (c & F & Howner & Hconv & Hum & Hs1).
  apply answerTurn_inv in H. destruct H as (_ & Hr & Hs').
  assert (Hid : Conversation._id conv = cid).
  { rewrite Hconv. cbn [Conversation._id Conversation.set_last].
    apply find_has_id in F. apply F. }
  rewrite Hid in Hs', Hr.
  exists c. eexists. exists um. eexists.
  split; [exact F|]. split; [exact Howner|].
  split.
  { rewrite Hs', Hs1. cbn [conversations].
    rewrite !find_update_first_same
      by (intro; first [apply inc_keeps_id | apply write_last_keeps_id]).
    rewrite F. reflexivity. }
  rewrite Hr, Hs', Hs1.
  cbn [conversations messages aiMessage am_content r_conversationId
       Conversation.title Conversation.userId Conversation.messageCount
       Conversation.lastMessage Db.write_last Conversation.inc_messageCount
       Conversation.set_last
       Message.conversationId Message.sender Message.content Message.new].
  split; [reflexivity|]. split; [reflexivity|]. split; [lia|]. split; [reflexivity|].
  split.
  { rewrite !map_id_update_first by (intro; reflexivity). reflexivity. }
  split; [rewrite <- app_assoc; reflexivity|].
  split; [reflexivity|].
  rewrite Hum. cbn [Message.conversationId Message.sender Message.content Message.new].
  repeat split.
Qed.

Lemma turn_in_existing_conversation_witness :
  exists c c' um am,
    find (Db.has_id 10) (conversations Samples.one_conversation) = Some c /\
    find (Db.has_id 10)
      (conversations
         (snd (handleMessage Samples.env_up
                 (mkData 1 "And tomorrow?" (Some 10%N) None) Samples.one_conversation)))
      = Some c' /\
    Conversation.messageCount c' = (Conversation.messageCount c + 2)%Z /\
    messages
      (snd (handleMessage Samples.env_up
              (mkData 1 "And tomorrow?" (Some 10%N) None) Samples.one_conversation))
    = (messages Samples.one_conversation ++ [um; am])%list.
Proof.
  destruct (turn_in_existing_conversation Samples.env_up
              (mkData 1 "And tomorrow?" (Some 10%N) None) 10%N Samples.one_conversation
              (snd (handleMessage Samples.env_up
                      (mkData 1 "And tomorrow?" (Some 10%N) None) Samples.one_conversation))
              (mkResponse 10
                 (mkUserView 11 "And tomorrow?" "text" None)
                 (mkAiView 12 "Sunny, 21 degrees." "text"
                    [("intent", JStr "text_response"); ("confidence", JNum (9 # 10));
                     ("model", JStr "gpt-4"); ("provider", JStr "openai")] None)
                 (mkConvView 10 "Holiday plans..." (Some 1005%Z))))
    as (c & c' & um & am & Hc & _ & Hc' & _ & _ & Hcount & _ & _ & Hm & _);
    [reflexivity|reflexivity|].
  exists c, c', um, am. repeat split; assumption.
Defined.

(** X17.  A turn succeeds only within the bounds of the schemas: the
    message has from 1 to 10000 characters and at most 500 once trimmed,
    its type is one of the six message types, and the same holds of the AI
    text and of the type of the AI response. *)
Theorem successful_turn_respects_bounds
    (env : Env) (data : Data) (s s' : Store) (r : Response) :
  handleMessage env data s = (Ok r, s') ->
  (1 <= JsString.length (message data) <= 10000)%Z /\
  (JsString.length (JsString.trim (message data)) <= 500)%Z /\
  In (um_type (userMessage r)) Message.messageType_enum /\
  (1 <= JsString.length (am_content (aiMessage r)) <= 10000)%Z /\
  (JsString.length (JsString.trim (am_content (aiMessage r))) <= 500)%Z /\
  In (am_type (aiMessage r)) Message.messageType_enum.
Proof.
  intro H. unfold handleMessage in H.
  apply bind_ok_inv in H. destruct H as ([conv um] & s1 & Hsave & H). cbn [fst snd] in H.
  destruct (saveUserTurn_valid env data s s1 conv um Hsave)
    as (Hm & Hc & Hcontent & Htype & Hlast).
  destruct (answerTurn_valid env data conv um s1 s' r H) as (Hai & Haity & Hailast).
  pose proof (answerTurn_inv env data conv um s1 s' r H) as (_ & Hr & _).
  apply Message_validate_ok in Hm. destruct Hm as (_ & Hlen & Hty).
  rewrite Hcontent in Hlen.
  assert (Henum : forall v, Message.in_enum Message.messageType_enum v = true ->
                            In v Message.messageType_enum).
  { intros v Hv. unfold Message.in_enum in Hv. apply existsb_exists in Hv.
    destruct Hv as [x [Hin Hx]]. apply String.eqb_eq in Hx. subst x. exact Hin. }
  split; [exact Hlen|]. split; [exact (Conversation_validate_ok _ _ Hc Hlast)|].
  split; [rewrite Hr; cbn [userMessage um_type]; apply Henum; exact Hty|].
  split; [exact Hai|]. split; [exact Hailast|]. apply Henum. exact Haity.
Qed.

Lemma successful_turn_respects_bounds_witness :
  (JsString.length (JsString.trim "What's the weather") <= 500)%Z /\
  (JsString.length (JsString.trim "Sunny, 21 degrees.") <= 500)%Z.
Proof.
  destruct (successful_turn_respects_bounds Samples.env_up Samples.weather
              Samples.empty_store
              (snd (handleMessage Samples.env_up Samples.weather Samples.empty_store))
              (mkResponse 10
                 (mkUserView 11 "What's the weather" "text" None)
                 (mkAiView 12 "Sunny, 21 degrees." "text"
                    [("intent", JStr "text_response"); ("confidence", JNum (9 # 10));
                     ("model", JStr "gpt-4"); ("provider", JStr "openai")] None)
                 (mkConvView 10 "What's the weather..." (Some 1005%Z))))
    as (_ & Hu & _ & _ & Ha & _); [reflexivity|].
  split; assumption.
Defined.

(** X18.  A first message of valid length and type that still has more
    than 500 characters once trimmed makes the turn throw a validation
    error on [lastMessage], after the conversation was created and the
    user's message stored: both stay in the store. *)
Theorem long_first_message_is_stored_then_rejected
    (env : Env) (data : Data) (s : Store) (u : User.t) :
  find (fun x => N.eqb (User._id x) (userId data)) (users s) = Some u ->
  conversationId data = None ->
  Message.in_enum Message.messageType_enum
    (match messageType data with Some t => t | None => "text" end) = true ->
  (JsString.length (message data) <= 10000)%Z ->
  (500 < JsString.length (JsString.trim (message data)))%Z ->
  exists s',
    handleMessage env data s = (Throw (ValidationError "lastMessage"), s') /\
    messages s' =
      (messages s
       ++ [Message.new (N.succ (next_oid s)) (next_oid s) "user" (message data)
             (match messageType data with Some t => t | None => "text" end) []
             (now env 1)])%list /\
    length (conversations s') = S (length (conversations s)).
Proof.
  intros Hu Hnone Hty Hmax Hlong.
  assert (Hpos : (1 <= JsString.length (message data))%Z).
  { destruct (message data) as [|ch m]; [vm_compute in Hlong; discriminate Hlong|].
    unfold JsString.length. cbn [String.length]. lia. }
  assert (Hsave :
            saveUserTurn env data s =
            (Throw (ValidationError "lastMessage"),
             mkStore (users s)
               (update_first (Db.has_id (next_oid s)) Conversation.inc_messageCount
                  (conversations s
                   ++ [Conversation.new (next_oid s) (userId data)
                         (JsString.substring (message data) 0 50 ++ "...") (now env 0)]))
               (messages s
                ++ [Message.new (N.succ (next_oid s)) (next_oid s) "user" (message data)
                      (match messageType data with Some t => t | None => "text" end) []
                      (now env 1)])
               (N.succ (N.succ (next_oid s))))).
  { unfold saveUserTurn. cbv zeta.
    rewrite (bind_ok _ _ s s (Some u)) by (unfold Db.User_findById; rewrite Hu; reflexivity).
    rewrite (bind_ok _ _ _ _ _ (getOrCreateConversation_new env data s Hnone)).
    unfold bind at 1. unfold Db.new_oid at 1.
    cbn [next_oid users conversations messages Conversation._id Conversation.new].
    rewrite (bind_ok _ _ _ _ _
               (Message_insert_ok _ _
                  (user_message_valid _ _ _ _ _ (conj Hpos Hmax) Hty))).
    cbn [next_oid users conversations messages Message.conversationId Message.new].
    apply bind_throw. apply Conversation_saveLast_throw.
    unfold Conversation.validate.
    cbn [Conversation.title Conversation.lastMessage Conversation.set_last Conversation.new].
    pose proof (new_title_length (message data)) as Ht.
    destruct (Z.eqb_spec
                (JsString.length
                   (JsString.trim (JsString.substring (message data) 0 50 ++ "..."))) 0);
      [lia|].
    destruct (Z.ltb_spec 200
                (JsString.length
                   (JsString.trim (JsString.substring (message data) 0 50 ++ "..."))));
      [lia|].
    replace (500 <? JsString.length (JsString.trim (message data)))%Z with true
      by (symmetry; apply Z.ltb_lt; exact Hlong).
    reflexivity. }
  eexists. split; [unfold handleMessage; apply bind_throw; exact Hsave|].
  cbn [messages conversations]. split; [reflexivity|].
  rewrite length_update_first, length_app. cbn [length]. lia.
Qed.

Lemma long_first_message_is_stored_then_rejected_witness :
  exists s',
    handleMessage Samples.env_up (mkData 1 MoreSamples.long_message None None)
      Samples.empty_store = (Throw (ValidationError "lastMessage"), s') /\
    map Message._id (messages s') = [11%N] /\
    map Conversation._id (conversations s') = [10%N].
Proof.
  destruct (long_first_message_is_stored_then_rejected Samples.env_up
              (mkData 1 MoreSamples.long_message None None) Samples.empty_store
              Samples.alice)
    as (s' & Hrun & _); try reflexivity; try (vm_compute; discriminate).
  exists s'. split; [exact Hrun|].
  vm_compute in Hrun. injection Hrun as <-. split; reflexivity.
Defined.

(** X19.  An empty first message of valid type makes the turn throw a
    validation error on [content]; the conversation created for it, titled
    "...", stays in the store, without any message. *)
Theorem empty_first_message_leaves_conversation
    (env : Env) (data : Data) (s : Store) (u : User.t) :
  find (fun x => N.eqb (User._id x) (userId data)) (users s) = Some u ->
  conversationId data = None ->
  message data = EmptyString ->
  handleMessage env data s =
  (Throw (ValidationError "content"),
   mkStore (users s)
     (conversations s ++ [Conversation.new (next_oid s) (userId data) "..." (now env 0)])
     (messages s) (N.succ (N.succ (next_oid s)))).
Proof.
  intros Hu Hnone Hempty.
  unfold handleMessage, saveUserTurn, getOrCreateConversation.
  unfold bind at 1. unfold bind at 1. unfold Db.User_findById. rewrite Hu, Hnone, Hempty.
  reflexivity.
Qed.

Lemma empty_first_message_leaves_conversation_witness :
  handleMessage Samples.env_up (mkData 1 EmptyString None None) Samples.empty_store =
  (Throw (ValidationError "content"),
   mkStore [Samples.alice; Samples.bob] [Conversation.new 10 1 "..." 1000] [] 12).
Proof.
  apply (empty_first_message_leaves_conversation Samples.env_up
           (mkData 1 EmptyString None None) Samples.empty_store Samples.alice);
    reflexivity.
Defined.

End TurnTheorems.

Section ContextTheorems.
Import ChatController.

(** X20.  The conversation of a turn without [conversationId] is created
    whatever the message: creating it never fails, its title has between 3
    and 53 characters and ends with the ellipsis, it belongs to the caller
    and has no message yet. *)
Theorem new_conversation_always_created (env : Env) (data : Data) (s : Store) :
  conversationId data = None ->
  exists c,
    getOrCreateConversation env data s =
      (Ok c, mkStore (users s) (conversations s ++ [c]) (messages s) (N.succ (next_oid s))) /\
    Conversation._id c = next_oid s /\
    Conversation.userId c = userId data /\
    Conversation.messageCount c = 0%Z /\
    Conversation.title c
      = (JsString.trimStart (JsString.substring (message data) 0 50) ++ "...")%string /\
    (3 <= JsString.length (Conversation.title c) <= 53)%Z.
Proof.
  intro Hnone. eexists. split; [apply getOrCreateConversation_new; exact Hnone|].
  cbn [Conversation._id Conversation.userId Conversation.messageCount Conversation.title
       Conversation.new].
  split; [reflexivity|]. split; [reflexivity|]. split; [reflexivity|].
  split; [apply trim_ellipsis|apply new_title_length].
Qed.

Lemma new_conversation_always_created_witness :
  exists c,
    getOrCreateConversation Samples.env_up Samples.weather_padded Samples.empty_store =
      (Ok c, mkStore [Samples.alice; Samples.bob] [c] [] 11) /\
    Conversation.title c = "What's the weather...".
Proof.
  destruct (new_conversation_always_created Samples.env_up Samples.weather_padded
              Samples.empty_store) as (c & Hrun & _ & _ & _ & Htitle & _); [reflexivity|].
  exists c. split; [exact Hrun|exact Htitle].
Defined.

(** X21.  In the first turn of a conversation the history is fetched after
    the user's message was saved, so the history is that message alone and
    the request built for the chat completion holds the message twice:
    once as history, once as the current message. *)
Theorem first_turn_sends_message_twice
    (env : Env) (data : Data) (s s1 : Store) (conv : Conversation.t) (um : Message.t) :
  references_below s ->
  conversationId data = None ->
  saveUserTurn env data s = (Ok (conv, um), s1) ->
  Db.Message_find_sorted_limit (Conversation._id conv) 10 s1 = (Ok [um], s1) /\
  generateAIResponse env (message data) (Conversation._id conv) s1
    = (Ok (respondWith env (message data) [um]), s1) /\
  AIService.chat_messages (message data) [um] =
    [AIService.mkChat "system" AIService.system_prompt;
     AIService.mkChat "user" (message data);
     AIService.mkChat "user" (message data)].
Proof.
  intros Hrefs Hnone Hsave.
  destruct (saveUserTurn_new_inv env data s s1 conv um Hnone Hsave) as (Hconv & Hum & Hs1).
  assert (Hid : Conversation._id conv = next_oid s) by (rewrite Hconv; reflexivity).
  assert (Hold : filter (Db.in_conversation (next_oid s)) (messages s) = []).
  { assert (Hgen : forall l : list Message.t,
               (forall x, In x l -> (Message.conversationId x < next_oid s)%N) ->
               filter (Db.in_conversation (next_oid s)) l = []).
    { induction l as [|x l IH]; intro Hl; [reflexivity|].
      cbn [filter]. unfold Db.in_conversation at 1.
      pose proof (Hl x (or_introl eq_refl)) as Hlt.
      replace (N.eqb (Message.conversationId x) (next_oid s)) with false
        by (symmetry; apply N.eqb_neq; lia).
      apply IH. intros y Hy. apply Hl. right. exact Hy. }
    apply Hgen. exact Hrefs. }
  assert (Hhist : Db.Message_find_sorted_limit (Conversation._id conv) 10 s1 = (Ok [um], s1)).
  { unfold Db.Message_find_sorted_limit. rewrite Hid.
    replace (messages s1) with (messages s ++ [um])%list by (rewrite Hs1; reflexivity).
    rewrite filter_app, Hold. cbn [app filter].
    replace (Db.in_conversation (next_oid s) um) with true
      by (rewrite Hum; symmetry; apply N.eqb_refl).
    reflexivity. }
  split; [exact Hhist|]. split.
  - unfold generateAIResponse. unfold bind. rewrite Hhist. reflexivity.
  - unfold AIService.chat_messages. cbn [map app].
    replace (AIService.is_user um) with true by (rewrite Hum; reflexivity).
    replace (Message.content um) with (message data) by (rewrite Hum; reflexivity).
    reflexivity.
Qed.

Lemma first_turn_sends_message_twice_witness :
  AIService.chat_messages "What's the weather"
    [Message.new 11 10 "user" "What's the weather" "text" [] 1001] =
    [AIService.mkChat "system" AIService.system_prompt;
     AIService.mkChat "user" "What's the weather";
     AIService.mkChat "user" "What's the weather"].
Proof.
  destruct (first_turn_sends_message_twice Samples.env_up Samples.weather
              Samples.empty_store
              (snd (saveUserTurn Samples.env_up Samples.weather Samples.empty_store))
              (Conversation.set_last
                 (Conversation.new 10 1 "What's the weather..." 1000)
                 "What's the weather" 1002)
              (Message.new 11 10 "user" "What's the weather" "text" [] 1001))
    as (_ & _ & H); [intros m []|reflexivity|reflexivity|].
  exact H.
Defined.

(** X22.  The context of a turn is fetched without regard to soft
    deletion: in a conversation of at most 10 messages every stored
    message, soft-deleted or not, is part of the history, and its content
    is part of the request built for the chat completion. *)
Theorem context_includes_soft_deleted
    (s : Store) (cid : ObjectId) (m : Message.t) (message : string) :
  In m (messages s) ->
  Message.conversationId m = cid ->
  (MessageOps.count_all cid s <= 10)%nat ->
  exists history,
    Db.Message_find_sorted_limit cid 10 s = (Ok history, s) /\
    In m history /\
    In (AIService.mkChat (if AIService.is_user m then "user" else "assistant")
          (Message.content m))
       (AIService.chat_messages message history).
Proof.
  intros Hin Hcid Hcount. eexists. split; [reflexivity|].
  assert (Hm : In m (firstn 10
                       (Db.sort_by_timestamp
                          (filter (Db.in_conversation cid) (messages s))))).
  { rewrite firstn_all2.
    - apply (Permutation_in _ (Permutation_sym (sort_by_timestamp_perm _))).
      apply filter_In. split; [exact Hin|]. apply N.eqb_eq. exact Hcid.
    - rewrite (Permutation_length (sort_by_timestamp_perm _)). exact Hcount. }
  split; [exact Hm|].
  unfold AIService.chat_messages. right. apply in_or_app. left.
  apply (in_map (fun msg => AIService.mkChat
                              (if AIService.is_user msg then "user" else "assistant")
                              (Message.content msg))).
  exact Hm.
Qed.

Lemma context_includes_soft_deleted_witness :
  Message.isDeleted
    (Message.softDelete (Message.new 11 10 "user" "my card number is 1234" "text" [] 5) 1 8)
    = true /\
  exists history,
    Db.Message_find_sorted_limit 10 10 MoreSamples.three_messages
      = (Ok history, MoreSamples.three_messages) /\
    In (Message.softDelete (Message.new 11 10 "user" "my card number is 1234" "text" [] 5) 1 8)
       history /\
    In (AIService.mkChat "user" "my card number is 1234")
       (AIService.chat_messages "thanks again" history).
Proof.
  split; [reflexivity|].
  apply (context_includes_soft_deleted MoreSamples.three_messages 10%N
           (Message.softDelete
              (Message.new 11 10 "user" "my card number is 1234" "text" [] 5) 1 8)
           "thanks again").
  - left. reflexivity.
  - reflexivity.
  - vm_compute. lia.
Defined.

(** X23.  A voice turn is the text turn on the placeholder transcript:
    what it leaves in the store does not depend on the audio; when it
    succeeds, the response carries the audio given and the placeholder as
    transcript, the user's message has type "voice" and the placeholder as
    content, and the response was classified as a plain text request. *)
Theorem voice_turn_ignores_audio
    (env : Env) (userId : ObjectId) (audio1 audio2 : string)
    (conversationId : option ObjectId) (s : Store) :
  snd (ChatHistory.handleVoiceMessage env userId audio1 conversationId s)
    = snd (ChatHistory.handleVoiceMessage env userId audio2 conversationId s) /\
  (forall v s',
      ChatHistory.handleVoiceMessage env userId audio1 conversationId s = (Ok v, s') ->
      ChatHistory.originalAudio v = audio1 /\
      ChatHistory.speechToText audio1 = Ok (ChatHistory.transcribedText v) /\
      um_content (userMessage (ChatHistory.response v)) = ChatHistory.transcribedText v /\
      um_type (userMessage (ChatHistory.response v)) = "voice" /\
      Intent.type (Intent.analyzeIntent (ChatHistory.transcribedText v)) = "text_response").
Proof.
  split.
  - unfold ChatHistory.handleVoiceMessage, ChatHistory.speechToText, bind.
    destruct (handleMessage env _ s) as [[r|e] s1]; reflexivity.
  - intros v s' H. unfold ChatHistory.handleVoiceMessage, ChatHistory.speechToText in H.
    apply bind_ok_inv in H. destruct H as (r & s1 & Hturn & H).
    injection H as <- <-. cbn [ChatHistory.originalAudio ChatHistory.transcribedText
                                ChatHistory.response].
    unfold handleMessage in Hturn.
    apply bind_ok_inv in Hturn. destruct Hturn as ([conv um] & s0 & Hsave & Hturn).
    cbn [fst snd] in Hturn.
    destruct (saveUserTurn_valid _ _ _ _ _ _ Hsave) as (_ & _ & _ & Hty & _).
    apply answerTurn_inv in Hturn. destruct Hturn as (_ & Hr & _).
    rewrite Hr. cbn [userMessage um_content um_type message]. rewrite Hty.
    repeat split.
Qed.

End ContextTheorems.

(* ------------------------------------------------------------------ *)
(** ** The AI service and the image route *)

Section GatewayProps.
Import JsString.

Lemma prefix_chars (sub s : string) (c : ascii) :
  prefix sub s = true ->
  In c (list_ascii_of_string sub) -> In c (list_ascii_of_string s).
Proof.
  revert s. induction sub as [|a sub IH]; intros s Hp Hc; [destruct Hc|].
  destruct s as [|b s]; [discriminate Hp|].
  cbn [prefix] in Hp. destruct (ascii_dec a b) as [->|_]; [|discriminate Hp].
  cbn [list_ascii_of_string In] in *.
  destruct Hc as [Hc|Hc]; [left; exact Hc|right; apply IH; assumption].
Qed.

(** A text that includes [sub] holds every character of [sub]. *)
Lemma includes_chars (s sub : string) (c : ascii) :
  includes s sub = true ->
  In c (list_ascii_of_string sub) -> In c (list_ascii_of_string s).
Proof.
  induction s as [|b s IH]; cbn [includes]; intros H Hc.
  - destruct (prefix sub EmptyString) eqn:P; [|discriminate H].
    exact (prefix_chars _ _ _ P Hc).
  - destruct (prefix sub (String b s)) eqn:P.
    + exact (prefix_chars _ _ _ P Hc).
    + cbn [list_ascii_of_string In]. right. exact (IH H Hc).
Qed.

Lemma lower_char_not_upper_d (c : ascii) : lower_char c <> "D"%char.
Proof.
  destruct c as [[] [] [] [] [] [] [] []]; vm_compute; discriminate.
Qed.

Lemma toLowerCase_chars (s : string) (c : ascii) :
  In c (list_ascii_of_string (toLowerCase s)) -> exists d, c = lower_char d.
Proof.
  induction s as [|b s IH]; cbn [toLowerCase list_ascii_of_string In]; [intros []|].
  intros [<-|H]; [exists b; reflexivity|exact (IH H)].
Qed.

Lemma doctype_test_never_fires (code : string) :
  includes (toLowerCase code) "<!DOCTYPE" = false.
Proof.
  destruct (includes (toLowerCase code) "<!DOCTYPE") eqn:E; [|reflexivity].
  exfalso.
  assert (Hd : In "D"%char (list_ascii_of_string (toLowerCase code))).
  { apply (includes_chars _ _ _ E). cbn. tauto. }
  apply toLowerCase_chars in Hd. destruct Hd as [d Hd].
  exact (lower_char_not_upper_d d (eq_sym Hd)).
Qed.

End GatewayProps.

(** X24.  The text generation never throws: it answers with the text of
    the primary provider when that one answers, else with the text of the
    fallback provider when that one answers, else with the fixed fallback
    text; so the search, voice-command and document paths built on it never
    throw either. *)
Theorem generateTextResponse_never_throws
    (p : AIService.Providers) (message : string) (history : list Message.t) :
  (exists r,
      AIService.generateTextResponse p message history = Ok r /\
      AIService.type r = "text" /\
      match AIService.openai_chat p (AIService.chat_messages message history),
            AIService.gemini p (AIService.buildGeminiPrompt message history) with
      | Some text, _ =>
          AIService.content r = text /\
          AIService.metadata r = [("model", JStr "gpt-4"); ("provider", JStr "openai")]
      | None, Some text =>
          AIService.content r = text /\
          AIService.metadata r = [("model", JStr "gemini-pro"); ("provider", JStr "google")]
      | None, None =>
          AIService.content r = AIService.fallback_content /\
          AIService.metadata r = [("model", JStr "fallback"); ("provider", JStr "rai")]
      end) /\
  (forall now, exists r,
      AIService.webSearch p message now = Ok r /\ AIService.type r = "search_result") /\
  (exists r,
      AIService.processVoiceCommand p message = Ok r /\ AIService.type r = "voice_command") /\
  (forall now, exists r,
      AIService.analyzeDocument p message now = Ok r /\
      AIService.type r = "document_analysis").
Proof.
  split; [|split; [|split]].
  - unfold AIService.generateTextResponse, AIService.generateWithGemini.
    destruct (AIService.openai_chat p _) as [t|].
    + eexists. split; [reflexivity|]. split; [reflexivity|]. split; reflexivity.
    + destruct (AIService.gemini p _) as [t|];
        (eexists; split; [reflexivity|]; split; [reflexivity|]; split; reflexivity).
  - intro now. unfold AIService.webSearch, AIService.generateTextResponse.
    destruct (AIService.openai_chat p _); eexists; split; reflexivity.
  - unfold AIService.processVoiceCommand, AIService.generateTextResponse.
    destruct (AIService.openai_chat p _); eexists; split; reflexivity.
  - intro now. unfold AIService.analyzeDocument, AIService.generateTextResponse.
    destruct (AIService.openai_chat p _); eexists; split; reflexivity.
Qed.

(** X25.  The response of a turn carries the error marker exactly when the
    message was classified as an image request and the image call failed,
    or as a code request and the code completion failed. *)
Theorem error_marker_iff
    (env : ChatController.Env) (message : string) (history : list Message.t) :
  Obj.get (AIService.metadata (ChatController.respondWith env message history)) "error"
    = JBool true
  <->
  (Intent.type (Intent.analyzeIntent message) = "image_generation" /\
   AIService.openai_image (ChatController.providers env) message = None) \/
  (Intent.type (Intent.analyzeIntent message) = "code_generation" /\
   AIService.openai_chat (ChatController.providers env)
     [AIService.mkChat "system" AIService.code_system_prompt;
      AIService.mkChat "user" (AIService.code_prompt message)] = None).
Proof.
  pose proof (type_is_a_category message) as Hcat.
  unfold ChatController.respondWith.
  destruct (Intent.analyzeIntent message) as [ty cf]. cbn [Intent.type Intent.confidence] in *.
  unfold Intent.categories in Hcat. cbn [In] in Hcat.
  destruct Hcat as [<-|[<-|[<-|[<-|[<-|[<-|[]]]]]]];
    unfold ChatController.dispatch;
    cbn [String.eqb Ascii.eqb Bool.eqb andb].
  - unfold AIService.generateImage.
    destruct (AIService.openai_image (ChatController.providers env) message) as [url|].
    + cbn. split; [discriminate|]. intros [[_ H]|[H _]]; discriminate H.
    + cbn. split; [intros _; left; split; reflexivity|reflexivity].
  - unfold AIService.generateCode.
    destruct (AIService.openai_chat (ChatController.providers env) _) as [t|].
    + cbn. split; [discriminate|]. intros [[H _]|[_ H]]; discriminate H.
    + cbn. split; [intros _; right; split; reflexivity|reflexivity].
  - unfold AIService.webSearch, AIService.generateTextResponse.
    destruct (AIService.openai_chat (ChatController.providers env) _); cbn;
      (split; [discriminate|]; intros [[H _]|[H _]]; discriminate H).
  - unfold AIService.processVoiceCommand, AIService.generateTextResponse.
    destruct (AIService.openai_chat (ChatController.providers env) _); cbn;
      (split; [discriminate|]; intros [[H _]|[H _]]; discriminate H).
  - unfold AIService.analyzeDocument, AIService.generateTextResponse.
    destruct (AIService.openai_chat (ChatController.providers env) _); cbn;
      (split; [discriminate|]; intros [[H _]|[H _]]; discriminate H).
  - unfold AIService.generateTextResponse, AIService.generateWithGemini.
    destruct (AIService.openai_chat (ChatController.providers env) _);
      [|destruct (AIService.gemini (ChatController.providers env) _)]; cbn;
      (split; [discriminate|]; intros [[H _]|[H _]]; discriminate H).
Qed.

(** X26.  In [detectLanguage] the test for "<!DOCTYPE" is made on the
    lower-cased text and therefore never succeeds: the answer is "html"
    only for a text that contains "html", and it is always one of the
    eight labels. *)
Theorem detectLanguage_html_needs_html (code : string) :
  JsString.includes (JsString.toLowerCase code) "<!DOCTYPE" = false /\
  (AIService.detectLanguage code = "html" ->
   JsString.includes (JsString.toLowerCase code) "html" = true) /\
  In (AIService.detectLanguage code)
     ["javascript"; "python"; "java"; "cpp"; "php"; "html"; "css"; "unknown"].
Proof.
  split; [apply doctype_test_never_fires|].
  unfold AIService.detectLanguage. rewrite doctype_test_never_fires, orb_false_r.
  split.
  - repeat match goal with
           | |- context [if ?b then _ else _] =>
               let E := fresh "E" in destruct b eqn:E
           end; intro H; solve [discriminate H | assumption | reflexivity].
  - repeat match goal with
           | |- context [if ?b then _ else _] => destruct b
           end; cbn; tauto.
Qed.

(** X27.  The image route answers 400 exactly when the prompt is missing,
    empty or not a string; with a non-empty string it answers 200 with the
    image response of the provider (type "image", the URL as content) when
    the provider answers, and 500 when the provider fails. *)
Theorem image_route_statuses (p : AIService.Providers) (prompt : AiController.Prompt) :
  (AiController.generateImage p prompt = AiController.JsonError 400 "Prompt is required."
   <-> prompt = AiController.PromptMissing \/ prompt = AiController.PromptOther \/
       prompt = AiController.PromptString EmptyString) /\
  (forall text, text <> EmptyString -> prompt = AiController.PromptString text ->
     match AIService.openai_image p text with
     | Some url =>
         exists result,
           AiController.generateImage p prompt = AiController.Json 200 result /\
           AIService.content result = url /\ AIService.type result = "image" /\
           Obj.get (AIService.metadata result) "prompt" = JStr text
     | None =>
         AiController.generateImage p prompt
         = AiController.JsonError 500 "Failed to generate image."
     end).
Proof.
  split.
  - destruct prompt as [|[|c rest]|]; cbn [AiController.generateImage].
    + split; [intros _; left; reflexivity|reflexivity].
    + split; [intros _; right; right; reflexivity|reflexivity].
    + unfold AIService.generateImage.
      destruct (AIService.openai_image p (String c rest));
        (split; [discriminate|]; intros [H|[H|H]]; discriminate H).
    + split; [intros _; right; left; reflexivity|reflexivity].
  - intros text Hne ->. destruct text as [|c rest]; [contradiction|].
    cbn [AiController.generateImage]. unfold AIService.generateImage.
    destruct (AIService.openai_image p (String c rest)) as [url|]; [|reflexivity].
    eexists. split; [reflexivity|]. repeat split.
Qed.

(* ------------------------------------------------------------------ *)
(** ** What a turn never does *)

Section AppendOnlyProps.
Import ChatController.

Lemma only_appends_refl (s : Store) : only_appends s s.
Proof.
  split; [reflexivity|]. split; [exists []; rewrite app_nil_r; reflexivity|].
  split; [exists []; rewrite app_nil_r; reflexivity|]. lia.
Qed.

Lemma only_appends_trans (s1 s2 s3 : Store) :
  only_appends s1 s2 -> only_appends s2 s3 -> only_appends s1 s3.
Proof.
  intros (Hu1 & [a1 Hm1] & [c1 Hc1] & Hn1) (Hu2 & [a2 Hm2] & [c2 Hc2] & Hn2).
  split; [rewrite Hu2; exact Hu1|].
  split; [exists (a1 ++ a2)%list; rewrite Hm2, Hm1, app_assoc; reflexivity|].
  split; [exists (c1 ++ c2)%list; rewrite Hc2, Hc1, app_assoc; reflexivity|]. lia.
Qed.

Lemma appending_bind {A B} (m : M A) (k : A -> M B) :
  appending m -> (forall a, appending (k a)) -> appending (bind m k).
Proof.
  intros Hm Hk s. unfold bind. specialize (Hm s).
  destruct (m s) as [[a|e] s1]; cbn [snd] in *; [|exact Hm].
  apply (only_appends_trans _ s1); [exact Hm|apply Hk].
Qed.

Lemma appending_ret {A} (a : A) : appending (ret a).
Proof. intro s. apply only_appends_refl. Qed.

Lemma appending_throw {A} (e : Error) : appending (@throw A e).
Proof. intro s. apply only_appends_refl. Qed.

Lemma appending_lift {A} (o : outcome A) : appending (lift o).
Proof. intro s. apply only_appends_refl. Qed.

Lemma appending_new_oid : appending Db.new_oid.
Proof.
  intro s. unfold Db.new_oid. cbn [snd].
  split; [reflexivity|]. split; [exists []; rewrite app_nil_r; reflexivity|].
  split; [exists []; rewrite app_nil_r; reflexivity|]. cbn [next_oid]. lia.
Qed.

Lemma key_update_first (p : Conversation.t -> bool) (f : Conversation.t -> Conversation.t)
    (l : list Conversation.t) :
  (forall c, conversation_key (f c) = conversation_key c) ->
  map conversation_key (update_first p f l) = map conversation_key l.
Proof.
  intro Hf. induction l as [|x l IH]; [reflexivity|].
  cbn [update_first]. destruct (p x); cbn [map]; [rewrite Hf|rewrite IH]; reflexivity.
Qed.

Lemma appending_Message_insert (m : Message.t) : appending (Db.Message_insert m).
Proof.
  unfold Db.Message_insert. apply appending_bind; [apply appending_lift|]. intros _.
  apply appending_bind.
  - intro s. unfold Db.Conversation_incMessageCount. cbn [snd].
    split; [reflexivity|]. split; [exists []; rewrite app_nil_r; reflexivity|].
    split; [|cbn; lia].
    exists []. rewrite app_nil_r. cbn [conversations Db.set_conversations].
    apply key_update_first. intro c. reflexivity.
  - intros _ s. cbn [snd].
    split; [reflexivity|]. split; [exists [m]; reflexivity|].
    split; [exists []; rewrite app_nil_r; reflexivity|]. cbn. lia.
Qed.

Lemma appending_Conversation_insert (c : Conversation.t) :
  appending (Db.Conversation_insert c).
Proof.
  unfold Db.Conversation_insert. apply appending_bind; [apply appending_lift|]. intros _ s.
  cbn [snd]. split; [reflexivity|]. split; [exists []; rewrite app_nil_r; reflexivity|].
  split; [|cbn; lia].
  exists [conversation_key c]. cbn [conversations Db.set_conversations].
  rewrite map_app. reflexivity.
Qed.

Lemma appending_Conversation_saveLast (c : Conversation.t) :
  appending (Db.Conversation_saveLast c).
Proof.
  unfold Db.Conversation_saveLast. apply appending_bind; [apply appending_lift|]. intros _ s.
  destruct (existsb _ (conversations s)); cbn [snd]; [|apply only_appends_refl].
  split; [reflexivity|]. split; [exists []; rewrite app_nil_r; reflexivity|].
  split; [|cbn; lia].
  exists []. rewrite app_nil_r. cbn [conversations Db.set_conversations].
  apply key_update_first. intro d. reflexivity.
Qed.

Lemma appending_getOrCreateConversation (env : Env) (data : Data) :
  appending (getOrCreateConversation env data).
Proof.
  unfold getOrCreateConversation. destruct (conversationId data) as [cid|].
  - apply appending_bind; [intro s; apply only_appends_refl|].
    intros [c|]; [|apply appending_throw].
    destruct (N.eqb _ _); [apply appending_ret|apply appending_throw].
  - apply appending_bind; [apply appending_new_oid|]. intro oid.
    apply appending_bind; [apply appending_Conversation_insert|]. intros _.
    apply appending_ret.
Qed.

Lemma appending_saveUserTurn (env : Env) (data : Data) :
  appending (saveUserTurn env data).
Proof.
  unfold saveUserTurn. cbv zeta.
  apply appending_bind; [intro s; apply only_appends_refl|].
  intros [u|]; [|apply appending_throw].
  apply appending_bind; [apply appending_getOrCreateConversation|]. intro c.
  apply appending_bind; [apply appending_new_oid|]. intro oid.
  apply appending_bind; [apply appending_Message_insert|]. intros _.
  apply appending_bind; [apply appending_Conversation_saveLast|]. intros _.
  apply appending_ret.
Qed.

Lemma appending_answerTurn (env : Env) (data : Data) (c : Conversation.t) (um : Message.t) :
  appending (answerTurn env data c um).
Proof.
  unfold answerTurn. cbv zeta.
  apply appending_bind.
  { unfold generateAIResponse. apply appending_bind; [intro s; apply only_appends_refl|].
    intro h. apply appending_ret. }
  intro r.
  apply appending_bind; [apply appending_new_oid|]. intro oid.
  apply appending_bind; [apply appending_Message_insert|]. intros _.
  apply appending_bind; [apply appending_Conversation_saveLast|]. intros _.
  apply appending_ret.
Qed.

End AppendOnlyProps.

(** X28.  Whatever its outcome, success or exception, a turn only appends:
    the users are untouched, every message stored before is still there,
    unchanged and at its place, and so is every conversation with its id,
    owner and title; the counter of the ids never goes back.  The same
    holds of a voice turn. *)
Theorem handleMessage_only_appends
    (env : ChatController.Env) (data : ChatController.Data) (s : Store) :
  only_appends s (snd (ChatController.handleMessage env data s)) /\
  (forall audio,
      only_appends s
        (snd (ChatHistory.handleVoiceMessage env (ChatController.userId data) audio
                (ChatController.conversationId data) s))).
Proof.
  assert (H : forall d, appending (ChatController.handleMessage env d)).
  { intro d. unfold ChatController.handleMessage.
    apply appending_bind; [apply appending_saveUserTurn|].
    intro turn. apply appending_answerTurn. }
  split; [apply H|].
  intro audio. unfold ChatHistory.handleVoiceMessage, ChatHistory.speechToText.
  apply (appending_bind _ _ (H _)). intro r. apply appending_ret.
Qed.
